(** * Customizable Finance Dashboard: the data-normalisation core

    A shallow embedding of the normalisation pipeline of the dashboard:

    - [utils/formatters.ts]: [extractData], [findTimeSeries],
      [findDataStructure], [extractTimeSeriesFields], [extractSimpleFields],
      [extractFields];
    - [utils/mappers/adapters/GenericJSONAdapter.ts] and
      [utils/mappers/adapters/AlphaVantageAdapter.ts]: the two [transform]
      functions;
    - [utils/mappers/index.ts]: the registry [mappers] and [getMapper];

    and of what the dashboard builds on it:

    - [utils/formatters.ts]: [formatValue];
    - [components/widgets/WidgetRenderer.tsx]: the memo [processedData],
      [getFieldValue], the cells and the pages of the table view;
    - [utils/cache.ts]: the class [DataCache];
    - the proxy route: [checkRateLimit];
    - [store/slices/widgetSlice.ts]: the reducers [addWidget],
      [updateLayout], [removeWidget], [reorderWidgets], [setTheme] and
      [loadDashboard];
    - [components/dashboard/DashboardGrid.tsx]: the memo [layout] and
      [handleLayoutChange];
    - [components/widgets/WidgetConfigModal.tsx]: [getFieldOptions].

    Conventions of the model.

    - A string is a sequence of UTF-16 code units below 256, one [ascii] per
      code unit.
    - A payload is parsed JSON.  An object is the list of its own enumerable
      properties in the order in which [Object.keys] and [for ... in]
      enumerate them; a lookup finds the first binding of a name.
    - A finite number carries the mathematical value of its numeral as a
      rational in lowest terms; the rounding to a 64-bit float is left out and
      [-0] is identified with [0].  The sums of the cache and of the rate
      limit are rounded to the nearest float ([Double.add]).
    - The clock, [Date.now()], is an argument of what reads it; its reading
      is a whole number.
    - A [TypeError] raised by the run time is the outcome [Throws]. *)

From Stdlib Require Import List String Ascii Bool Arith NArith ZArith QArith Lia.
From Stdlib Require Import DecimalString Sorted Permutation.
Import ListNotations.
Local Open Scope string_scope.

Set Implicit Arguments.

(* ===================================================================== *)
(** * Strings and the regular expressions of the source                   *)
(* ===================================================================== *)

Module Str.

Definition code (c : ascii) : N := N_of_ascii c.

(** [\d] *)
Definition isDigit (c : ascii) : bool :=
  (48 <=? code c)%N && (code c <=? 57)%N.

(** White space and line terminators that [parseFloat] skips, as far as
    they lie below 256: TAB, LF, VT, FF, CR, SP and NBSP. *)
Definition isWhite (c : ascii) : bool :=
  let n := code c in
  ((9 <=? n)%N && (n <=? 13)%N) || (n =? 32)%N || (n =? 160)%N.

(** What [.] refuses in a regular expression: the line terminators. *)
Definition isLineTerminator (c : ascii) : bool :=
  (code c =? 10)%N || (code c =? 13)%N.

(** Canonicalisation of the [i] flag.  Only the ASCII letters fold: a code
    unit above 127 never folds onto one below 128. *)
Definition upper (c : ascii) : ascii :=
  let n := code c in
  if (97 <=? n)%N && (n <=? 122)%N then ascii_of_N (n - 32) else c.

Definition eqCase (a b : ascii) : bool := Ascii.eqb (upper a) (upper b).

Fixpoint allb (p : ascii -> bool) (s : string) : bool :=
  match s with
  | EmptyString => true
  | String c r => p c && allb p r
  end.

(** The longest prefix of digits, and what follows it. *)
Fixpoint spanDigits (s : string) : string * string :=
  match s with
  | String c r =>
      if isDigit c then let (d, t) := spanDigits r in (String c d, t)
      else (EmptyString, s)
  | EmptyString => (EmptyString, EmptyString)
  end.

Fixpoint dropWhite (s : string) : string :=
  match s with
  | String c r => if isWhite c then dropWhite r else s
  | EmptyString => EmptyString
  end.

Definition digitVal (c : ascii) : N := (code c - 48)%N.

Fixpoint digitsValueFrom (acc : N) (s : string) : N :=
  match s with
  | EmptyString => acc
  | String c r => digitsValueFrom (10 * acc + digitVal c)%N r
  end.

(** The integer a string of decimal digits denotes. *)
Definition digitsValue (s : string) : N := digitsValueFrom 0%N s.

(** [s.includes(p)], case-sensitive. *)
Fixpoint includes (p s : string) : bool :=
  String.prefix p s
  || match s with
     | EmptyString => false
     | String _ r => includes p r
     end.

(** [s.split(".")] for a separator of one code unit. *)
Fixpoint split (sep : ascii) (s : string) : list string :=
  match s with
  | EmptyString => [EmptyString]
  | String c r =>
      if Ascii.eqb c sep then EmptyString :: split sep r
      else match split sep r with
           | h :: t => String c h :: t
           | [] => [String c EmptyString]
           end
  end.

(** ** A matcher for the patterns of the source

    The name patterns of the classifier are sequences of literal code units
    and [.?], matched anywhere in the subject and without regard to case. *)
Inductive atom : Type :=
| Lit (c : ascii)
| OptAny.

Fixpoint lits (s : string) : list atom :=
  match s with
  | EmptyString => []
  | String c r => Lit c :: lits r
  end.

Fixpoint matchHere (p : list atom) (s : string) : bool :=
  match p with
  | [] => true
  | Lit c :: p' =>
      match s with
      | String d r => eqCase c d && matchHere p' r
      | EmptyString => false
      end
  | OptAny :: p' =>
      match s with
      | String d r =>
          (negb (isLineTerminator d) && matchHere p' r) || matchHere p' s
      | EmptyString => matchHere p' s
      end
  end.

(** [/p/i.test(s)] *)
Fixpoint test (p : list atom) (s : string) : bool :=
  matchHere p s
  || match s with
     | EmptyString => false
     | String _ r => test p r
     end.

(** [/^\d+$/.test(s)] *)
Definition isPureDigits (s : string) : bool :=
  negb (String.eqb s EmptyString) && allb isDigit s.

(** [s.match(/^\d+/)?.[0]]: the leading digits, when there is one. *)
Definition leadingDigits (s : string) : option string :=
  match fst (spanDigits s) with
  | EmptyString => None
  | d => Some d
  end.

(** [/^\d{4}-\d{2}-\d{2}/.test(s)] *)
Definition isDateLike (s : string) : bool :=
  match s with
  | String y1 (String y2 (String y3 (String y4 (String d1
      (String m1 (String m2 (String d2 (String a1 (String a2 _))))))))) =>
      isDigit y1 && isDigit y2 && isDigit y3 && isDigit y4
      && Ascii.eqb d1 "-" && isDigit m1 && isDigit m2
      && Ascii.eqb d2 "-" && isDigit a1 && isDigit a2
  | _ => false
  end.

(** Decimal numeral of a natural number, as array indices are spelled. *)
Definition ofN (n : N) : string := NilEmpty.string_of_uint (N.to_uint n).

(** The array index a property name spells: the canonical numeral only
    ("0", "7", "12"; neither "" nor "07"). *)
Definition toIndex (k : string) : option N :=
  match NilEmpty.uint_of_string k with
  | Some u => let n := N.of_uint u in
              if String.eqb (ofN n) k then Some n else None
  | None => None
  end.

Fixpoint nthChar (n : nat) (s : string) : option ascii :=
  match s, n with
  | EmptyString, _ => None
  | String c _, O => Some c
  | String _ r, S m => nthChar m r
  end.

End Str.

(* ===================================================================== *)
(** * Numbers                                                             *)
(* ===================================================================== *)

Inductive number : Type :=
| NaN
| PosInfinity
| NegInfinity
| Fin (q : Q).

Module Num.

Definition zero : number := Fin (0 # 1).

Definition ofN (n : N) : number := Fin (Z.of_N n # 1).

(** [ToBoolean] of a number: [NaN] and zero are falsy. *)
Definition truthy (n : number) : bool :=
  match n with
  | NaN => false
  | Fin q => negb (Qeq_bool q 0)
  | _ => true
  end.

(** [n >= 0]; a comparison with [NaN] is false. *)
Definition geZero (n : number) : bool :=
  match n with
  | NaN | NegInfinity => false
  | PosInfinity => true
  | Fin q => Qle_bool 0 q
  end.

(** An optional sign. *)
Definition spanSign (s : string) : bool * string :=
  match s with
  | String "-" r => (true, r)
  | String "+" r => (false, r)
  | _ => (false, s)
  end.

(** The exponent part [e][+-]digits, when it is complete; it is ignored
    otherwise. *)
Definition exponent (s : string) : Z :=
  match s with
  | String c r =>
      if Ascii.eqb c "e" || Ascii.eqb c "E" then
        let (neg, r') := spanSign r in
        match fst (Str.spanDigits r') with
        | EmptyString => 0%Z
        | d => let e := Z.of_N (Str.digitsValue d) in
               if neg then (- e)%Z else e
        end
      else 0%Z
  | EmptyString => 0%Z
  end.

(** The value [m * 10^e] in lowest terms. *)
Definition scale (m : N) (e : Z) : Q :=
  if (0 <=? e)%Z then (Z.of_N m * 10 ^ e)%Z # 1
  else Qred (Z.of_N m # Pos.pow 10 (Z.to_pos (- e))).

(** [parseFloat(s)] on a string: the longest prefix, after leading white
    space, that is a decimal literal ([Infinity], digits with an optional
    fraction and exponent, or a fraction alone); [NaN] when there is
    none. *)
Definition parseFloat (s : string) : number :=
  let (neg, s1) := spanSign (Str.dropWhite s) in
  if String.prefix "Infinity" s1 then
    if neg then NegInfinity else PosInfinity
  else
    let (ip, r1) := Str.spanDigits s1 in
    let (fp, r2) := match r1 with
                    | String "." r => Str.spanDigits r
                    | _ => (EmptyString, r1)
                    end in
    match ip ++ fp with
    | EmptyString => NaN
    | ds =>
        let q := scale (Str.digitsValue ds)
                       (exponent r2 - Z.of_nat (String.length fp)) in
        Fin (if neg then Qred (- q) else q)
    end.

End Num.

(* ===================================================================== *)
(** * Values                                                              *)
(* ===================================================================== *)

(** Parsed JSON. *)
#[warnings="-register-all"]
Inductive json : Type :=
| JNull
| JBool (b : bool)
| JNum (n : number)
| JStr (s : string)
| JArr (items : list json)
| JObj (props : list (string * json)).

(** The built-in prototype objects a property access on a JSON value can
    reach. *)
Inductive protoKind : Type :=
| PObject
| PArray
| PString
| PNumber
| PBoolean.

(** What the code can hold in a variable of type [unknown]: [undefined], a
    JSON value, or something found on the prototype chain of one, namely a
    built-in function or a built-in prototype object. *)
Inductive value : Type :=
| Undefined
| J (j : json)
| Function
| Proto (p : protoKind).

(** The outcome of a call: a result, or a [TypeError]. *)
Inductive outcome (A : Type) : Type :=
| Returns (a : A)
| Throws.
Arguments Throws {A}.

Definition bind {A B : Type} (m : outcome A) (k : A -> outcome B) : outcome B :=
  match m with
  | Returns a => k a
  | Throws => Throws
  end.

Declare Scope outcome_scope.
Delimit Scope outcome_scope with outcome.
Notation "x <- m ;; k" := (bind m (fun x => k))
  (at level 61, m at next level, right associativity) : outcome_scope.
Local Open Scope outcome_scope.

Inductive jstype : Type :=
| TUndefined | TObject | TBoolean | TNumber | TString | TFunction.

Module Js.

Definition typeof (v : value) : jstype :=
  match v with
  | Undefined => TUndefined
  | J (JBool _) => TBoolean
  | J (JNum _) => TNumber
  | J (JStr _) => TString
  | J _ => TObject
  | Function => TFunction
  | Proto _ => TObject
  end.

Definition isObjectType (v : value) : bool :=
  match typeof v with TObject => true | _ => false end.

(** [ToBoolean] *)
Definition truthy (v : value) : bool :=
  match v with
  | Undefined => false
  | J JNull => false
  | J (JBool b) => b
  | J (JNum n) => Num.truthy n
  | J (JStr s) => negb (String.eqb s EmptyString)
  | _ => true
  end.

Definition isNullish (v : value) : bool :=
  match v with
  | Undefined | J JNull => true
  | _ => false
  end.

(** [Array.isArray]; [Array.prototype] is itself an array, of length 0. *)
Definition isArray (v : value) : bool :=
  match v with
  | J (JArr _) | Proto PArray => true
  | _ => false
  end.

Definition items (v : value) : list json :=
  match v with
  | J (JArr l) => l
  | _ => []
  end.

Fixpoint assoc {A : Type} (k : string) (l : list (string * A)) : option A :=
  match l with
  | [] => None
  | (k', a) :: r => if String.eqb k' k then Some a else assoc k r
  end.

Definition mem (k : string) (l : list string) : bool :=
  existsb (String.eqb k) l.

(** The string-keyed members of the built-in prototypes (ECMAScript 2023
    with its annex B); every one of them is a function. *)
Definition methodNames (p : protoKind) : list string :=
  match p with
  | PObject =>
      ["constructor"; "hasOwnProperty"; "isPrototypeOf";
       "propertyIsEnumerable"; "toLocaleString"; "toString"; "valueOf";
       "__defineGetter__"; "__defineSetter__"; "__lookupGetter__";
       "__lookupSetter__"]
  | PArray =>
      ["at"; "concat"; "constructor"; "copyWithin"; "entries"; "every";
       "fill"; "filter"; "find"; "findIndex"; "findLast"; "findLastIndex";
       "flat"; "flatMap"; "forEach"; "includes"; "indexOf"; "join"; "keys";
       "lastIndexOf"; "map"; "pop"; "push"; "reduce"; "reduceRight";
       "reverse"; "shift"; "slice"; "some"; "sort"; "splice";
       "toLocaleString"; "toReversed"; "toSorted"; "toSpliced"; "toString";
       "unshift"; "values"; "with"]
  | PString =>
      ["anchor"; "at"; "big"; "blink"; "bold"; "charAt"; "charCodeAt";
       "codePointAt"; "concat"; "constructor"; "endsWith"; "fixed";
       "fontcolor"; "fontsize"; "includes"; "indexOf"; "isWellFormed";
       "italics"; "lastIndexOf"; "link"; "localeCompare"; "match";
       "matchAll"; "normalize"; "padEnd"; "padStart"; "repeat"; "replace";
       "replaceAll"; "search"; "slice"; "small"; "split"; "startsWith";
       "strike"; "sub"; "substr"; "substring"; "sup"; "toLocaleLowerCase";
       "toLocaleUpperCase"; "toLowerCase"; "toString"; "toUpperCase";
       "toWellFormed"; "trim"; "trimEnd"; "trimLeft"; "trimRight";
       "trimStart"; "valueOf"]
  | PNumber =>
      ["constructor"; "toExponential"; "toFixed"; "toLocaleString";
       "toPrecision"; "toString"; "valueOf"]
  | PBoolean => ["constructor"; "toString"; "valueOf"]
  end.

(** The prototype of a JSON value that has one. *)
Definition protoOf (j : json) : option protoKind :=
  match j with
  | JNull => None
  | JBool _ => Some PBoolean
  | JNum _ => Some PNumber
  | JStr _ => Some PString
  | JArr _ => Some PArray
  | JObj _ => Some PObject
  end.

(** The own properties of a JSON value: the bindings of an object, the
    elements and the length of an array, the code units and the length of a
    string. *)
Definition getOwn (j : json) (k : string) : option json :=
  match j with
  | JObj props => assoc k props
  | JArr l =>
      match Str.toIndex k with
      | Some i => nth_error l (N.to_nat i)
      | None => if String.eqb k "length"
                then Some (JNum (Num.ofN (N.of_nat (List.length l))))
                else None
      end
  | JStr s =>
      match Str.toIndex k with
      | Some i => option_map (fun c => JStr (String c EmptyString))
                             (Str.nthChar (N.to_nat i) s)
      | None => if String.eqb k "length"
                then Some (JNum (Num.ofN (N.of_nat (String.length s))))
                else None
      end
  | _ => None
  end.

(** The own properties of a built-in prototype object. *)
Definition protoOwn (p : protoKind) (k : string) : option value :=
  if mem k (methodNames p) then Some Function
  else match p with
       | PArray | PString =>
           if String.eqb k "length" then Some (J (JNum Num.zero)) else None
       | _ => None
       end.

(** What an object whose prototype is [p] inherits under the name [k]:
    the members of [p], then those of [Object.prototype], whose accessor
    [__proto__] answers the prototype itself. *)
Definition inherited (p : protoKind) (k : string) : option value :=
  match protoOwn p k with
  | Some v => Some v
  | None =>
      if String.eqb k "__proto__" then Some (Proto p)
      else if mem k (methodNames PObject) then Some Function
      else None
  end.

(** [proto[k]] on a built-in prototype object. *)
Definition lookupProto (p : protoKind) (k : string) : option value :=
  match protoOwn p k with
  | Some v => Some v
  | None =>
      match p with
      | PObject =>
          if String.eqb k "__proto__" then Some (J JNull) else None
      | _ => inherited PObject k
      end
  end.

(** The property [k] of [v], when [v] has it, own or inherited.  On
    [undefined] and [null] a property access throws; every access of the
    source tests its receiver first, or reads a name that [Object.keys] of
    the receiver has just produced.  The members of built-in functions are
    not modelled: a function fails the [typeof] test that precedes every
    access. *)
Definition lookup (v : value) (k : string) : option value :=
  match v with
  | J j =>
      match getOwn j k with
      | Some x => Some (J x)
      | None => match protoOf j with
                | Some p => inherited p k
                | None => None
                end
      end
  | Proto p => lookupProto p k
  | _ => None
  end.

(** [v[k]] *)
Definition get (v : value) (k : string) : value :=
  match lookup v k with
  | Some x => x
  | None => Undefined
  end.

(** [k in v] *)
Definition hasProperty (v : value) (k : string) : bool :=
  match lookup v k with
  | Some _ => true
  | None => false
  end.

(** [v[k]] where the source does not test [v] first: a [TypeError] on
    [undefined] and [null]. *)
Definition getChecked (v : value) (k : string) : outcome value :=
  if isNullish v then Throws else Returns (get v k).

(** [k in v]: a [TypeError] unless [v] is an object. *)
Definition inOperator (k : string) (v : value) : outcome bool :=
  match v with
  | J (JObj _) | J (JArr _) | Function | Proto _ => Returns (hasProperty v k)
  | _ => Throws
  end.

(** [v?.[k]] *)
Definition getOptional (v : value) (k : string) : value :=
  if isNullish v then Undefined else get v k.

Definition indexKeys (n : nat) : list string :=
  map (fun i => Str.ofN (N.of_nat i)) (seq 0 n).

(** The own enumerable string keys, in enumeration order. *)
Definition ownKeys (v : value) : list string :=
  match v with
  | J (JObj props) => map fst props
  | J (JArr l) => indexKeys (List.length l)
  | J (JStr s) => indexKeys (String.length s)
  | _ => []
  end.

(** [Object.keys(v)]: a [TypeError] on [undefined] and [null]. *)
Definition Object_keys (v : value) : outcome (list string) :=
  if isNullish v then Throws else Returns (ownKeys v).

(** [Object.entries(v)] for an object that is no array. *)
Definition ownEntries (v : value) : list (string * json) :=
  match v with
  | J (JObj props) => props
  | _ => []
  end.

(** [o.hasOwnProperty(k)]: the member is looked up on [o] and called; an
    own property of that name hides the built-in one, and a JSON value
    cannot be called. *)
Definition callHasOwnProperty (o : value) (k : string) : outcome bool :=
  match get o "hasOwnProperty" with
  | Function =>
      Returns match o with
              | J j => match getOwn j k with Some _ => true | None => false end
              | Proto p => match protoOwn p k with
                           | Some _ => true
                           | None => match p with
                                     | PObject => String.eqb k "__proto__"
                                     | _ => false
                                     end
                           end
              | _ => false
              end
  | _ => Throws
  end.

(** [a || b] on values. *)
Definition orElse (a b : value) : value := if truthy a then a else b.

(** Whether [ToString(j)] throws.  An object is printed by the first
    callable of its [toString] and [valueOf] that answers a primitive: the
    built-in [toString] does, unless an own property of that name hides
    it, and then nothing does.  An array joins the strings of its
    elements. *)
Fixpoint toStringThrows (j : json) : bool :=
  match j with
  | JObj props => mem "toString" (map fst props)
  | JArr l => existsb toStringThrows l
  | _ => false
  end.

(** [parseFloat(ToString(j))] when [ToString(j)] does not throw.  A number
    prints as a numeral that reads back as itself; [true], [false], [null]
    and [[object Object]] start with no numeral; the string of an array is
    the string of its first element, followed by a comma when there are
    more, and a comma ends a numeral. *)
Fixpoint parseFloatOf (j : json) : number :=
  match j with
  | JStr s => Num.parseFloat s
  | JNum n => n
  | JArr (x :: _) => parseFloatOf x
  | _ => NaN
  end.

(** [parseFloat(v)] *)
Definition parseFloat (v : value) : outcome number :=
  match v with
  | J j => if toStringThrows j then Throws else Returns (parseFloatOf j)
  | Proto PNumber => Returns Num.zero
  | _ => Returns NaN
  end.

End Js.

(* ===================================================================== *)
(** * [Array.prototype.sort]                                              *)
(* ===================================================================== *)

(** The sort of the run time is stable, and a comparator that is a total
    preorder leaves one possible result: the sorted arrangement in which
    equivalent elements keep their order.  The model is the stable insertion
    sort; [cmp a b] is the number the comparator answers, of which the sort
    reads the sign only. *)
Module Sort.

Section WithComparator.
Variable A : Type.
Variable cmp : A -> A -> Z.

Fixpoint insert (x : A) (l : list A) : list A :=
  match l with
  | [] => [x]
  | y :: r => if (cmp x y <=? 0)%Z then x :: l else y :: insert x r
  end.

Fixpoint sortWith (l : list A) : list A :=
  match l with
  | [] => []
  | x :: r => insert x (sortWith r)
  end.
End WithComparator.

(** The default comparator orders strings by their code units. *)
Definition defaultCompare (a b : string) : Z :=
  match String.compare a b with
  | Lt => (-1)%Z
  | Eq => 0%Z
  | Gt => 1%Z
  end.

(** [l.sort()] on strings. *)
Definition sort (l : list string) : list string := sortWith defaultCompare l.

End Sort.

(* ===================================================================== *)
(** * [utils/formatters.ts]                                               *)
(* ===================================================================== *)

Record TimeSeries : Type := mkTimeSeries {
  ts_key : string;
  ts_data : value
}.

Record DataStructure : Type := mkDataStructure {
  ds_key : string;
  ds_data : value;
  ds_isTimeSeries : bool
}.

Module Formatters.

(** The loop of [extractData] over the keys that remain. *)
Fixpoint walk (result : value) (keys : list string) : outcome value :=
  match keys with
  | [] => Returns result
  | k :: rest =>
      if Js.truthy result && Js.isObjectType result then
        present <- Js.inOperator k result ;;
        if present then
          next <- Js.getChecked result k ;;
          walk next rest
        else Returns (J JNull)
      else Returns (J JNull)
  end.

(** [extractData(data, path)] *)
Definition extractData (data : value) (path : option string) : outcome value :=
  if negb (Js.truthy data) then Returns (J JNull)
  else match path with
       | None => Returns data
       | Some p =>
           if String.eqb p EmptyString then Returns data
           else walk data (Str.split "." p)
       end.

(** The patterns of [findTimeSeries]:
    [/time.?series/i], [/time_series/i], [/Time Series/i], [/daily/i],
    [/weekly/i], [/monthly/i]. *)
Definition patterns : list (list Str.atom) :=
  [ (Str.lits "time" ++ [Str.OptAny] ++ Str.lits "series")%list;
    Str.lits "time_series";
    Str.lits "Time Series";
    Str.lits "daily";
    Str.lits "weekly";
    Str.lits "monthly" ].

(** The patterns of [findDataStructure]:
    [/global.?quote/i], [/quote/i], [/data/i]. *)
Definition quotePatterns : list (list Str.atom) :=
  [ (Str.lits "global" ++ [Str.OptAny] ++ Str.lits "quote")%list;
    Str.lits "quote";
    Str.lits "data" ].

Definition some (ps : list (list Str.atom)) (k : string) : bool :=
  existsb (fun pattern => Str.test pattern k) ps.

Definition nonEmpty (s : string) : bool := negb (String.eqb s EmptyString).

(** [firstKey && /^\d{4}-\d{2}-\d{2}/.test(firstKey)] for
    [firstKey = Object.keys(v)[0]] *)
Definition firstKeyIsDate (v : value) : bool :=
  match Js.ownKeys v with
  | firstKey :: _ => nonEmpty firstKey && Str.isDateLike firstKey
  | [] => false
  end.

(** [value && typeof value === "object" && !Array.isArray(value)] *)
Definition isPlainObject (v : value) : bool :=
  Js.truthy v && Js.isObjectType v && negb (Js.isArray v).

(** The loop of [findTimeSeries] over the keys that remain. *)
Fixpoint scanTimeSeries (dataObj : value) (keys : list string)
  : option TimeSeries :=
  match keys with
  | [] => None
  | k :: rest =>
      if some patterns k then
        let v := Js.get dataObj k in
        if isPlainObject v then
          if firstKeyIsDate v then Some (mkTimeSeries k v)
          else scanTimeSeries dataObj rest
        else scanTimeSeries dataObj rest
      else scanTimeSeries dataObj rest
  end.

Definition findTimeSeries (data : value) : option TimeSeries :=
  if negb (Js.truthy data) || negb (Js.isObjectType data) then None
  else
    match scanTimeSeries data (Js.ownKeys data) with
    | Some ts => Some ts
    | None =>
        if firstKeyIsDate data then Some (mkTimeSeries "root" data)
        else None
    end.

(** The loop of [findDataStructure] over the keys that remain. *)
Fixpoint scanQuote (dataObj : value) (keys : list string)
  : option DataStructure :=
  match keys with
  | [] => None
  | k :: rest =>
      if some quotePatterns k then
        let v := Js.get dataObj k in
        if isPlainObject v then Some (mkDataStructure k v false)
        else scanQuote dataObj rest
      else scanQuote dataObj rest
  end.

Definition findDataStructure (data : value) : option DataStructure :=
  if negb (Js.truthy data) || negb (Js.isObjectType data) then None
  else
    match findTimeSeries data with
    | Some ts => Some (mkDataStructure (ts_key ts) (ts_data ts) true)
    | None =>
        match scanQuote data (Js.ownKeys data) with
        | Some s => Some s
        | None => Some (mkDataStructure "root" data false)
        end
    end.

(** [value === null || value === undefined || typeof value !== "object"
    || Array.isArray(value)] *)
Definition isLeaf (v : value) : bool :=
  Js.isNullish v || negb (Js.isObjectType v) || Js.isArray v.

(** [typeof f === "string" && f.length > 0 && !/^\d+$/.test(f)] *)
Definition keepField (f : string) : bool :=
  nonEmpty f && negb (Str.isPureDigits f).

(** The [for ... in] loop of [extractTimeSeriesFields]. *)
Fixpoint entryFields (entryObj : value) (keys fields : list string)
  : outcome (list string) :=
  match keys with
  | [] => Returns fields
  | k :: rest =>
      own <- Js.callHasOwnProperty entryObj k ;;
      entryFields entryObj rest (if own then fields ++ [k] else fields)
  end.

(** The [for ... in] loop of [extractSimpleFields]. *)
Fixpoint leafFields (structureData : value) (keys fields : list string)
  : outcome (list string) :=
  match keys with
  | [] => Returns fields
  | k :: rest =>
      own <- Js.callHasOwnProperty structureData k ;;
      leafFields structureData rest
        (if own && isLeaf (Js.get structureData k) then fields ++ [k]
         else fields)
  end.

(** The [for ... in] loop of the last part of [extractFields]. *)
Fixpoint flattenFields (dataObj : value) (keys fields : list string)
  : outcome (list string) :=
  match keys with
  | [] => Returns fields
  | k :: rest =>
      own <- Js.callHasOwnProperty dataObj k ;;
      flattenFields dataObj rest
        (if own then
           let v := Js.get dataObj k in
           if isLeaf v then
             if negb (Str.isPureDigits k) then fields ++ [k] else fields
           else if Js.isObjectType v then
             fields ++ filter (fun field => negb (Str.isPureDigits field))
                              (Js.ownKeys v)
           else fields
         else fields)
  end.

Section NaturalSort.

(** [a.localeCompare(b)]: the collation of the host, of which the sort
    reads the sign. *)
Variable localeCompare : string -> string -> Z.

(** The Number that [parseInt] answers for the integer its digits
    denote, written as the integer it is, infinity as [2^1024]: the
    nearest float, up to what the host does past the twentieth digit. *)
Variable toDouble : N -> N.

(** [parseInt(a.match(/^\d+/)?.[0] || "0")] *)
Definition leadingNumber (a : string) : N :=
  toDouble (Str.digitsValue match Str.leadingDigits a with
                            | Some d => d
                            | None => "0"
                            end).

(** The comparator of the two extractors. *)
Definition naturalCompare (a b : string) : Z :=
  let numA := leadingNumber a in
  let numB := leadingNumber b in
  if negb (numA =? numB)%N then (Z.of_N numA - Z.of_N numB)%Z
  else localeCompare a b.

Definition extractTimeSeriesFields (data : value) : outcome (list string) :=
  match findTimeSeries data with
  | None => Returns []
  | Some timeSeries =>
      let timeSeriesData := ts_data timeSeries in
      match Js.ownKeys timeSeriesData with
      | [] => Returns []
      | firstDate :: _ =>
          let firstEntry := Js.get timeSeriesData firstDate in
          if negb (Js.truthy firstEntry)
             || negb (Js.isObjectType firstEntry)
             || Js.isArray firstEntry
          then Returns []
          else
            fields <- entryFields firstEntry (Js.ownKeys firstEntry) [] ;;
            Returns (Sort.sortWith naturalCompare fields)
      end
  end.

Definition extractSimpleFields (data : value) : outcome (list string) :=
  match findDataStructure data with
  | None => Returns []
  | Some structure =>
      let structureData := ds_data structure in
      if negb (Js.truthy structureData)
         || negb (Js.isObjectType structureData)
         || Js.isArray structureData
      then Returns []
      else
        fields <- leafFields structureData (Js.ownKeys structureData) [] ;;
        Returns (Sort.sortWith naturalCompare fields)
  end.

Definition extractFields (data : value) : outcome (list string) :=
  if negb (Js.truthy data) || negb (Js.isObjectType data) then Returns []
  else
    match findTimeSeries data with
    | Some _ =>
        fields <- extractTimeSeriesFields data ;;
        Returns (filter keepField fields)
    | None =>
        match findDataStructure data with
        | Some structure =>
            if negb (ds_isTimeSeries structure) then
              fields <- extractSimpleFields data ;;
              Returns (filter keepField fields)
            else
              fields <- flattenFields data (Js.ownKeys data) [] ;;
              Returns (Sort.sort fields)
        | None =>
            fields <- flattenFields data (Js.ownKeys data) [] ;;
            Returns (Sort.sort fields)
        end
    end.

End NaturalSort.

End Formatters.

(* ===================================================================== *)
(** * [utils/mappers]                                                     *)
(* ===================================================================== *)

(** ** [types.ts] *)

Record MapperConfig : Type := mkConfig {
  fieldMapping : option (list (string * string));
  rootPath : option string
}.

Record Dataset : Type := mkDataset {
  label : string;
  points : list number
}.

(** A cell of the key-value table: the value itself, or [JSON.stringify] of
    it, which the model keeps as a symbol. *)
Inductive cell : Type :=
| Raw (j : json)
| Stringified (j : json).

Inductive row : Type :=
| Verbatim (j : json)
| KeyValue (k : string) (v : cell).

Inductive ChangeType : Type :=
| positive
| negative
| neutral.

Inductive StandardizedData : Type :=
| chart (labels : list string) (datasets : list Dataset)
| table (headers : list string) (rows : list row)
| metric (name : value) (val : value)
         (change : option number) (changeType : option ChangeType).

Module Mappers.

Record DataMapper : Type := mkMapper {
  id : string;
  name : string;
  description : string;
  transform : value -> option MapperConfig
              -> outcome (option StandardizedData)
}.

(** [config?.fieldMapping?.[role]] when it is truthy. *)
Definition mapped (config : option MapperConfig) (role : string)
  : option string :=
  match config with
  | Some c =>
      match fieldMapping c with
      | Some m =>
          match Js.assoc role m with
          | Some f => if Formatters.nonEmpty f then Some f else None
          | None => None
          end
      | None => None
      end
  | None => None
  end.

(** [config?.rootPath] when it is truthy. *)
Definition configuredRoot (config : option MapperConfig) : option string :=
  match config with
  | Some c =>
      match rootPath c with
      | Some p => if Formatters.nonEmpty p then Some p else None
      | None => None
      end
  | None => None
  end.

Definition isUndefined (v : value) : bool :=
  match v with Undefined => true | _ => false end.

Definition isNull (v : value) : bool :=
  match v with J JNull => true | _ => false end.

(** ** [adapters/GenericJSONAdapter.ts] *)

(** The loop over the parts of the root path; [None] is the [return null]
    inside it. *)
Fixpoint navigate (targetData : value) (parts : list string) : option value :=
  match parts with
  | [] => Some targetData
  | part :: rest =>
      if Js.isObjectType targetData && negb (isNull targetData)
         && negb (isUndefined (Js.get targetData part))
      then navigate (Js.get targetData part) rest
      else None
  end.

Definition resolveRoot (data : value) (config : option MapperConfig)
  : option value :=
  match configuredRoot config with
  | Some p => navigate data (Str.split "." p)
  | None => Some data
  end.

Definition keyValueRow (entry : string * json) : row :=
  let (k, v) := entry in
  KeyValue k (if Js.isObjectType (J v) then Stringified v else Raw v).

Definition GenericJSONAdapter_transform
    (data : value) (config : option MapperConfig)
  : outcome (option StandardizedData) :=
  if negb (Js.truthy data) then Returns None
  else
    match resolveRoot data config with
    | None => Returns None
    | Some targetData =>
        if Js.isArray targetData then
          match Js.items targetData with
          | [] => Returns (Some (table [] []))
          | _ :: _ =>
              headers <- Js.Object_keys (Js.get targetData "0") ;;
              Returns (Some (table headers
                               (map Verbatim (Js.items targetData))))
          end
        else if Js.isObjectType targetData && negb (isNull targetData) then
          match mapped config "value" with
          | Some field =>
              Returns (Some (metric
                (J (JStr match mapped config "label" with
                         | Some l => l
                         | None => "Value"
                         end))
                (Js.get targetData field) None None))
          | None =>
              Returns (Some (table ["Key"; "Value"]
                               (map keyValueRow (Js.ownEntries targetData))))
          end
        else Returns None
    end.

Definition GenericJSONAdapter : DataMapper :=
  {| id := "generic-json";
     name := "Generic JSON Adapter";
     description :=
       "Auto-detects structure (Array -> Table, Object -> Metric/List)";
     transform := GenericJSONAdapter_transform |}.

(** ** [adapters/AlphaVantageAdapter.ts] *)

Definition isTimeSeriesKey (k : string) : bool :=
  Str.includes "Time Series" k || Str.includes "Daily" k
  || Str.includes "Weekly" k || Str.includes "Monthly" k.

(** [config?.fieldMapping?.value || '4. close'] *)
Definition targetFieldOf (config : option MapperConfig) : string :=
  match mapped config "value" with
  | Some f => f
  | None => "4. close"
  end.

(** One point of the dataset:
    [typeof val === 'string' ? parseFloat(val) : 0] for
    [val = timeSeries[date]?.[targetField]]. *)
Definition point (timeSeries : value) (targetField date : string) : number :=
  match Js.getOptional (Js.get timeSeries date) targetField with
  | J (JStr s) => Num.parseFloat s
  | _ => Num.zero
  end.

Definition quoteKey : string := "Global Quote".

(** The first part of [transform], once a key of the series is found. *)
Definition timeSeriesChart
    (obj : value) (timeSeriesKey : string) (config : option MapperConfig)
  : outcome (option StandardizedData) :=
  let timeSeries := Js.get obj timeSeriesKey in
  keys <- Js.Object_keys timeSeries ;;
  let dates := Sort.sort keys in
  let targetField := targetFieldOf config in
  Returns (Some (chart dates
    [ {| label := targetField;
         points := map (point timeSeries targetField) dates |} ])).

(** The second part of [transform]. *)
Definition globalQuote (obj : value) : outcome (option StandardizedData) :=
  let quote := Js.get obj quoteKey in
  if Js.truthy quote then
    let zero := J (JStr "0") in
    value <- Js.parseFloat (Js.orElse (Js.get quote "05. price") zero) ;;
    change <- Js.parseFloat (Js.orElse (Js.get quote "09. change") zero) ;;
    change' <- Js.parseFloat (Js.orElse (Js.get quote "09. change") zero) ;;
    Returns (Some (metric
      (Js.orElse (Js.get quote "01. symbol") (J (JStr "Unknown")))
      (J (JNum value))
      (Some change)
      (Some (if Num.geZero change' then positive else negative))))
  else Returns None.

Definition AlphaVantageAdapter_transform
    (data : value) (config : option MapperConfig)
  : outcome (option StandardizedData) :=
  if negb (Js.truthy data) || negb (Js.isObjectType data) then Returns None
  else
    let obj := data in
    match find isTimeSeriesKey (Js.ownKeys obj) with
    | Some timeSeriesKey =>
        if Formatters.nonEmpty timeSeriesKey
        then timeSeriesChart obj timeSeriesKey config
        else globalQuote obj
    | None => globalQuote obj
    end.

Definition AlphaVantageAdapter : DataMapper :=
  {| id := "alpha-vantage";
     name := "Alpha Vantage Adapter";
     description :=
       "Handles Time Series and Global Quote data from Alpha Vantage API";
     transform := AlphaVantageAdapter_transform |}.

(** ** [index.ts] *)

(** The own properties of the object [mappers]. *)
Definition mappers : list (string * DataMapper) :=
  [ (id AlphaVantageAdapter, AlphaVantageAdapter);
    (id GenericJSONAdapter, GenericJSONAdapter) ].

(** What [getMapper] hands back: an adapter, or whatever else the lookup
    found on the object [mappers]. *)
Inductive resolved : Type :=
| Adapter (m : DataMapper)
| Other (v : value).

(** [mappers[id]]: an own property, or a member that the object literal
    inherits from [Object.prototype]. *)
Definition mappersAt (id : string) : option resolved :=
  match Js.assoc id mappers with
  | Some m => Some (Adapter m)
  | None => option_map Other (Js.inherited PObject id)
  end.

Definition resolvedTruthy (r : resolved) : bool :=
  match r with
  | Adapter _ => true
  | Other v => Js.truthy v
  end.

(** [mappers[id] || GenericJSONAdapter] *)
Definition getMapper (id : string) : resolved :=
  match mappersAt id with
  | Some r => if resolvedTruthy r then r else Adapter GenericJSONAdapter
  | None => Adapter GenericJSONAdapter
  end.

End Mappers.

(* ===================================================================== *)
(** * Vocabulary of the statements                                        *)
(* ===================================================================== *)

Module Spec.

(** A comparator never puts two elements each after the other. *)
Definition consistent {A : Type} (cmp : A -> A -> Z) : Prop :=
  forall a b, (0 < cmp a b)%Z -> (cmp b a <= 0)%Z.

(** Each element may stand before its successor. *)
Definition sortedBy {A : Type} (cmp : A -> A -> Z) (l : list A) : Prop :=
  Sorted (fun a b => (cmp a b <= 0)%Z) l.

(** Ascending by code units. *)
Definition ascending (l : list string) : Prop :=
  Sorted (fun a b => String.leb a b = true) l.

(** The order of the natural sort: by the leading number, then by the
    collation. *)
Definition naturalOrder (localeCompare : string -> string -> Z)
    (toDouble : N -> N) (a b : string) : Prop :=
  let numA := Formatters.leadingNumber toDouble a in
  let numB := Formatters.leadingNumber toDouble b in
  (numA < numB)%N \/ (numA = numB /\ (localeCompare a b <= 0)%Z).

(** A float represents the integers below [2^53] exactly. *)
Definition exactBelow2p53 (toDouble : N -> N) : Prop :=
  forall n, (n < 2 ^ 53)%N -> toDouble n = n.

(** Round to nearest, ties to even, on the non-negative integers; infinity
    is [2^1024]. *)
Definition nearestDouble (n : N) : N :=
  if (n <? 2 ^ 53)%N then n
  else
    let sh := (N.log2 n - 52)%N in
    let q := N.shiftr n sh in
    let r := N.land n (N.ones sh) in
    let half := N.shiftl 1 (sh - 1) in
    let q' := if (half <? r)%N || ((r =? half)%N && N.odd q)
              then (q + 1)%N else q in
    N.min (N.shiftl q' sh) (2 ^ 1024).

(** The collation that compares code units. *)
Definition codeUnitCompare : string -> string -> Z := Sort.defaultCompare.

(** The value of a field of a quote, as [transform] reads it: ["0"] stands
    in for a field that is missing or falsy. *)
Definition quoteField (quote : value) (name : string) : value :=
  Js.orElse (Js.get quote name) (J (JStr "0")).

(** A value on which [extractData] goes on to the next segment. *)
Definition navigable (v : value) : bool := Js.truthy v && Js.isObjectType v.

(** A key under which [findTimeSeries] accepts a series: its name matches a
    pattern, its value is an object that is no array, and the first key of
    that object starts like a date. *)
Definition accepts (dataObj : value) (k : string) : bool :=
  Formatters.some Formatters.patterns k
  && Formatters.isPlainObject (Js.get dataObj k)
  && Formatters.firstKeyIsDate (Js.get dataObj k).

(** A key under which [findDataStructure] accepts a quote. *)
Definition acceptsQuote (dataObj : value) (k : string) : bool :=
  Formatters.some Formatters.quotePatterns k
  && Formatters.isPlainObject (Js.get dataObj k).

End Spec.

(** Payloads of the examples. *)
Module Examples.

Definition dailySeries : value :=
  J (JObj [("Time Series (Daily)",
            JObj [("2024-01-02",
                   JObj [("1. open", JStr "100"); ("4. close", JStr "105")]);
                  ("2024-01-03",
                   JObj [("1. open", JStr "106"); ("4. close", JStr "110")])])]).

Definition globalQuote : value :=
  J (JObj [("Global Quote",
            JObj [("01. symbol", JStr "AAPL");
                  ("05. price", JStr "150.00");
                  ("09. change", JStr "-2.50")])]).

Definition naturalSeries : value :=
  J (JObj [("Time Series (Daily)",
            JObj [("2024-01-02",
                   JObj [("2. high", JStr "3"); ("10. extra", JStr "4");
                         ("1. open", JStr "2")])])]).

Definition nestedObject : value :=
  J (JObj [("a", JNum (Fin 1)); ("b", JObj [("c", JNum (Fin 2))])]).

Definition seriesAndQuote : value :=
  J (JObj [("Global Quote", JObj [("01. symbol", JStr "AAPL")]);
           ("Time Series (Daily)",
            JObj [("2024-01-02", JObj [("4. close", JStr "105")])])]).

End Examples.

(* ===================================================================== *)
(** * [formatValue] of [utils/formatters.ts]                              *)
(* ===================================================================== *)

Module Formatting.

Inductive FormatType : Type :=
| currency
| percentage
| grouped      (* "number" *)
| text.

(** What [formatValue] answers.  The printers of the host are kept as
    symbols, each with the argument it is given. *)
Inductive shown : Type :=
| NotAvailable                 (* "N/A" *)
| UsDollars (n : number)       (* Intl.NumberFormat("en-US", USD).format(n) *)
| Percent (n : number)         (* `${n.toFixed(2)}%` *)
| Grouped (n : number)         (* new Intl.NumberFormat("en-US").format(n) *)
| StringOf (v : value).        (* String(v) *)

Definition isNaN (n : number) : bool :=
  match n with NaN => true | _ => false end.

(** [typeof value === "string" ? parseFloat(value)
     : (typeof value === 'number' ? value : NaN)] *)
Definition numValueOf (v : value) : number :=
  match v with
  | J (JStr s) => Num.parseFloat s
  | J (JNum n) => n
  | _ => NaN
  end.

(** [String(value)]: it throws when the conversion of an object does. *)
Definition stringOf (v : value) : outcome shown :=
  match v with
  | J j => if Js.toStringThrows j then Throws else Returns (StringOf v)
  | _ => Returns (StringOf v)
  end.

Definition formatValue (v : value) (format : option FormatType)
  : outcome shown :=
  if Js.isNullish v then Returns NotAvailable
  else
    let numValue := numValueOf v in
    match format with
    | Some currency =>
        Returns (UsDollars (if isNaN numValue then Num.zero else numValue))
    | Some percentage =>
        if isNaN numValue then stringOf v else Returns (Percent numValue)
    | Some grouped =>
        if isNaN numValue then stringOf v else Returns (Grouped numValue)
    | Some text | None => stringOf v
    end.

End Formatting.

(* ===================================================================== *)
(** * [components/widgets/WidgetRenderer.tsx]                             *)
(* ===================================================================== *)

Inductive ProcessedData : Type :=
| Standardized (d : StandardizedData)
| TimeSeriesData (data : value) (key : string)
| QuoteData (data : value) (key : string)
| ArrayData (data : value)
| ObjectData (data : value).

Module Renderer.

(** [mapper.transform(data, config)]: what [getMapper] found on
    [Object.prototype] has no member [transform], and the call of
    [undefined] throws. *)
Definition callTransform (mapper : Mappers.resolved)
    (data : value) (config : option MapperConfig)
  : outcome (option StandardizedData) :=
  match mapper with
  | Mappers.Adapter m => Mappers.transform m data config
  | Mappers.Other _ => Throws
  end.

(** The patterns of the renderer: [/global.?quote/i], [/quote/i]. *)
Definition quotePatterns : list (list Str.atom) :=
  [ (Str.lits "global" ++ [Str.OptAny] ++ Str.lits "quote")%list;
    Str.lits "quote" ].

(** The [for ... in] loop of [processedData]. *)
Fixpoint scanQuote (dataObj : value) (keys : list string)
  : option ProcessedData :=
  match keys with
  | [] => None
  | k :: rest =>
      if Formatters.some quotePatterns k then
        let v := Js.get dataObj k in
        if Formatters.isPlainObject v then Some (QuoteData v k)
        else scanQuote dataObj rest
      else scanQuote dataObj rest
  end.

(** The part of [processedData] after the mapper. *)
Definition classify (data : value) : option ProcessedData :=
  match Formatters.findTimeSeries data with
  | Some timeSeries =>
      Some (TimeSeriesData (ts_data timeSeries) (ts_key timeSeries))
  | None =>
      match scanQuote data (Js.ownKeys data) with
      | Some q => Some q
      | None =>
          if Js.isArray data then Some (ArrayData data)
          else if Js.isObjectType data && negb (Mappers.isNull data)
          then Some (ObjectData data)
          else None
      end
  end.

(** The memo [processedData], as a function of the payload and of the
    mapper that the widget names. *)
Definition processedData
    (mapperId : option string) (mapperConfig : option MapperConfig)
    (data : value)
  : outcome (option ProcessedData) :=
  if negb (Js.truthy data) then Returns None
  else
    result <- match mapperId with
              | Some id =>
                  if Formatters.nonEmpty id
                  then callTransform (Mappers.getMapper id) data mapperConfig
                  else Returns None
              | None => Returns None
              end ;;
    match result with
    | Some r => Returns (Some (Standardized r))
    | None => Returns (classify data)
    end.

(** [getFieldValue(obj, field)] *)
Definition getFieldValue (obj : value) (field : string) : outcome value :=
  if negb (Js.truthy obj) || negb (Formatters.nonEmpty field)
  then Returns (J JNull)
  else if Js.isObjectType obj && negb (Mappers.isNull obj) then
    present <- Js.inOperator field obj ;;
    if present then Js.getChecked obj field
    else Formatters.extractData obj (Some field)
  else Formatters.extractData obj (Some field).

(** The cell of the table view: [formatValue(getFieldValue(row, field),
    widget.format)]. *)
Definition cell (row : value) (field : string)
    (format : option Formatting.FormatType)
  : outcome Formatting.shown :=
  v <- getFieldValue row field ;;
  Formatting.formatValue v format.

Definition itemsPerPage : nat := 10.

(** [Math.ceil(sortedData.length / itemsPerPage)] *)
Definition totalPages {A : Type} (sortedData : list A) : nat :=
  (List.length sortedData + (itemsPerPage - 1)) / itemsPerPage.

(** [l.slice(start, stop)] for indices that are not negative. *)
Definition slice {A : Type} (l : list A) (start stop : nat) : list A :=
  firstn (stop - start) (skipn start l).

(** [sortedData.slice((currentPage - 1) * itemsPerPage,
                      currentPage * itemsPerPage)] for a page from 1 on. *)
Definition paginatedData {A : Type} (sortedData : list A) (currentPage : nat)
  : list A :=
  slice sortedData ((currentPage - 1) * itemsPerPage)
        (currentPage * itemsPerPage).

End Renderer.

(* ===================================================================== *)
(** * Arithmetic on floats                                                *)
(* ===================================================================== *)

Module Double.

(** An integer as a number. *)
Definition ofZ (z : Z) : number := Fin (z # 1).

(** [n / d] rounded to the nearest integer, ties to even; [n] is not
    negative and [d] is positive. *)
Definition roundHalfEven (n d : Z) : Z :=
  let q := (n / d)%Z in
  let r := (n mod d)%Z in
  if (2 * r <? d)%Z then q
  else if (d <? 2 * r)%Z then (q + 1)%Z
  else if Z.even q then q else (q + 1)%Z.

(** The float nearest to a rational, ties to even: 53 bits of mantissa,
    the least exponent of a unit in the last place is -1074, and what rounds
    to [2^1024] or more is infinite. *)
Definition nearest (q : Q) : number :=
  let n := Z.abs (Qnum q) in
  let d := Z.pos (Qden q) in
  if (n =? 0)%Z then Fin (0 # 1)
  else
    let l := (Z.log2 n - Z.log2 d)%Z in
    let e := if (n * 2 ^ Z.max (- l) 0 <? d * 2 ^ Z.max l 0)%Z
             then (l - 1)%Z else l in
    let x := Z.max (e - 52) (-1074) in
    let m := roundHalfEven (n * 2 ^ Z.max (- x) 0) (d * 2 ^ Z.max x 0) in
    if (2 ^ 1024 <=? m * 2 ^ Z.max x 0)%Z
    then (if (Qnum q <? 0)%Z then NegInfinity else PosInfinity)
    else Fin (Qred ((Z.sgn (Qnum q) * m * 2 ^ Z.max x 0)
                    # Z.to_pos (2 ^ Z.max (- x) 0))).

(** [a + b] *)
Definition add (a b : number) : number :=
  match a, b with
  | NaN, _ | _, NaN => NaN
  | PosInfinity, NegInfinity | NegInfinity, PosInfinity => NaN
  | PosInfinity, _ | _, PosInfinity => PosInfinity
  | NegInfinity, _ | _, NegInfinity => NegInfinity
  | Fin x, Fin y => nearest (x + y)
  end.

(** [a <= b]; a comparison with [NaN] is false. *)
Definition leb (a b : number) : bool :=
  match a, b with
  | NaN, _ | _, NaN => false
  | NegInfinity, _ | _, PosInfinity => true
  | PosInfinity, _ | _, NegInfinity => false
  | Fin x, Fin y => Qle_bool x y
  end.

(** [a > b]; a comparison with [NaN] is false. *)
Definition gtb (a b : number) : bool :=
  match a, b with
  | NaN, _ | _, NaN => false
  | NegInfinity, _ | _, PosInfinity => false
  | PosInfinity, _ | _, NegInfinity => true
  | Fin x, Fin y => negb (Qle_bool x y)
  end.

(** [a >= b] *)
Definition geb (a b : number) : bool := leb b a.

(** [a || d] for a number [a] that may be missing: [None] is [undefined]. *)
Definition orElse (a : option number) (d : number) : number :=
  match a with
  | Some n => if Num.truthy n then n else d
  | None => d
  end.

End Double.

(* ===================================================================== *)
(** * A [Map] with strings as keys                                        *)
(* ===================================================================== *)

(** The entries in the order of their insertion; no key occurs twice in a
    map that [set] has built. *)
Module JsMap.

(** [m.get(k)]; [None] is [undefined]. *)
Definition get {V : Type} (k : string) (m : list (string * V)) : option V :=
  Js.assoc k m.

(** [m.set(k, v)]: a key that is there keeps its place. *)
Fixpoint set {V : Type} (k : string) (v : V) (m : list (string * V))
  : list (string * V) :=
  match m with
  | [] => [(k, v)]
  | (k', v') :: r =>
      if String.eqb k' k then (k, v) :: r else (k', v') :: set k v r
  end.

(** [m.delete(k)] *)
Definition delete {V : Type} (k : string) (m : list (string * V))
  : list (string * V) :=
  filter (fun kv => negb (String.eqb (fst kv) k)) m.

End JsMap.

(* ===================================================================== *)
(** * [DataCache] of [utils/cache.ts]                                     *)
(* ===================================================================== *)

(** The methods take the reading of the clock, [Date.now()], which is an
    integer, and the map of the cache, and give the map back where they
    change it. *)
Module Cache.

Record CacheEntry : Type := {
  data : value;
  timestamp : Z;
  expiry : number
}.

Definition defaultTTL : number := Double.ofZ (60 * 1000).

Definition getCacheKey (url : string) : string := "api_cache_" ++ url.

(** [entry.timestamp + entry.expiry] *)
Definition expiresAt (entry : CacheEntry) : number :=
  Double.add (Double.ofZ (timestamp entry)) (expiry entry).

(** [get(url)]: the value and the map afterwards. *)
Definition get (now : Z) (url : string) (cache : list (string * CacheEntry))
  : value * list (string * CacheEntry) :=
  let key := getCacheKey url in
  match JsMap.get key cache with
  | None => (J JNull, cache)
  | Some entry =>
      if Double.gtb (Double.ofZ now) (expiresAt entry)
      then (J JNull, JsMap.delete key cache)
      else (data entry, cache)
  end.

(** [set(url, data, ttl)]; [None] is a [ttl] that is not given. *)
Definition set (now : Z) (url : string) (data : value) (ttl : option number)
    (cache : list (string * CacheEntry)) : list (string * CacheEntry) :=
  let key := getCacheKey url in
  let entry := {| data := data;
                  timestamp := now;
                  expiry := Double.orElse ttl defaultTTL |} in
  JsMap.set key entry cache.

(** [clear(url)] *)
Definition clear (url : string) (cache : list (string * CacheEntry))
  : list (string * CacheEntry) :=
  let key := getCacheKey url in
  JsMap.delete key cache.

(** [clearAll()] *)
Definition clearAll (cache : list (string * CacheEntry))
  : list (string * CacheEntry) :=
  [].

(** [has(url)] *)
Definition has (now : Z) (url : string) (cache : list (string * CacheEntry))
  : bool :=
  let key := getCacheKey url in
  match JsMap.get key cache with
  | None => false
  | Some entry => Double.leb (Double.ofZ now) (expiresAt entry)
  end.

(** The maps of [dataCache]: the map is private and starts empty, so the
    methods are all that changes it. *)
Inductive reachable : list (string * CacheEntry) -> Prop :=
| reach_new : reachable []
| reach_get now url cache :
    reachable cache -> reachable (snd (get now url cache))
| reach_set now url data ttl cache :
    reachable cache -> reachable (set now url data ttl cache)
| reach_clear url cache :
    reachable cache -> reachable (clear url cache)
| reach_clearAll cache :
    reachable cache -> reachable (clearAll cache).

End Cache.

(* ===================================================================== *)
(** * [checkRateLimit] of the proxy route                                 *)
(* ===================================================================== *)

Module RateLimit.

Record Limit : Type := {
  count : number;
  resetTime : number
}.

Definition RATE_LIMIT_WINDOW : number := Double.ofZ (60 * 1000).

Definition MAX_REQUESTS_PER_WINDOW : number := Double.ofZ 50.

(** [checkRateLimit(ip)]: the answer and the map afterwards; [now] is the
    reading of the clock. *)
Definition checkRateLimit (now : Z) (ip : string)
    (rateLimitMap : list (string * Limit)) : bool * list (string * Limit) :=
  let limit := JsMap.get ip rateLimitMap in
  let fresh := {| count := Double.ofZ 1;
                  resetTime := Double.add (Double.ofZ now)
                                          RATE_LIMIT_WINDOW |} in
  match limit with
  | None => (true, JsMap.set ip fresh rateLimitMap)
  | Some limit =>
      if Double.gtb (Double.ofZ now) (resetTime limit)
      then (true, JsMap.set ip fresh rateLimitMap)
      else if Double.geb (count limit) MAX_REQUESTS_PER_WINDOW
      then (false, rateLimitMap)
      else (true,
            JsMap.set ip
              {| count := Double.add (count limit) (Double.ofZ 1);
                 resetTime := resetTime limit |}
              rateLimitMap)
  end.

(** The route calls [checkRateLimit] once for each request that names a
    url.  Such requests one after the other, each with its address and the
    reading of the clock: the answers of [checkRateLimit] and the map at
    the end. *)
Fixpoint serve (requests : list (string * Z))
    (rateLimitMap : list (string * Limit))
  : list bool * list (string * Limit) :=
  match requests with
  | [] => ([], rateLimitMap)
  | (ip, now) :: rest =>
      let (allowed, m) := checkRateLimit now ip rateLimitMap in
      let (answers, m') := serve rest m in
      (allowed :: answers, m')
  end.

(** The answers to the requests of one address. *)
Definition answersTo (ip : string) (requests : list (string * Z))
    (answers : list bool) : list bool :=
  map snd (filter (fun ra => String.eqb (fst (fst ra)) ip)
                  (combine requests answers)).

End RateLimit.

(* ===================================================================== *)
(** * The reducers of [store/slices/widgetSlice.ts]                       *)
(* ===================================================================== *)

Module WidgetSlice.

Inductive WidgetType : Type :=
| card
| table
| chart.

Inductive ChartType : Type :=
| line
| candlestick
| bar.

Inductive ChartInterval : Type :=
| daily
| weekly
| monthly.

Inductive Theme : Type :=
| dark
| light.

(** An entry of the payload of [updateLayout]. *)
Module Item.

Record t : Type := {
  id : string;
  x : number;
  y : number;
  w : number;
  h : number
}.

End Item.

(** A field that may be missing is an [option]. *)
Record Widget : Type := {
  id : string;
  title : string;
  type : WidgetType;
  apiUrl : string;
  selectedFields : list string;
  refreshInterval : number;
  position : option number;
  format : option Formatting.FormatType;
  description : option string;
  chartType : option ChartType;
  chartInterval : option ChartInterval;
  mapperId : option string;
  mapperConfig : option MapperConfig;
  w : option number;
  h : option number;
  x : option number;
  y : option number
}.

Record WidgetState : Type := {
  widgets : list Widget;
  theme : Theme
}.

(** What a reducer leaves: the state of the slice and what it has written
    to [localStorage] under "dashboard-state", the state that it handed to
    [JSON.stringify]. *)
Record Effect : Type := {
  state : WidgetState;
  saved : option WidgetState
}.

(** [if (typeof window !== "undefined")
       localStorage.setItem("dashboard-state", JSON.stringify(state))] *)
Definition save (browser : bool) (state : WidgetState) : Effect :=
  {| state := state;
     saved := if browser then Some state else None |}.

(** [{ ...widget, position }] and [widget.position = position] *)
Definition setPosition (widget : Widget) (position : option number)
  : Widget :=
  {| id := id widget;
     title := title widget;
     type := type widget;
     apiUrl := apiUrl widget;
     selectedFields := selectedFields widget;
     refreshInterval := refreshInterval widget;
     position := position;
     format := format widget;
     description := description widget;
     chartType := chartType widget;
     chartInterval := chartInterval widget;
     mapperId := mapperId widget;
     mapperConfig := mapperConfig widget;
     w := w widget;
     h := h widget;
     x := x widget;
     y := y widget |}.

(** [{ ...widget, w, h, x, y }] and the four assignments of
    [updateLayout] *)
Definition setLayout (widget : Widget) (x y w h : option number) : Widget :=
  {| id := id widget;
     title := title widget;
     type := type widget;
     apiUrl := apiUrl widget;
     selectedFields := selectedFields widget;
     refreshInterval := refreshInterval widget;
     position := position widget;
     format := format widget;
     description := description widget;
     chartType := chartType widget;
     chartInterval := chartInterval widget;
     mapperId := mapperId widget;
     mapperConfig := mapperConfig widget;
     w := w;
     h := h;
     x := x;
     y := y |}.

(** An index of an array as a number. *)
Definition ofIndex (index : nat) : number := Double.ofZ (Z.of_nat index).

(** [addWidget(state, action)] *)
Definition addWidget (browser : bool) (state : WidgetState)
    (payload : Widget) : Effect :=
  let newWidget :=
    setLayout
      (setPosition payload (Some (ofIndex (List.length (widgets state)))))
      (Some (Double.orElse (x payload) (Double.ofZ 0)))
      (Some (Double.orElse (y payload) PosInfinity))
      (Some (Double.orElse (w payload) (Double.ofZ 1)))
      (Some (Double.orElse (h payload) (Double.ofZ 4))) in
  save browser {| widgets := (widgets state ++ [newWidget])%list;
                  theme := theme state |}.

(** [widget.x = item.x; widget.y = item.y; widget.w = item.w;
     widget.h = item.h] *)
Definition place (widget : Widget) (item : Item.t) : Widget :=
  setLayout widget (Some (Item.x item)) (Some (Item.y item))
            (Some (Item.w item)) (Some (Item.h item)).

(** [const widget = widgets.find(w => w.id === item.id);
     if (widget) { ... }] *)
Fixpoint updateFirst (item : Item.t) (widgets : list Widget)
  : list Widget :=
  match widgets with
  | [] => []
  | widget :: rest =>
      if String.eqb (id widget) (Item.id item)
      then place widget item :: rest
      else widget :: updateFirst item rest
  end.

(** [updateLayout(state, action)] *)
Definition updateLayout (browser : bool) (state : WidgetState)
    (payload : list Item.t) : Effect :=
  save browser
       {| widgets := fold_left (fun widgets item => updateFirst item widgets)
                               payload (widgets state);
          theme := theme state |}.

(** [widgets.forEach((widget, index) => { widget.position = index; })],
    from [index] on. *)
Fixpoint renumber (widgets : list Widget) (index : nat) : list Widget :=
  match widgets with
  | [] => []
  | widget :: rest =>
      setPosition widget (Some (ofIndex index)) :: renumber rest (S index)
  end.

(** [removeWidget(state, action)] *)
Definition removeWidget (browser : bool) (state : WidgetState)
    (payload : string) : Effect :=
  let kept := filter (fun w => negb (String.eqb (id w) payload))
                     (widgets state) in
  save browser {| widgets := renumber kept 0; theme := theme state |}.

(** The start of [splice] for a whole number [i] on an array of [len]
    elements: a negative [i] counts from the end. *)
Definition relativeIndex (len : nat) (i : Z) : nat :=
  if (i <? 0)%Z then Z.to_nat (Z.max (Z.of_nat len + i) 0)
  else Z.to_nat (Z.min i (Z.of_nat len)).

(** [reorderWidgets(state, action)] for indices that are whole numbers.
    Where [splice(startIndex, 1)] removes nothing, [removed] is
    [undefined]; it is inserted as it is, and the loop over the widgets
    throws on it. *)
Definition reorderWidgets (browser : bool) (state : WidgetState)
    (startIndex endIndex : Z) : outcome Effect :=
  let start := relativeIndex (List.length (widgets state)) startIndex in
  let removed := nth_error (widgets state) start in
  let rest := (firstn start (widgets state)
               ++ skipn (S start) (widgets state))%list in
  let stop := relativeIndex (List.length rest) endIndex in
  match removed with
  | None => Throws
  | Some removed =>
      let moved := (firstn stop rest ++ removed :: skipn stop rest)%list in
      Returns (save browser {| widgets := renumber moved 0;
                               theme := theme state |})
  end.

(** [setTheme(state, action)] *)
Definition setTheme (browser : bool) (state : WidgetState) (payload : Theme)
  : Effect :=
  save browser {| widgets := widgets state; theme := payload |}.

(** [loadDashboard(state, action)] *)
Definition loadDashboard (browser : bool) (state payload : WidgetState)
  : Effect :=
  save browser {| widgets := widgets payload; theme := theme payload |}.

(** The same widget, whatever its position. *)
Definition forgetPosition (widget : Widget) : Widget :=
  setPosition widget None.

(** Every widget holds its index as its position. *)
Definition positioned (widgets : list Widget) : Prop :=
  forall index widget,
    nth_error widgets index = Some widget ->
    position widget = Some (ofIndex index).

(** The last item of the payload with the id [id]. *)
Definition lastItem (id : string) (payload : list Item.t) : option Item.t :=
  find (fun item => String.eqb id (Item.id item)) (rev payload).

(** A widget before the index [index] has the id [id]. *)
Definition earlier (id : string) (index : nat) (widgets : list Widget)
  : bool :=
  existsb (fun w => String.eqb (WidgetSlice.id w) id) (firstn index widgets).

(** A dashboard of one chart, and a card to add to it. *)
Definition priceChart : Widget :=
  {| id := "w1";
     title := "Prices";
     type := chart;
     apiUrl := "https://example.com/daily";
     selectedFields := ["4. close"];
     refreshInterval := Double.ofZ 60;
     position := Some (ofIndex 0);
     format := None;
     description := None;
     chartType := Some line;
     chartInterval := Some daily;
     mapperId := Some "alpha-vantage";
     mapperConfig := None;
     w := Some (Double.ofZ 1);
     h := Some (Double.ofZ 4);
     x := Some (Double.ofZ 0);
     y := Some PosInfinity |}.

Definition quoteCard : Widget :=
  {| id := "w2";
     title := "Quote";
     type := card;
     apiUrl := "https://example.com/quote";
     selectedFields := ["05. price"];
     refreshInterval := Double.ofZ 30;
     position := None;
     format := Some Formatting.currency;
     description := None;
     chartType := None;
     chartInterval := None;
     mapperId := None;
     mapperConfig := None;
     w := None;
     h := None;
     x := None;
     y := Some (Double.ofZ 0) |}.

Definition dashboard : WidgetState :=
  {| widgets := [priceChart]; theme := dark |}.

End WidgetSlice.

(* ===================================================================== *)
(** * [components/dashboard/DashboardGrid.tsx]                            *)
(* ===================================================================== *)

Module DashboardGrid.

(** An entry of the layout of the grid. *)
Record LayoutItem : Type := {
  i : string;
  x : number;
  y : number;
  w : number;
  h : number
}.

(** The entry of the widget at [index]:
    [x: widget.x !== undefined ? widget.x : (index * 4) % 12],
    [y: widget.y !== undefined ? widget.y : Math.floor(index / 3) * 4],
    [w: widget.w || 4], [h: widget.h || 4]. *)
Definition layoutItem (widget : WidgetSlice.Widget) (index : nat)
  : LayoutItem :=
  {| i := WidgetSlice.id widget;
     x := match WidgetSlice.x widget with
          | Some x => x
          | None => WidgetSlice.ofIndex ((index * 4) mod 12)
          end;
     y := match WidgetSlice.y widget with
          | Some y => y
          | None => WidgetSlice.ofIndex (index / 3 * 4)
          end;
     w := Double.orElse (WidgetSlice.w widget) (Double.ofZ 4);
     h := Double.orElse (WidgetSlice.h widget) (Double.ofZ 4) |}.

(** [widgets.map((widget, index) => ...)], from [index] on. *)
Fixpoint layoutFrom (widgets : list WidgetSlice.Widget) (index : nat)
  : list LayoutItem :=
  match widgets with
  | [] => []
  | widget :: rest => layoutItem widget index :: layoutFrom rest (S index)
  end.

(** The memo [layout]. *)
Definition layout (widgets : list WidgetSlice.Widget) : list LayoutItem :=
  layoutFrom widgets 0.

(** [{ id: l.i, x: l.x, y: l.y, w: l.w, h: l.h }] *)
Definition toItem (l : LayoutItem) : WidgetSlice.Item.t :=
  {| WidgetSlice.Item.id := i l;
     WidgetSlice.Item.x := x l;
     WidgetSlice.Item.y := y l;
     WidgetSlice.Item.w := w l;
     WidgetSlice.Item.h := h l |}.

(** What [handleLayoutChange] hands to [onLayoutChange], and the page to
    [updateLayout]. *)
Definition handleLayoutChange (currentLayout : list LayoutItem)
  : list WidgetSlice.Item.t :=
  map toItem currentLayout.

(** A widget without geometry. *)
Definition unplaced (widget : WidgetSlice.Widget) : Prop :=
  WidgetSlice.x widget = None /\ WidgetSlice.y widget = None
  /\ WidgetSlice.w widget = None /\ WidgetSlice.h widget = None.

End DashboardGrid.

(* ===================================================================== *)
(** * [components/widgets/WidgetConfigModal.tsx]                          *)
(* ===================================================================== *)

Module Modal.

(** [toLowerCase] of a code unit below 256: the letters A to Z and
    U+00C0 to U+00DE, without the sign U+00D7. *)
Definition lowerUnit (c : ascii) : ascii :=
  let n := Str.code c in
  if ((65 <=? n)%N && (n <=? 90)%N)
     || ((192 <=? n)%N && (n <=? 222)%N && negb (n =? 215)%N)
  then ascii_of_N (n + 32) else c.

(** [s.toLowerCase()] *)
Fixpoint toLowerCase (s : string) : string :=
  match s with
  | EmptyString => EmptyString
  | String c r => String (lowerUnit c) (toLowerCase r)
  end.

Section Fields.

Variable localeCompare : string -> string -> Z.
Variable toDouble : N -> N.

(** [getFieldOptions()], as a function of the states [jsonData] and
    [fieldSearch]. *)
Definition getFieldOptions (jsonData : value) (fieldSearch : string)
  : outcome (list string) :=
  if negb (Js.truthy jsonData) then Returns []
  else
    fields <- Formatters.extractFields localeCompare toDouble jsonData ;;
    let validFields :=
      filter (fun field =>
                if (String.length field =? 0)%nat then false
                else if Str.isPureDigits field then false
                else true)
             fields in
    if Formatters.nonEmpty fieldSearch then
      let searchLower := toLowerCase fieldSearch in
      Returns (filter (fun field =>
                         Str.includes searchLower (toLowerCase field))
                      validFields)
    else Returns validFields.

End Fields.

End Modal.

(* ===================================================================== *)
(** * Facts about the sort                                                *)
(* ===================================================================== *)

Section SortFacts.

Variable A : Type.
Variable cmp : A -> A -> Z.

Lemma insert_perm (x : A) (l : list A) :
  Permutation (Sort.insert cmp x l) (x :: l).
Proof.
  induction l as [|y r IH]; simpl.
  - apply Permutation_refl.
  - destruct (cmp x y <=? 0)%Z.
    + apply Permutation_refl.
    + eapply perm_trans; [apply perm_skip, IH | apply perm_swap].
Qed.

Lemma sortWith_perm (l : list A) : Permutation (Sort.sortWith cmp l) l.
Proof.
  induction l as [|x r IH]; simpl.
  - constructor.
  - eapply perm_trans; [apply insert_perm | apply perm_skip, IH].
Qed.

Lemma sortWith_length (l : list A) :
  List.length (Sort.sortWith cmp l) = List.length l.
Proof. apply Permutation_length, sortWith_perm. Qed.

Lemma insert_before (x y : A) (r : list A) :
  (cmp x y <= 0)%Z -> Sort.insert cmp x (y :: r) = x :: y :: r.
Proof. intros H. simpl. apply Z.leb_le in H. rewrite H. reflexivity. Qed.

Lemma insert_after (x y : A) (r : list A) :
  (0 < cmp x y)%Z -> Sort.insert cmp x (y :: r) = y :: Sort.insert cmp x r.
Proof. intros H. simpl. apply Z.leb_gt in H. rewrite H. reflexivity. Qed.

Hypothesis cmp_consistent : Spec.consistent cmp.

Lemma insert_hd (x a : A) (l : list A) :
  (cmp a x <= 0)%Z ->
  HdRel (fun a b => (cmp a b <= 0)%Z) a l ->
  HdRel (fun a b => (cmp a b <= 0)%Z) a (Sort.insert cmp x l).
Proof.
  intros Hax Hal. destruct l as [|y r]; simpl.
  - constructor. exact Hax.
  - destruct (cmp x y <=? 0)%Z; constructor.
    + exact Hax.
    + inversion Hal; assumption.
Qed.

Lemma insert_sorted (x : A) (l : list A) :
  Spec.sortedBy cmp l -> Spec.sortedBy cmp (Sort.insert cmp x l).
Proof.
  unfold Spec.sortedBy. induction l as [|y r IH]; simpl; intros Hs.
  - repeat constructor.
  - destruct (cmp x y <=? 0)%Z eqn:E.
    + constructor; [exact Hs | constructor; apply Z.leb_le, E].
    + inversion Hs as [|? ? Hr Hh]; subst.
      constructor; [apply IH, Hr |].
      apply insert_hd; [|exact Hh].
      apply cmp_consistent. apply Z.leb_gt in E. exact E.
Qed.

Lemma sortWith_sorted (l : list A) : Spec.sortedBy cmp (Sort.sortWith cmp l).
Proof.
  induction l as [|x r IH]; simpl.
  - constructor.
  - apply insert_sorted, IH.
Qed.

End SortFacts.

Lemma defaultCompare_le (a b : string) :
  (Sort.defaultCompare a b <= 0)%Z <-> String.leb a b = true.
Proof.
  unfold Sort.defaultCompare, String.leb.
  destruct (String.compare a b); split; intros H; try lia; try reflexivity;
    discriminate.
Qed.

Lemma defaultCompare_consistent : Spec.consistent Sort.defaultCompare.
Proof.
  intros a b H. unfold Sort.defaultCompare in *.
  rewrite (String.compare_antisym b a).
  destruct (String.compare a b); simpl in *; lia.
Qed.

Lemma sort_ascending (l : list string) : Spec.ascending (Sort.sort l).
Proof.
  unfold Spec.ascending, Sort.sort.
  pose proof (sortWith_sorted defaultCompare_consistent l) as H.
  unfold Spec.sortedBy in H.
  induction H as [|a r Hs IH Hh]; constructor.
  - exact IH.
  - destruct Hh; constructor. apply defaultCompare_le. assumption.
Qed.

Lemma sort_perm (l : list string) : Permutation (Sort.sort l) l.
Proof. apply sortWith_perm. Qed.

Lemma leb_trans (s1 s2 s3 : string) :
  String.leb s1 s2 = true -> String.leb s2 s3 = true ->
  String.leb s1 s3 = true.
Proof.
  unfold String.leb. revert s2 s3.
  induction s1 as [|a s1 IH]; intros [|b s2] [|c s3]; simpl;
    try congruence.
  unfold Ascii.compare.
  destruct (N.compare_spec (N_of_ascii a) (N_of_ascii b)) as [E1|E1|E1];
    destruct (N.compare_spec (N_of_ascii b) (N_of_ascii c)) as [E2|E2|E2];
    destruct (N.compare_spec (N_of_ascii a) (N_of_ascii c)) as [E3|E3|E3];
    try congruence; try lia.
  apply IH.
Qed.

(** An order that is antisymmetric leaves one sorted arrangement of a
    list. *)
Lemma sorted_unique (A : Type) (R : A -> A -> Prop) (l1 l2 : list A) :
  (forall a b, R a b -> R b a -> a = b) ->
  StronglySorted R l1 -> StronglySorted R l2 -> Permutation l1 l2 ->
  l1 = l2.
Proof.
  intros Hanti H1. revert l2.
  induction H1 as [|a l1 Hs1 IH Ha]; intros l2 H2 Hp.
  - apply Permutation_nil in Hp. congruence.
  - destruct H2 as [|b l2 Hs2 Hb].
    + apply Permutation_sym, Permutation_nil in Hp. discriminate.
    + assert (E : a = b).
      { assert (Hin1 : In a (b :: l2))
          by (apply (Permutation_in _ Hp); left; reflexivity).
        assert (Hin2 : In b (a :: l1))
          by (apply (Permutation_in _ (Permutation_sym Hp)); left;
              reflexivity).
        destruct Hin1 as [->|Hin1]; [reflexivity|].
        destruct Hin2 as [->|Hin2]; [reflexivity|].
        apply Hanti.
        - rewrite Forall_forall in Ha. apply Ha, Hin2.
        - rewrite Forall_forall in Hb. apply Hb, Hin1. }
      subst b. f_equal. apply IH; [exact Hs2|].
      apply Permutation_cons_inv with a. exact Hp.
Qed.

(** The default sort answers the one ascending arrangement of its
    argument, whatever the algorithm. *)
Lemma sort_unique (l l' : list string) :
  Permutation l' l -> Spec.ascending l' -> l' = Sort.sort l.
Proof.
  intros Hp Hs.
  assert (T : Relations_1.Transitive (fun a b => String.leb a b = true))
    by (intros a b c; apply leb_trans).
  apply sorted_unique with (R := fun a b => String.leb a b = true).
  - intros a b. apply String.leb_antisym.
  - apply Sorted_StronglySorted; assumption.
  - apply Sorted_StronglySorted; [exact T | apply sort_ascending].
  - eapply perm_trans; [exact Hp | apply Permutation_sym, sort_perm].
Qed.

(* ===================================================================== *)
(** * The registry and the adapters on absent data                        *)
(* ===================================================================== *)

Lemma assoc_Some_key (A : Type) (k : string) (l : list (string * A)) (a : A) :
  Js.assoc k l = Some a -> In (k, a) l.
Proof.
  induction l as [|[k' a'] r IH]; simpl; [discriminate|].
  destruct (String.eqb k' k) eqn:E.
  - intros [= ->]. apply String.eqb_eq in E. subst. now left.
  - intros H. right. apply IH, H.
Qed.

(** A registered id resolves to the adapter that carries it. *)
Lemma getMapper_registered (id : string) (m : Mappers.DataMapper) :
  Js.assoc id Mappers.mappers = Some m ->
  Mappers.getMapper id = Mappers.Adapter m /\ Mappers.id m = id.
Proof.
  intros H. unfold Mappers.getMapper, Mappers.mappersAt. rewrite H. simpl.
  split; [reflexivity|].
  apply assoc_Some_key in H. simpl in H.
  destruct H as [[= <- <-]|[[= <- <-]|[]]]; reflexivity.
Qed.

(** An id that is neither registered nor a member of [Object.prototype]
    resolves to the generic adapter. *)
Lemma getMapper_unknown (id : string) :
  Js.assoc id Mappers.mappers = None ->
  Js.inherited PObject id = None ->
  Mappers.getMapper id = Mappers.Adapter Mappers.GenericJSONAdapter.
Proof.
  intros H1 H2. unfold Mappers.getMapper, Mappers.mappersAt.
  rewrite H1, H2. reflexivity.
Qed.

(** The empty id, and the id ["undefined"] that an absent argument is
    turned into, resolve to the generic adapter. *)
Lemma getMapper_empty_or_absent :
  Mappers.getMapper "" = Mappers.Adapter Mappers.GenericJSONAdapter
  /\ Mappers.getMapper "undefined"
     = Mappers.Adapter Mappers.GenericJSONAdapter.
Proof. split; reflexivity. Qed.

(** The lookup never answers [undefined] or another falsy value. *)
Lemma getMapper_truthy (id : string) :
  Mappers.resolvedTruthy (Mappers.getMapper id) = true.
Proof.
  unfold Mappers.getMapper.
  destruct (Mappers.mappersAt id) as [r|]; [|reflexivity].
  destruct (Mappers.resolvedTruthy r) eqn:E; [exact E | reflexivity].
Qed.

(** C3, at the input where the code departs from it.  The claim: for every
    string id, [getMapper] returns an adapter, the generic one when the id
    is not registered.  The object [mappers] inherits the members of
    [Object.prototype], so for the id ["toString"] the lookup finds a
    built-in function, which is truthy, and [getMapper] returns it: no
    adapter, and not the generic one. *)
Theorem getMapper_toString :
  Js.assoc "toString" Mappers.mappers = None
  /\ Mappers.getMapper "toString" = Mappers.Other Function
  /\ Mappers.getMapper "toString"
     <> Mappers.Adapter Mappers.GenericJSONAdapter.
Proof.
  split; [reflexivity|]. split; [reflexivity|].
  intros H. discriminate H.
Qed.

(** C4: on the payload [null] and on the payload [undefined], the
    [transform] of every registered adapter returns [null], and does not
    throw, whatever the configuration. *)
Theorem transform_nullish_payload
    (m : Mappers.DataMapper) (payload : value) (config : option MapperConfig) :
  In m (map snd Mappers.mappers) ->
  payload = J JNull \/ payload = Undefined ->
  Mappers.transform m payload config = Returns None.
Proof.
  intros Hm Hp. simpl in Hm.
  destruct Hm as [<-|[<-|[]]]; destruct Hp as [->| ->]; reflexivity.
Qed.

Lemma transform_nullish_payload_witness :
  In Mappers.AlphaVantageAdapter (map snd Mappers.mappers)
  /\ Mappers.transform Mappers.AlphaVantageAdapter (J JNull)
       (Some (mkConfig (Some [("value", "4. close")]) (Some "a.b")))
     = Returns None.
Proof.
  split.
  - simpl. left. reflexivity.
  - apply transform_nullish_payload.
    + simpl. left. reflexivity.
    + left. reflexivity.
Defined.

(* ===================================================================== *)
(** * The generic adapter                                                 *)
(* ===================================================================== *)

Lemma split_not_nil (sep : ascii) (s : string) : Str.split sep s <> [].
Proof.
  destruct s as [|c r]; simpl; [discriminate|].
  destruct (Ascii.eqb c sep); [discriminate|].
  destruct (Str.split sep r); discriminate.
Qed.

(** A payload from which a root path leads to an object or an array is
    truthy: the first guard of [transform] lets it through. *)
Lemma resolveRoot_truthy (data target : value) (config : option MapperConfig) :
  Mappers.resolveRoot data config = Some target ->
  Js.isObjectType target = true -> Mappers.isNull target = false ->
  Js.truthy data = true.
Proof.
  unfold Mappers.resolveRoot. intros H Ho Hn.
  destruct (Mappers.configuredRoot config) as [p|].
  - pose proof (split_not_nil "." p) as Hs.
    destruct (Str.split "." p) as [|part rest]; [congruence|].
    simpl in H.
    destruct (Js.isObjectType data) eqn:E1; simpl in H; [|discriminate].
    destruct (Mappers.isNull data) eqn:E2; simpl in H; [discriminate|].
    clear H. destruct data as [|[]| |]; try discriminate; reflexivity.
  - injection H as ->.
    destruct target as [|[]| |]; try discriminate; reflexivity.
Qed.

(** The empty array gives the empty table. *)
Lemma generic_empty_array (data : value) (config : option MapperConfig) :
  Mappers.resolveRoot data config = Some (J (JArr [])) ->
  Mappers.GenericJSONAdapter_transform data config
  = Returns (Some (table [] [])).
Proof.
  intros H. unfold Mappers.GenericJSONAdapter_transform.
  rewrite (resolveRoot_truthy _ _ H eq_refl eq_refl), H. reflexivity.
Qed.

(** An array whose first element is not [null] gives the table of that
    element's keys and of the elements as they are. *)
Lemma generic_array_table
    (data : value) (config : option MapperConfig) (x : json) (rest : list json) :
  Mappers.resolveRoot data config = Some (J (JArr (x :: rest))) ->
  x <> JNull ->
  Mappers.GenericJSONAdapter_transform data config
  = Returns (Some (table (Js.ownKeys (J x)) (map Verbatim (x :: rest)))).
Proof.
  intros H Hx. unfold Mappers.GenericJSONAdapter_transform.
  rewrite (resolveRoot_truthy _ _ H eq_refl eq_refl), H.
  cbn [Js.isArray Js.items].
  change (Js.get (J (JArr (x :: rest))) "0") with (J x).
  unfold Js.Object_keys.
  destruct x; try reflexivity. congruence.
Qed.

(** C2, at the input where the code departs from it.  The claim: for every
    array payload the generic [transform] returns a table, with the keys of
    the first element as headers and the array as rows.  On the array
    [[null]] the call [Object.keys(targetData[0])] throws a [TypeError]: no
    table is returned. *)
Theorem generic_array_of_null_throws :
  Mappers.resolveRoot (J (JArr [JNull])) None = Some (J (JArr [JNull]))
  /\ Mappers.GenericJSONAdapter_transform (J (JArr [JNull])) None = Throws.
Proof. split; reflexivity. Qed.

(** A root path that leads to an object, a mapped value field that the
    object does not have: the metric is returned all the same. *)
Lemma generic_object_metric
    (data : value) (config : option MapperConfig)
    (props : list (string * json)) (field : string) :
  Mappers.resolveRoot data config = Some (J (JObj props)) ->
  Mappers.mapped config "value" = Some field ->
  Mappers.GenericJSONAdapter_transform data config
  = Returns (Some (metric
      (J (JStr match Mappers.mapped config "label" with
               | Some l => l
               | None => "Value"
               end))
      (Js.get (J (JObj props)) field) None None)).
Proof.
  intros H Hf. unfold Mappers.GenericJSONAdapter_transform.
  rewrite (resolveRoot_truthy _ _ H eq_refl eq_refl), H, Hf. reflexivity.
Qed.



(* ===================================================================== *)
(** * The path navigator                                                  *)
(* ===================================================================== *)

(** On a value that passes the guard of the loop, neither [in] nor the
    property access throws. *)
Lemma navigable_checked (v : value) (k : string) :
  Spec.navigable v = true ->
  Js.inOperator k v = Returns (Js.hasProperty v k)
  /\ Js.getChecked v k = Returns (Js.get v k).
Proof.
  unfold Spec.navigable. intros H.
  destruct v as [|[]| |]; cbn [Js.isObjectType Js.typeof] in H;
    rewrite ?Bool.andb_false_r in H; try discriminate H;
    split; reflexivity.
Qed.

(** One segment: a property access on a navigable value that has the
    property, [null] otherwise. *)
Lemma walk_step (v : value) (k : string) (rest : list string) :
  Formatters.walk v (k :: rest)
  = if Spec.navigable v && Js.hasProperty v k
    then Formatters.walk (Js.get v k) rest
    else Returns (J JNull).
Proof.
  cbn [Formatters.walk]. fold (Spec.navigable v).
  destruct (Spec.navigable v) eqn:E; [|reflexivity].
  destruct (navigable_checked v k E) as [-> ->]. cbn [bind andb].
  destruct (Js.hasProperty v k); reflexivity.
Qed.

(** The walk never throws. *)
Lemma walk_returns (v : value) (keys : list string) :
  exists r, Formatters.walk v keys = Returns r.
Proof.
  revert v. induction keys as [|k rest IH]; intros v.
  - exists v. reflexivity.
  - rewrite walk_step.
    destruct (Spec.navigable v && Js.hasProperty v k); [apply IH|].
    exists (J JNull). reflexivity.
Qed.

Lemma walk_null (keys : list string) :
  Formatters.walk (J JNull) keys = Returns (J JNull).
Proof. destruct keys; reflexivity. Qed.

Lemma walk_app (v : value) (pre post : list string) :
  Formatters.walk v (pre ++ post)%list
  = (reached <- Formatters.walk v pre ;; Formatters.walk reached post).
Proof.
  revert v. induction pre as [|k pre IH]; intros v.
  - reflexivity.
  - cbn [app]. rewrite !walk_step.
    destruct (Spec.navigable v && Js.hasProperty v k).
    + apply IH.
    + cbn [bind]. symmetry. apply walk_null.
Qed.




(* ===================================================================== *)
(** * The structure classifier                                            *)
(* ===================================================================== *)

(** The loop of [findTimeSeries] stops at the first key that is accepted. *)
Lemma scanTimeSeries_find (dataObj : value) (keys : list string) :
  Formatters.scanTimeSeries dataObj keys
  = option_map (fun k => mkTimeSeries k (Js.get dataObj k))
               (find (Spec.accepts dataObj) keys).
Proof.
  induction keys as [|k rest IH]; [reflexivity|].
  cbn [Formatters.scanTimeSeries find]. rewrite IH.
  change (Spec.accepts dataObj k)
    with (Formatters.some Formatters.patterns k
          && Formatters.isPlainObject (Js.get dataObj k)
          && Formatters.firstKeyIsDate (Js.get dataObj k)).
  destruct (Formatters.some Formatters.patterns k); [|reflexivity].
  destruct (Formatters.isPlainObject (Js.get dataObj k)); [|reflexivity].
  destruct (Formatters.firstKeyIsDate (Js.get dataObj k)); reflexivity.
Qed.

(** The loop of [findDataStructure] stops at the first quote-like key. *)
Lemma scanQuote_find (dataObj : value) (keys : list string) :
  Formatters.scanQuote dataObj keys
  = option_map (fun k => mkDataStructure k (Js.get dataObj k) false)
               (find (Spec.acceptsQuote dataObj) keys).
Proof.
  induction keys as [|k rest IH]; [reflexivity|].
  cbn [Formatters.scanQuote find]. rewrite IH.
  change (Spec.acceptsQuote dataObj k)
    with (Formatters.some Formatters.quotePatterns k
          && Formatters.isPlainObject (Js.get dataObj k)).
  destruct (Formatters.some Formatters.quotePatterns k); [|reflexivity].
  destruct (Formatters.isPlainObject (Js.get dataObj k)); reflexivity.
Qed.

Lemma findDataStructure_of_series (data : value) (ts : TimeSeries) :
  Formatters.findTimeSeries data = Some ts ->
  Formatters.findDataStructure data
  = Some (mkDataStructure (ts_key ts) (ts_data ts) true).
Proof.
  intros H. unfold Formatters.findDataStructure.
  destruct (negb (Js.truthy data) || negb (Js.isObjectType data)) eqn:E.
  - unfold Formatters.findTimeSeries in H. rewrite E in H. discriminate.
  - rewrite H. reflexivity.
Qed.

Lemma findDataStructure_without_series (data : value) :
  Js.truthy data = true -> Js.isObjectType data = true ->
  Formatters.findTimeSeries data = None ->
  Formatters.findDataStructure data
  = match find (Spec.acceptsQuote data) (Js.ownKeys data) with
    | Some k => Some (mkDataStructure k (Js.get data k) false)
    | None => Some (mkDataStructure "root" data false)
    end.
Proof.
  intros Ht Ho H. unfold Formatters.findDataStructure.
  rewrite Ht, Ho, H, scanQuote_find. simpl.
  destruct (find (Spec.acceptsQuote data) (Js.ownKeys data)); reflexivity.
Qed.


(* ===================================================================== *)
(** * The field extractor                                                 *)
(* ===================================================================== *)

Lemma assoc_of_key (A : Type) (k : string) (l : list (string * A)) :
  In k (map fst l) -> exists a, Js.assoc k l = Some a.
Proof.
  induction l as [|[k' a'] r IH]; simpl; [intros []|].
  intros [->|H].
  - rewrite String.eqb_refl. eauto.
  - destruct (String.eqb k' k); eauto.
Qed.

(** On an object that does not hide [hasOwnProperty], the call answers
    whether the name is an own property. *)
Lemma callHasOwnProperty_object (props : list (string * json)) (k : string) :
  Js.assoc "hasOwnProperty" props = None ->
  Js.callHasOwnProperty (J (JObj props)) k
  = Returns match Js.assoc k props with Some _ => true | None => false end.
Proof.
  intros H. unfold Js.callHasOwnProperty, Js.get, Js.lookup.
  cbn [Js.getOwn]. rewrite H. reflexivity.
Qed.

(** An object that hides [hasOwnProperty] makes the call throw. *)
Lemma callHasOwnProperty_hidden
    (props : list (string * json)) (k : string) (j : json) :
  Js.assoc "hasOwnProperty" props = Some j ->
  Js.callHasOwnProperty (J (JObj props)) k = Throws.
Proof.
  intros H. unfold Js.callHasOwnProperty, Js.get, Js.lookup.
  cbn [Js.getOwn]. rewrite H. reflexivity.
Qed.

Lemma entryFields_object
    (props : list (string * json)) (keys fields : list string) :
  Js.assoc "hasOwnProperty" props = None ->
  incl keys (map fst props) ->
  Formatters.entryFields (J (JObj props)) keys fields
  = Returns (fields ++ keys)%list.
Proof.
  intros Hh. revert fields.
  induction keys as [|k rest IH]; intros fields Hin; simpl.
  - rewrite app_nil_r. reflexivity.
  - rewrite (callHasOwnProperty_object _ k Hh). simpl.
    destruct (assoc_of_key k props (Hin k (or_introl eq_refl))) as [a ->].
    rewrite IH by (intros x Hx; apply Hin; right; exact Hx).
    rewrite <- app_assoc. reflexivity.
Qed.

Lemma leafFields_object
    (props : list (string * json)) (keys fields : list string) :
  Js.assoc "hasOwnProperty" props = None ->
  incl keys (map fst props) ->
  Formatters.leafFields (J (JObj props)) keys fields
  = Returns (fields
             ++ filter (fun k => Formatters.isLeaf (Js.get (J (JObj props)) k))
                       keys)%list.
Proof.
  intros Hh. revert fields.
  induction keys as [|k rest IH]; intros fields Hin.
  - simpl. rewrite app_nil_r. reflexivity.
  - cbn [Formatters.leafFields filter].
    rewrite (callHasOwnProperty_object _ k Hh). cbn [bind].
    destruct (assoc_of_key k props (Hin k (or_introl eq_refl))) as [a ->].
    rewrite IH by (intros x Hx; apply Hin; right; exact Hx).
    cbn [andb].
    destruct (Formatters.isLeaf (Js.get (J (JObj props)) k)).
    + rewrite <- app_assoc. reflexivity.
    + reflexivity.
Qed.

Lemma Sorted_weaken (A : Type) (R R' : A -> A -> Prop) (l : list A) :
  (forall a b, R a b -> R' a b) -> Sorted R l -> Sorted R' l.
Proof.
  intros HR H. induction H as [|a l Hs IH Hh]; constructor.
  - exact IH.
  - destruct Hh; constructor. apply HR. assumption.
Qed.

Lemma filter_keepField (l : list string) :
  Forall (fun f => f <> "" /\ Str.isPureDigits f = false)
         (filter Formatters.keepField l).
Proof.
  apply Forall_forall. intros f Hf. apply filter_In in Hf.
  destruct Hf as [_ Hk]. unfold Formatters.keepField in Hk.
  apply Bool.andb_true_iff in Hk. destruct Hk as [H1 H2].
  split.
  - intros ->. discriminate H1.
  - apply Bool.negb_true_iff. exact H2.
Qed.

Lemma nearestDouble_exact : Spec.exactBelow2p53 Spec.nearestDouble.
Proof.
  intros n H. unfold Spec.nearestDouble.
  apply N.ltb_lt in H. rewrite H. reflexivity.
Qed.

Section FieldExtractor.

Variable localeCompare : string -> string -> Z.
Variable toDouble : N -> N.

Local Abbreviation naturalCompare :=
  (Formatters.naturalCompare localeCompare toDouble).
Local Abbreviation naturalOrder := (Spec.naturalOrder localeCompare toDouble).
Local Abbreviation extractTimeSeriesFields :=
  (Formatters.extractTimeSeriesFields localeCompare toDouble).
Local Abbreviation extractSimpleFields :=
  (Formatters.extractSimpleFields localeCompare toDouble).
Local Abbreviation extractFields :=
  (Formatters.extractFields localeCompare toDouble).

(** The comparator puts [a] before [b], or leaves them, exactly in the
    natural order. *)
Lemma naturalCompare_le (a b : string) :
  (naturalCompare a b <= 0)%Z <-> naturalOrder a b.
Proof.
  unfold Formatters.naturalCompare, Spec.naturalOrder.
  destruct (N.eqb_spec (Formatters.leadingNumber toDouble a)
                       (Formatters.leadingNumber toDouble b)) as [E|E];
    simpl; split.
  - intros H. right. split; assumption.
  - intros [H|[_ H]]; [lia | exact H].
  - intros H. left. lia.
  - intros [H|[H _]]; [lia | contradiction].
Qed.

Lemma naturalCompare_consistent :
  Spec.consistent localeCompare -> Spec.consistent naturalCompare.
Proof.
  intros Hc a b. unfold Formatters.naturalCompare.
  rewrite (N.eqb_sym (Formatters.leadingNumber toDouble b)).
  destruct (N.eqb_spec (Formatters.leadingNumber toDouble a)
                       (Formatters.leadingNumber toDouble b)) as [E|E]; simpl.
  - apply Hc.
  - lia.
Qed.

Lemma naturalSort_sorted (l : list string) :
  Spec.consistent localeCompare ->
  Sorted naturalOrder (Sort.sortWith naturalCompare l).
Proof.
  intros Hc.
  apply Sorted_weaken with (R := fun a b => (naturalCompare a b <= 0)%Z).
  - intros a b. apply naturalCompare_le.
  - apply (sortWith_sorted (naturalCompare_consistent Hc)).
Qed.

(** The fields of the first entry of a series, in natural order. *)
Lemma extractTimeSeriesFields_sorts
    (data : value) (ts : TimeSeries) (date : string) (dates : list string)
    (entry : list (string * json)) :
  Formatters.findTimeSeries data = Some ts ->
  Js.ownKeys (ts_data ts) = date :: dates ->
  Js.get (ts_data ts) date = J (JObj entry) ->
  Js.assoc "hasOwnProperty" entry = None ->
  extractTimeSeriesFields data
  = Returns (Sort.sortWith naturalCompare (map fst entry)).
Proof.
  intros H1 H2 H3 H4. unfold Formatters.extractTimeSeriesFields.
  rewrite H1, H2, H3. cbn [Js.truthy Js.isObjectType Js.typeof Js.isArray
                           negb orb Js.ownKeys].
  rewrite (entryFields_object _ [] H4 (incl_refl _)). reflexivity.
Qed.

(** The leaf fields of a quote or of the root, in natural order. *)
Lemma extractSimpleFields_sorts
    (data : value) (s : DataStructure) (props : list (string * json)) :
  Formatters.findDataStructure data = Some s ->
  ds_data s = J (JObj props) ->
  Js.assoc "hasOwnProperty" props = None ->
  extractSimpleFields data
  = Returns (Sort.sortWith naturalCompare
               (filter (fun k => Formatters.isLeaf (Js.get (J (JObj props)) k))
                       (map fst props))).
Proof.
  intros H1 H2 H3. unfold Formatters.extractSimpleFields.
  rewrite H1, H2. cbn [Js.truthy Js.isObjectType Js.typeof Js.isArray
                       negb orb Js.ownKeys].
  rewrite (leafFields_object _ [] H3 (incl_refl _)). reflexivity.
Qed.


(** Whatever the extractor of a series returns is in natural order. *)
Lemma extractTimeSeriesFields_sorted (data : value) (fields : list string) :
  Spec.consistent localeCompare ->
  extractTimeSeriesFields data = Returns fields ->
  Sorted naturalOrder fields.
Proof.
  intros Hc. unfold Formatters.extractTimeSeriesFields.
  destruct (Formatters.findTimeSeries data) as [ts|];
    [|intros [= <-]; constructor].
  destruct (Js.ownKeys (ts_data ts)) as [|date dates];
    [intros [= <-]; constructor|].
  match goal with
  | |- (if ?c then _ else _) = _ -> _ =>
      destruct c; [intros [= <-]; constructor|]
  end.
  match goal with
  | |- bind ?m _ = _ -> _ => destruct m; cbn [bind]; [|discriminate]
  end.
  intros [= <-]. apply naturalSort_sorted, Hc.
Qed.

(** Whatever the simple extractor returns is in natural order. *)
Lemma extractSimpleFields_sorted (data : value) (fields : list string) :
  Spec.consistent localeCompare ->
  extractSimpleFields data = Returns fields ->
  Sorted naturalOrder fields.
Proof.
  intros Hc. unfold Formatters.extractSimpleFields.
  destruct (Formatters.findDataStructure data) as [s|];
    [|intros [= <-]; constructor].
  match goal with
  | |- (if ?c then _ else _) = _ -> _ =>
      destruct c; [intros [= <-]; constructor|]
  end.
  match goal with
  | |- bind ?m _ = _ -> _ => destruct m; cbn [bind]; [|discriminate]
  end.
  intros [= <-]. apply naturalSort_sorted, Hc.
Qed.


(** The dispatcher never reaches its last part: without a series,
    [findDataStructure] still answers a structure that is no series, the
    root at the least. *)
Lemma extractFields_without_series (data : value) :
  Js.truthy data = true -> Js.isObjectType data = true ->
  Formatters.findTimeSeries data = None ->
  extractFields data
  = (fields <- extractSimpleFields data ;;
     Returns (filter Formatters.keepField fields)).
Proof.
  intros Ht Ho H. unfold Formatters.extractFields.
  rewrite Ht, Ho, H, (findDataStructure_without_series data Ht Ho H).
  cbn [negb orb].
  destruct (find (Spec.acceptsQuote data) (Js.ownKeys data)); reflexivity.
Qed.

(** Every name that [extractFields] returns is non-empty and is no string
    of digits only. *)
Lemma extractFields_keeps (data : value) (fields : list string) :
  extractFields data = Returns fields ->
  Forall (fun f => f <> "" /\ Str.isPureDigits f = false) fields.
Proof.
  unfold Formatters.extractFields.
  destruct (Js.truthy data) eqn:Ht; cbn [negb orb];
    [|intros [= <-]; constructor].
  destruct (Js.isObjectType data) eqn:Ho; cbn [negb orb];
    [|intros [= <-]; constructor].
  destruct (Formatters.findTimeSeries data) eqn:E.
  - destruct (extractTimeSeriesFields data); cbn [bind]; [|discriminate].
    intros [= <-]. apply filter_keepField.
  - rewrite (findDataStructure_without_series data Ht Ho E).
    assert (G : forall r : outcome (list string),
               (fields0 <- r ;; Returns (filter Formatters.keepField fields0))
               = Returns fields ->
               Forall (fun f => f <> "" /\ Str.isPureDigits f = false) fields).
    { intros [l|]; cbn [bind]; [|discriminate].
      intros [= <-]. apply filter_keepField. }
    destruct (find (Spec.acceptsQuote data) (Js.ownKeys data));
      cbn [ds_isTimeSeries negb]; apply G.
Qed.

(** C9, at an input where the code departs from it.  The claim: on an
    object in which the classifier finds neither a series nor a quote,
    [extractFields] flattens one level, so that a nested object contributes
    its own keys.  Without a series [findDataStructure] always answers a
    structure that is no series, so the simple extractor runs and the
    flattening loop is never reached: on [{a: 1, b: {c: 2}}] the result is
    ["a"] alone, and the key "c" of the nested object is dropped. *)
Theorem extractFields_drops_nested_keys :
  Formatters.findTimeSeries Examples.nestedObject = None
  /\ Formatters.findDataStructure Examples.nestedObject
     = Some (mkDataStructure "root" Examples.nestedObject false)
  /\ extractFields Examples.nestedObject = Returns ["a"]
  /\ Formatters.flattenFields Examples.nestedObject
       (Js.ownKeys Examples.nestedObject) []
     = Returns ["a"; "c"].
Proof. repeat split; reflexivity. Qed.

End FieldExtractor.


(* ===================================================================== *)
(** * The Alpha Vantage adapter                                           *)
(* ===================================================================== *)

Lemma get_own (props : list (string * json)) (k : string) (v : json) :
  Js.assoc k props = Some v -> Js.get (J (JObj props)) k = J v.
Proof.
  intros H. unfold Js.get, Js.lookup. cbn [Js.getOwn]. rewrite H. reflexivity.
Qed.

(** Nothing that an object inherits is a string. *)
Lemma inherited_not_string (p : protoKind) (k s : string) :
  Js.inherited p k <> Some (J (JStr s)).
Proof.
  unfold Js.inherited, Js.protoOwn.
  destruct (Js.mem k (Js.methodNames p)); [discriminate|].
  assert (H : (if String.eqb k "__proto__" then Some (Proto p)
               else if Js.mem k (Js.methodNames PObject) then Some Function
                    else None) <> Some (J (JStr s))).
  { destruct (String.eqb k "__proto__"); [discriminate|].
    destruct (Js.mem k (Js.methodNames PObject)); discriminate. }
  destruct p; try exact H;
    (destruct (String.eqb k "length"); [discriminate | exact H]).
Qed.

Lemma isTimeSeriesKey_nonEmpty (k : string) :
  Mappers.isTimeSeriesKey k = true -> Formatters.nonEmpty k = true.
Proof. destruct k; [discriminate | reflexivity]. Qed.

(** The chart of a series that is not [null]. *)
Lemma alphaVantage_series
    (props : list (string * json)) (config : option MapperConfig)
    (k : string) (series : json) :
  find Mappers.isTimeSeriesKey (map fst props) = Some k ->
  Js.assoc k props = Some series ->
  series <> JNull ->
  Mappers.AlphaVantageAdapter_transform (J (JObj props)) config
  = Returns (Some (chart (Sort.sort (Js.ownKeys (J series)))
      [ {| label := Mappers.targetFieldOf config;
           points := map (Mappers.point (J series) (Mappers.targetFieldOf config))
                         (Sort.sort (Js.ownKeys (J series))) |} ])).
Proof.
  intros Hf Ha Hn. unfold Mappers.AlphaVantageAdapter_transform.
  cbn [Js.truthy Js.isObjectType Js.typeof negb orb Js.ownKeys].
  rewrite Hf.
  rewrite (isTimeSeriesKey_nonEmpty _ (proj2 (find_some _ _ Hf))).
  unfold Mappers.timeSeriesChart. rewrite (get_own _ _ Ha).
  unfold Js.Object_keys.
  destruct series; try reflexivity. congruence.
Qed.

(** A series that is [null] makes [Object.keys] throw. *)
Lemma alphaVantage_null_series_throws :
  Mappers.AlphaVantageAdapter_transform (J (JObj [("Daily", JNull)])) None
  = Throws.
Proof. reflexivity. Qed.

(** One point of the dataset, for an entry that is an object. *)
Lemma point_of_entry
    (entries fields : list (string * json)) (field date : string) :
  Js.assoc date entries = Some (JObj fields) ->
  Mappers.point (J (JObj entries)) field date
  = match Js.assoc field fields with
    | Some (JStr s) => Num.parseFloat s
    | _ => Num.zero
    end.
Proof.
  intros H. unfold Mappers.point. rewrite (get_own _ _ H).
  unfold Js.getOptional, Js.get, Js.lookup. cbn [Js.isNullish Js.getOwn].
  destruct (Js.assoc field fields) as [x|].
  - destruct x; reflexivity.
  - cbn [Js.protoOf].
    pose proof (inherited_not_string PObject field) as Hi.
    destruct (Js.inherited PObject field) as [[|[]| |]|]; try reflexivity.
    exfalso. apply (Hi s). reflexivity.
Qed.

(** C1, as the code has it: when the first own key of the payload object
    that includes "Time Series", "Daily", "Weekly" or "Monthly" holds a
    series other than [null], [transform] returns a chart; its labels are
    the own keys of the series in ascending order of code units, the one
    such arrangement; its single
    dataset is labelled by the field [fieldMapping.value], by "4. close"
    without one, and holds for each label, when the entry is an object,
    [parseFloat] of the field when the field is a string, and 0 when the
    field is missing or is no string.  On the payload of the round-trip
    example the labels are the two dates and the data is [105, 110]. *)
Theorem alphaVantage_chart
    (props : list (string * json)) (config : option MapperConfig)
    (k : string) (series : json) :
  find Mappers.isTimeSeriesKey (map fst props) = Some k ->
  Js.assoc k props = Some series ->
  series <> JNull ->
  let field := Mappers.targetFieldOf config in
  let labels := Sort.sort (Js.ownKeys (J series)) in
  Mappers.AlphaVantageAdapter_transform (J (JObj props)) config
  = Returns (Some (chart labels
      [ {| label := field;
           points := map (Mappers.point (J series) field) labels |} ]))
  /\ Permutation labels (Js.ownKeys (J series))
  /\ Spec.ascending labels
  /\ (forall l, Permutation l (Js.ownKeys (J series)) ->
                Spec.ascending l -> l = labels)
  /\ (Mappers.mapped config "value" = None -> field = "4. close")
  /\ (forall f, Mappers.mapped config "value" = Some f -> field = f)
  /\ (forall entries fields date,
        series = JObj entries ->
        Js.assoc date entries = Some (JObj fields) ->
        Mappers.point (J series) field date
        = match Js.assoc field fields with
          | Some (JStr s) => Num.parseFloat s
          | _ => Num.zero
          end)
  /\ Mappers.AlphaVantageAdapter_transform Examples.dailySeries None
     = Returns (Some (chart ["2024-01-02"; "2024-01-03"]
         [ {| label := "4. close"; points := [Fin 105; Fin 110] |} ])).
Proof.
  intros Hf Ha Hn field labels.
  split; [apply alphaVantage_series with k; assumption|].
  split; [apply sort_perm|].
  split; [apply sort_ascending|].
  split; [intros l; apply sort_unique|].
  split; [|split; [|split]].
  - intros H. unfold field, Mappers.targetFieldOf. rewrite H. reflexivity.
  - intros f H. unfold field, Mappers.targetFieldOf. rewrite H. reflexivity.
  - intros entries fields date -> H. apply point_of_entry, H.
  - reflexivity.
Qed.

Lemma alphaVantage_chart_witness :
  Mappers.AlphaVantageAdapter_transform Examples.dailySeries None
  = Returns (Some (chart ["2024-01-02"; "2024-01-03"]
      [ {| label := "4. close"; points := [Fin 105; Fin 110] |} ])).
Proof.
  exact (proj1 (alphaVantage_chart
                  [("Time Series (Daily)",
                    JObj [("2024-01-02",
                           JObj [("1. open", JStr "100");
                                 ("4. close", JStr "105")]);
                          ("2024-01-03",
                           JObj [("1. open", JStr "106");
                                 ("4. close", JStr "110")])])]
                  None (k := "Time Series (Daily)") eq_refl eq_refl
                  ltac:(discriminate))).
Defined.

(** C1 as stated fails: a field that is a string but no numeral is not
    turned into 0; [parseFloat] answers [NaN] and the chart carries it. *)
Lemma alphaVantage_chart_keeps_NaN :
  Mappers.AlphaVantageAdapter_transform
    (J (JObj [("Time Series (Daily)",
               JObj [("2024-01-02", JObj [("4. close", JStr "N/A")])])]))
    None
  = Returns (Some (chart ["2024-01-02"]
      [ {| label := "4. close"; points := [NaN] |} ]))
  /\ NaN <> Num.zero.
Proof. split; [reflexivity | discriminate]. Qed.

(** The metric of a quote whose numbers can be read. *)
Lemma alphaVantage_quote
    (props : list (string * json)) (config : option MapperConfig)
    (quote : json) (price change : number) :
  find Mappers.isTimeSeriesKey (map fst props) = None ->
  Js.assoc "Global Quote" props = Some quote ->
  Js.truthy (J quote) = true ->
  Js.parseFloat (Spec.quoteField (J quote) "05. price") = Returns price ->
  Js.parseFloat (Spec.quoteField (J quote) "09. change") = Returns change ->
  Mappers.AlphaVantageAdapter_transform (J (JObj props)) config
  = Returns (Some (metric
      (Js.orElse (Js.get (J quote) "01. symbol") (J (JStr "Unknown")))
      (J (JNum price))
      (Some change)
      (Some (if Num.geZero change then positive else negative)))).
Proof.
  intros Hf Ha Ht Hp Hc. unfold Mappers.AlphaVantageAdapter_transform.
  cbn [Js.truthy Js.isObjectType Js.typeof negb orb Js.ownKeys].
  rewrite Hf. unfold Mappers.globalQuote, Mappers.quoteKey.
  rewrite (get_own _ _ Ha), Ht.
  unfold Spec.quoteField in Hp, Hc. cbv zeta.
  rewrite Hp. cbn [bind]. rewrite Hc. reflexivity.
Qed.

(** A field that is missing, or falsy, reads as the number 0. *)
Lemma quoteField_missing (quote : value) (name : string) :
  Js.truthy (Js.get quote name) = false ->
  Js.parseFloat (Spec.quoteField quote name) = Returns Num.zero.
Proof.
  intros H. unfold Spec.quoteField, Js.orElse. rewrite H. reflexivity.
Qed.

(** A field that is a non-empty string reads as [parseFloat] of it. *)
Lemma quoteField_string (quote : value) (name s : string) :
  Js.get quote name = J (JStr s) -> s <> "" ->
  Js.parseFloat (Spec.quoteField quote name) = Returns (Num.parseFloat s).
Proof.
  intros H Hs. unfold Spec.quoteField, Js.orElse. rewrite H.
  cbn [Js.truthy]. destruct (String.eqb_spec s ""); [contradiction|].
  reflexivity.
Qed.




(* ===================================================================== *)
(** * The generic adapter: when it throws, when it answers [null]         *)
(* ===================================================================== *)

(** The generic [transform] throws in one case only: the payload, after the
    root path if there is one, is an array whose first element is [null]. *)
Theorem generic_throws_iff (data : value) (config : option MapperConfig) :
  Mappers.GenericJSONAdapter_transform data config = Throws
  <-> exists rest,
        Mappers.resolveRoot data config = Some (J (JArr (JNull :: rest))).
Proof.
  split.
  - unfold Mappers.GenericJSONAdapter_transform.
    destruct (Js.truthy data); cbn [negb]; [|discriminate].
    destruct (Mappers.resolveRoot data config) as [t|]; [|discriminate].
    destruct t as [|[| | | |l|props]| |p]; cbn; try discriminate.
    + destruct l as [|x rest]; [discriminate|].
      change (Js.get (J (JArr (x :: rest))) "0") with (J x).
      destruct x; cbn; try discriminate. intros _. eauto.
    + destruct (Mappers.mapped config "value"); discriminate.
    + destruct p; cbn; try discriminate;
        destruct (Mappers.mapped config "value"); discriminate.
  - intros [rest H]. unfold Mappers.GenericJSONAdapter_transform.
    rewrite (resolveRoot_truthy _ _ H eq_refl eq_refl), H. reflexivity.
Qed.

(** The generic [transform] answers [null] exactly when the payload is
    falsy, when the root path does not resolve, or when what it resolves to
    is no object: a string, a number, a boolean, a function or [null]. *)
Theorem generic_null_iff (data : value) (config : option MapperConfig) :
  Mappers.GenericJSONAdapter_transform data config = Returns None
  <-> Js.truthy data = false
      \/ Mappers.resolveRoot data config = None
      \/ exists target,
           Mappers.resolveRoot data config = Some target
           /\ (Js.isObjectType target = false \/ target = J JNull).
Proof.
  unfold Mappers.GenericJSONAdapter_transform. split.
  - destruct (Js.truthy data); cbn [negb]; [|auto].
    destruct (Mappers.resolveRoot data config) as [t|]; [|auto].
    intros H. right. right. exists t. split; [reflexivity|].
    destruct t as [|[| | | |l|props]| |p]; cbn in *; auto.
    + destruct l as [|x rest]; [discriminate|].
      change (Js.get (J (JArr (x :: rest))) "0") with (J x) in H.
      destruct x; discriminate.
    + destruct (Mappers.mapped config "value"); discriminate.
    + destruct p; cbn in H; try discriminate;
        destruct (Mappers.mapped config "value"); discriminate.
  - intros [H|[H|[t [H [Ho| ->]]]]].
    + rewrite H. reflexivity.
    + rewrite H. destruct (negb (Js.truthy data)); reflexivity.
    + rewrite H. destruct (negb (Js.truthy data)); [reflexivity|].
      destruct t as [|[]| |]; try discriminate; reflexivity.
    + rewrite H. destruct (negb (Js.truthy data)); reflexivity.
Qed.

(** An object without a mapped value field becomes the table of its
    entries: one row for each own property, in order, under the headers
    "Key" and "Value"; a value that is [null], an array or an object is
    handed to [JSON.stringify], every other value is kept as it is. *)
Theorem generic_key_value_table
    (data : value) (config : option MapperConfig)
    (props : list (string * json)) :
  Mappers.resolveRoot data config = Some (J (JObj props)) ->
  Mappers.mapped config "value" = None ->
  exists rows,
    Mappers.GenericJSONAdapter_transform data config
    = Returns (Some (table ["Key"; "Value"] rows))
    /\ List.length rows = List.length props
    /\ Forall2 (fun r kv =>
                  r = KeyValue (fst kv)
                        match snd kv with
                        | JNull | JArr _ | JObj _ => Stringified (snd kv)
                        | _ => Raw (snd kv)
                        end)
               rows props.
Proof.
  intros H Hm. exists (map Mappers.keyValueRow props).
  split; [|split].
  - unfold Mappers.GenericJSONAdapter_transform.
    rewrite (resolveRoot_truthy _ _ H eq_refl eq_refl), H, Hm. reflexivity.
  - apply length_map.
  - clear. induction props as [|[k v] r IH]; cbn [map]; constructor.
    + destruct v; reflexivity.
    + exact IH.
Qed.

Lemma generic_key_value_table_witness :
  exists rows,
    Mappers.GenericJSONAdapter_transform
      (J (JObj [("name", JStr "AAPL"); ("tags", JArr [])])) None
    = Returns (Some (table ["Key"; "Value"] rows))
    /\ List.length rows = 2%nat.
Proof.
  destruct (@generic_key_value_table
              (J (JObj [("name", JStr "AAPL"); ("tags", JArr [])])) None
              [("name", JStr "AAPL"); ("tags", JArr [])] eq_refl eq_refl)
    as [rows [H1 [H2 _]]].
  exists rows. split; [exact H1 | exact H2].
Defined.

(* ===================================================================== *)
(** * Paths                                                               *)
(* ===================================================================== *)

Ltac split_ifs :=
  repeat match goal with
         | |- context [if ?c then _ else _] => destruct c
         | |- context [match ?p with PObject => _ | _ => _ end] => destruct p
         end.

Lemma protoOwn_defined (p : protoKind) (k : string) :
  Js.protoOwn p k <> Some Undefined.
Proof. unfold Js.protoOwn. split_ifs; discriminate. Qed.

Lemma inherited_defined (p : protoKind) (k : string) :
  Js.inherited p k <> Some Undefined.
Proof.
  unfold Js.inherited. pose proof (protoOwn_defined p k) as H.
  destruct (Js.protoOwn p k); [exact H|]. split_ifs; discriminate.
Qed.

(** A property that is there is never [undefined]: parsed JSON holds no
    [undefined], and neither do the built-in prototypes. *)
Lemma hasProperty_defined (v : value) (k : string) :
  Js.hasProperty v k = negb (Mappers.isUndefined (Js.get v k)).
Proof.
  unfold Js.hasProperty, Js.get.
  destruct (Js.lookup v k) as [x|] eqn:E; [|reflexivity].
  destruct x; try reflexivity. exfalso.
  unfold Js.lookup in E. destruct v as [|j| |p]; try discriminate.
  - destruct (Js.getOwn j k); [discriminate|].
    destruct (Js.protoOf j) as [q|]; [|discriminate].
    exact (inherited_defined _ _ E).
  - unfold Js.lookupProto in E.
    pose proof (protoOwn_defined p k) as H.
    destruct (Js.protoOwn p k); [exact (H E)|].
    destruct p; try exact (inherited_defined _ _ E).
    destruct (String.eqb k "__proto__"); discriminate.
Qed.

(** An object is truthy unless it is [null]. *)
Lemma navigable_object (v : value) :
  Spec.navigable v = Js.isObjectType v && negb (Mappers.isNull v).
Proof.
  unfold Spec.navigable.
  destruct v as [|[]| |]; cbn [Js.isObjectType Js.typeof];
    rewrite ?Bool.andb_false_r; reflexivity.
Qed.

(** The loop of the generic adapter over a root path and the loop of
    [extractData] take the same steps. *)
Lemma navigate_walk (v : value) (parts : list string) :
  Formatters.walk v parts
  = Returns match Mappers.navigate v parts with
            | Some t => t
            | None => J JNull
            end.
Proof.
  revert v. induction parts as [|k rest IH]; intros v; [reflexivity|].
  rewrite walk_step. cbn [Mappers.navigate].
  rewrite navigable_object, hasProperty_defined.
  destruct (Js.isObjectType v && negb (Mappers.isNull v)
            && negb (Mappers.isUndefined (Js.get v k))); [apply IH|].
  reflexivity.
Qed.

(** The root path of the generic adapter and the path of [extractData]
    lead to the same value: what [extractData] returns for a non-empty path
    is what the adapter works on, and [null] when the adapter gives up. *)
Theorem rootPath_resolves_like_extractData
    (data : value) (c : MapperConfig) (p : string) :
  rootPath c = Some p -> p <> "" ->
  Formatters.extractData data (Some p)
  = Returns match Mappers.resolveRoot data (Some c) with
            | Some target => target
            | None => J JNull
            end.
Proof.
  intros Hp Hne. unfold Mappers.resolveRoot, Mappers.configuredRoot.
  rewrite Hp. unfold Formatters.nonEmpty.
  destruct (String.eqb_spec p ""); [contradiction|]. cbn [negb].
  unfold Formatters.extractData.
  destruct (String.eqb_spec p ""); [contradiction|].
  destruct (Js.truthy data) eqn:Ht; cbn [negb]; [apply navigate_walk|].
  pose proof (split_not_nil "." p) as Hs.
  destruct (Str.split "." p) as [|k rest]; [congruence|].
  cbn [Mappers.navigate].
  rewrite <- navigable_object. unfold Spec.navigable. rewrite Ht. reflexivity.
Qed.

Lemma rootPath_resolves_like_extractData_witness :
  Formatters.extractData
    (J (JObj [("data", JObj [("items", JArr [JStr "x"])])])) (Some "data.items")
  = Returns (J (JArr [JStr "x"])).
Proof.
  exact (@rootPath_resolves_like_extractData
           (J (JObj [("data", JObj [("items", JArr [JStr "x"])])]))
           (mkConfig None (Some "data.items")) "data.items" eq_refl
           ltac:(discriminate)).
Defined.

Lemma split_app (sep : ascii) (p q : string) :
  Str.split sep (p ++ String sep q)
  = (Str.split sep p ++ Str.split sep q)%list.
Proof.
  induction p as [|c p IH]; cbn [append Str.split].
  - rewrite Ascii.eqb_refl. reflexivity.
  - destruct (Ascii.eqb c sep).
    + rewrite IH. reflexivity.
    + rewrite IH. pose proof (split_not_nil sep p) as Hs.
      destruct (Str.split sep p) as [|h t]; [congruence|]. reflexivity.
Qed.

Lemma walk_of_falsy (v : value) (keys : list string) :
  Js.truthy v = false -> keys <> [] ->
  Formatters.walk v keys = Returns (J JNull).
Proof.
  intros H Hk. destruct keys as [|k rest]; [congruence|].
  rewrite walk_step. unfold Spec.navigable. rewrite H. reflexivity.
Qed.

(** Paths compose: walking [p.q] is walking [p] and then walking [q] from
    what was reached. *)
Theorem extractData_composes (data : value) (p q : string) :
  p <> "" -> q <> "" ->
  Formatters.extractData data (Some (p ++ "." ++ q))
  = (reached <- Formatters.extractData data (Some p) ;;
     Formatters.extractData reached (Some q)).
Proof.
  intros Hp Hq.
  assert (Hpq : String.eqb (p ++ "." ++ q) "" = false).
  { destruct p; [congruence | reflexivity]. }
  unfold Formatters.extractData at 1 2. rewrite Hpq.
  destruct (String.eqb_spec p ""); [contradiction|].
  destruct (Js.truthy data) eqn:Ht; cbn [negb].
  - change (p ++ "." ++ q) with (p ++ String "." q).
    rewrite split_app, walk_app.
    destruct (walk_returns data (Str.split "." p)) as [r ->]. cbn [bind].
    unfold Formatters.extractData.
    destruct (String.eqb_spec q ""); [contradiction|].
    destruct (Js.truthy r) eqn:Hr; cbn [negb]; [reflexivity|].
    apply walk_of_falsy; [exact Hr | apply split_not_nil].
  - reflexivity.
Qed.

Lemma extractData_composes_witness :
  Formatters.extractData
    (J (JObj [("a", JObj [("b", JObj [("c", JStr "x")])])])) (Some "a.b.c")
  = (reached <- Formatters.extractData
                  (J (JObj [("a", JObj [("b", JObj [("c", JStr "x")])])]))
                  (Some "a") ;;
     Formatters.extractData reached (Some "b.c")).
Proof.
  exact (@extractData_composes
           (J (JObj [("a", JObj [("b", JObj [("c", JStr "x")])])]))
           "a" "b.c" ltac:(discriminate) ltac:(discriminate)).
Defined.

(* ===================================================================== *)
(** * Payloads that are arrays or strings                                 *)
(* ===================================================================== *)

Lemma string_of_uint_digits (u : Decimal.uint) :
  Str.allb Str.isDigit (NilEmpty.string_of_uint u) = true.
Proof. induction u; cbn; auto. Qed.

Lemma indexKeys_digits (n : nat) :
  Forall (fun k => Str.allb Str.isDigit k = true) (Js.indexKeys n).
Proof.
  unfold Js.indexKeys. apply Forall_forall. intros k Hk.
  apply in_map_iff in Hk. destruct Hk as [i [<- _]].
  apply string_of_uint_digits.
Qed.

(** No digit matches, in either case, the letter that a pattern of the
    source starts with. *)
Lemma letter_not_digit (c d : ascii) :
  In c ["t"; "T"; "d"; "w"; "m"; "g"; "q"]%char ->
  Str.isDigit d = true -> Str.eqCase c d = false.
Proof.
  intros Hc Hd.
  destruct Hc as [<-|[<-|[<-|[<-|[<-|[<-|[<-|[]]]]]]]];
    destruct d as [[] [] [] [] [] [] [] []]; try discriminate Hd; reflexivity.
Qed.

Lemma test_on_digits (c : ascii) (p : list Str.atom) (s : string) :
  In c ["t"; "T"; "d"; "w"; "m"; "g"; "q"]%char ->
  Str.allb Str.isDigit s = true ->
  Str.test (Str.Lit c :: p) s = false.
Proof.
  intros Hc. induction s as [|d r IH]; intros Hs; [reflexivity|].
  cbn [Str.allb] in Hs. apply Bool.andb_true_iff in Hs. destruct Hs as [Hd Hr].
  cbn [Str.test Str.matchHere].
  rewrite (@letter_not_digit _ _ Hc Hd), (IH Hr). reflexivity.
Qed.

(** A name made of digits matches none of the name patterns. *)
Lemma patterns_on_digits (k : string) :
  Str.allb Str.isDigit k = true ->
  Formatters.some Formatters.patterns k = false
  /\ Formatters.some Formatters.quotePatterns k = false
  /\ Formatters.some Renderer.quotePatterns k = false.
Proof.
  intros H.
  unfold Formatters.some, Formatters.patterns, Formatters.quotePatterns,
    Renderer.quotePatterns.
  cbn [existsb Str.lits app].
  rewrite !test_on_digits by (try exact H; cbn; tauto).
  repeat split; reflexivity.
Qed.

Lemma scans_on_digits (dataObj : value) (keys : list string) :
  Forall (fun k => Str.allb Str.isDigit k = true) keys ->
  Formatters.scanTimeSeries dataObj keys = None
  /\ Formatters.scanQuote dataObj keys = None
  /\ Renderer.scanQuote dataObj keys = None.
Proof.
  induction 1 as [|k rest Hk _ IH]; [repeat split; reflexivity|].
  destruct (@patterns_on_digits k Hk) as [H1 [H2 H3]].
  destruct IH as [I1 [I2 I3]].
  cbn [Formatters.scanTimeSeries Formatters.scanQuote Renderer.scanQuote].
  rewrite H1, H2, H3. auto.
Qed.

Lemma firstKeyIsDate_indexKeys (n : nat) :
  match Js.indexKeys n with
  | firstKey :: _ =>
      Formatters.nonEmpty firstKey && Str.isDateLike firstKey
  | [] => false
  end = false.
Proof. destruct n; reflexivity. Qed.

Lemma findTimeSeries_array (l : list json) :
  Formatters.findTimeSeries (J (JArr l)) = None.
Proof.
  unfold Formatters.findTimeSeries, Formatters.firstKeyIsDate.
  cbn [Js.truthy Js.isObjectType Js.typeof negb orb Js.ownKeys].
  destruct (@scans_on_digits (J (JArr l)) _
              (indexKeys_digits (List.length l))) as [-> _].
  rewrite firstKeyIsDate_indexKeys. reflexivity.
Qed.

(** An array payload offers no field: [findTimeSeries] finds no series in
    it, [findDataStructure] answers the array itself, which
    [extractSimpleFields] refuses, and [extractFields] returns the empty
    list, whatever the elements are. *)
Theorem extractFields_of_array
    (localeCompare : string -> string -> Z) (toDouble : N -> N)
    (l : list json) :
  Formatters.findTimeSeries (J (JArr l)) = None
  /\ Formatters.findDataStructure (J (JArr l))
     = Some (mkDataStructure "root" (J (JArr l)) false)
  /\ Formatters.extractFields localeCompare toDouble (J (JArr l))
     = Returns [].
Proof.
  pose proof (findTimeSeries_array l) as Hts.
  assert (Hds : Formatters.findDataStructure (J (JArr l))
                = Some (mkDataStructure "root" (J (JArr l)) false)).
  { unfold Formatters.findDataStructure. rewrite Hts.
    cbn [Js.truthy Js.isObjectType Js.typeof negb orb Js.ownKeys].
    destruct (@scans_on_digits (J (JArr l)) _
                (indexKeys_digits (List.length l))) as [_ [-> _]].
    reflexivity. }
  split; [exact Hts|]. split; [exact Hds|].
  rewrite (@extractFields_without_series _ _ (J (JArr l)) eq_refl eq_refl Hts).
  unfold Formatters.extractSimpleFields. rewrite Hds. reflexivity.
Qed.

(* ===================================================================== *)
(** * The field extractor on hostile names                                *)
(* ===================================================================== *)

Lemma extractFields_keeps_witness :
  Formatters.extractFields Spec.codeUnitCompare Spec.nearestDouble
    (J (JObj [("quote", JObj [("7", JStr "a"); ("", JStr "b");
                              ("2. high", JStr "c")])]))
  = Returns ["2. high"]
  /\ Forall (fun f => f <> "" /\ Str.isPureDigits f = false) ["2. high"].
Proof.
  split; [reflexivity|].
  exact (@extractFields_keeps Spec.codeUnitCompare Spec.nearestDouble
           (J (JObj [("quote", JObj [("7", JStr "a"); ("", JStr "b");
                                     ("2. high", JStr "c")])]))
           ["2. high"] eq_refl).
Defined.

Lemma entryFields_hidden
    (props : list (string * json)) (fields : list string) (j : json) :
  Js.assoc "hasOwnProperty" props = Some j ->
  Formatters.entryFields (J (JObj props)) (map fst props) fields = Throws.
Proof.
  intros H. destruct props as [|[k v] r]; [discriminate|].
  cbn [map fst Formatters.entryFields].
  rewrite (callHasOwnProperty_hidden _ k H). reflexivity.
Qed.

Lemma leafFields_hidden
    (props : list (string * json)) (fields : list string) (j : json) :
  Js.assoc "hasOwnProperty" props = Some j ->
  Formatters.leafFields (J (JObj props)) (map fst props) fields = Throws.
Proof.
  intros H. destruct props as [|[k v] r]; [discriminate|].
  cbn [map fst Formatters.leafFields].
  rewrite (callHasOwnProperty_hidden _ k H). reflexivity.
Qed.

(** [extractFields] throws exactly when the object whose names it lists,
    the first entry of the series or else the quote or the root, has an own
    property named "hasOwnProperty": the loop calls that member on the
    object itself. *)
Theorem extractFields_throws_iff
    (localeCompare : string -> string -> Z) (toDouble : N -> N)
    (data : value) :
  (forall ts date dates entry,
      Formatters.findTimeSeries data = Some ts ->
      Js.ownKeys (ts_data ts) = date :: dates ->
      Js.get (ts_data ts) date = J (JObj entry) ->
      (Formatters.extractFields localeCompare toDouble data = Throws
       <-> Js.assoc "hasOwnProperty" entry <> None))
  /\ (forall s props,
        Formatters.findTimeSeries data = None ->
        Formatters.findDataStructure data = Some s ->
        ds_data s = J (JObj props) ->
        (Formatters.extractFields localeCompare toDouble data = Throws
         <-> Js.assoc "hasOwnProperty" props <> None)).
Proof.
  split.
  - intros ts date dates entry H1 H2 H3.
    assert (G : negb (Js.truthy data) || negb (Js.isObjectType data) = false).
    { unfold Formatters.findTimeSeries in H1.
      destruct (negb (Js.truthy data) || negb (Js.isObjectType data));
        [discriminate | reflexivity]. }
    unfold Formatters.extractFields. rewrite G, H1.
    destruct (Js.assoc "hasOwnProperty" entry) as [j|] eqn:E.
    + unfold Formatters.extractTimeSeriesFields. rewrite H1, H2, H3.
      cbn [Js.truthy Js.isObjectType Js.typeof Js.isArray negb orb Js.ownKeys].
      rewrite (entryFields_hidden _ [] E). split; [discriminate | reflexivity].
    + rewrite (@extractTimeSeriesFields_sorts _ _ _ _ _ _ _ H1 H2 H3 E).
      split; [discriminate | congruence].
  - intros s props H1 H2 H3.
    assert (G : Js.truthy data = true /\ Js.isObjectType data = true).
    { unfold Formatters.findDataStructure in H2.
      destruct (Js.truthy data); [|discriminate].
      destruct (Js.isObjectType data); [auto | discriminate]. }
    destruct G as [Gt Go].
    rewrite (@extractFields_without_series _ _ _ Gt Go H1).
    destruct (Js.assoc "hasOwnProperty" props) as [j|] eqn:E.
    + unfold Formatters.extractSimpleFields. rewrite H2, H3.
      cbn [Js.truthy Js.isObjectType Js.typeof Js.isArray negb orb Js.ownKeys].
      rewrite (leafFields_hidden _ [] E). split; [discriminate | reflexivity].
    + rewrite (@extractSimpleFields_sorts _ _ _ _ _ H2 H3 E).
      split; [discriminate | congruence].
Qed.

Lemma extractFields_throws_iff_witness :
  Formatters.extractFields Spec.codeUnitCompare Spec.nearestDouble
    (J (JObj [("price", JStr "1"); ("hasOwnProperty", JBool true)]))
  = Throws.
Proof.
  apply (proj2 (@extractFields_throws_iff
                  Spec.codeUnitCompare Spec.nearestDouble
                  (J (JObj [("price", JStr "1");
                            ("hasOwnProperty", JBool true)])))
               (mkDataStructure "root"
                  (J (JObj [("price", JStr "1");
                            ("hasOwnProperty", JBool true)])) false)
               [("price", JStr "1"); ("hasOwnProperty", JBool true)]
               eq_refl eq_refl eq_refl).
  discriminate.
Defined.

(* ===================================================================== *)
(** * What the adapters return                                            *)
(* ===================================================================== *)

Lemma alphaVantage_cases (data : value) (config : option MapperConfig) :
  Mappers.AlphaVantageAdapter_transform data config
  = if negb (Js.truthy data) || negb (Js.isObjectType data)
    then Returns None
    else match find Mappers.isTimeSeriesKey (Js.ownKeys data) with
         | Some k => Mappers.timeSeriesChart data k config
         | None => Mappers.globalQuote data
         end.
Proof.
  unfold Mappers.AlphaVantageAdapter_transform.
  destruct (negb (Js.truthy data) || negb (Js.isObjectType data));
    [reflexivity|].
  destruct (find Mappers.isTimeSeriesKey (Js.ownKeys data)) as [k|] eqn:E;
    [|reflexivity].
  rewrite (isTimeSeriesKey_nonEmpty _ (proj2 (find_some _ _ E))).
  reflexivity.
Qed.

(** The shapes of the results.  A chart comes from the Alpha Vantage
    adapter only, with one dataset that holds one number for each label; a
    table comes from the generic adapter only; a metric of the Alpha Vantage
    adapter carries a change and its sign, one of the generic adapter
    carries neither. *)
Theorem adapter_result_shapes
    (m : Mappers.DataMapper) (data : value) (config : option MapperConfig)
    (result : StandardizedData) :
  In m (map snd Mappers.mappers) ->
  Mappers.transform m data config = Returns (Some result) ->
  match result with
  | chart labels datasets =>
      m = Mappers.AlphaVantageAdapter
      /\ List.length datasets = 1%nat
      /\ Forall (fun ds => List.length (points ds) = List.length labels)
                datasets
  | table _ _ => m = Mappers.GenericJSONAdapter
  | metric _ _ change changeType =>
      (m = Mappers.AlphaVantageAdapter
       /\ change <> None /\ changeType <> None)
      \/ (m = Mappers.GenericJSONAdapter
          /\ change = None /\ changeType = None)
  end.
Proof.
  intros Hm. cbn in Hm. destruct Hm as [<-|[<-|[]]];
    cbn [Mappers.transform Mappers.AlphaVantageAdapter
           Mappers.GenericJSONAdapter].
  - rewrite alphaVantage_cases.
    destruct (negb (Js.truthy data) || negb (Js.isObjectType data));
      [discriminate|].
    destruct (find Mappers.isTimeSeriesKey (Js.ownKeys data)) as [k|].
    + unfold Mappers.timeSeriesChart.
      destruct (Js.Object_keys (Js.get data k)) as [keys|]; cbn [bind];
        [|discriminate].
      intros [= <-]. split; [reflexivity|]. split; [reflexivity|].
      constructor; [|constructor]. cbn [points]. apply length_map.
    + unfold Mappers.globalQuote.
      destruct (Js.truthy (Js.get data Mappers.quoteKey)); [|discriminate].
      cbv zeta.
      destruct (Js.parseFloat _); cbn [bind]; [|discriminate].
      destruct (Js.parseFloat _); cbn [bind]; [|discriminate].
      intros [= <-]. left. repeat split; discriminate.
  - unfold Mappers.GenericJSONAdapter_transform.
    destruct (negb (Js.truthy data)); [discriminate|].
    destruct (Mappers.resolveRoot data config) as [t|]; [|discriminate].
    destruct (Js.isArray t).
    + destruct (Js.items t); [intros [= <-]; reflexivity|].
      destruct (Js.Object_keys _); cbn [bind]; [|discriminate].
      intros [= <-]. reflexivity.
    + destruct (Js.isObjectType t && negb (Mappers.isNull t));
        [|discriminate].
      destruct (Mappers.mapped config "value"); intros [= <-];
        [right; auto | reflexivity].
Qed.

Lemma adapter_result_shapes_witness :
  In Mappers.AlphaVantageAdapter (map snd Mappers.mappers)
  /\ Mappers.transform Mappers.AlphaVantageAdapter Examples.dailySeries None
     = Returns (Some (chart ["2024-01-02"; "2024-01-03"]
         [ {| label := "4. close"; points := [Fin 105; Fin 110] |} ]))
  /\ Forall (fun ds => List.length (points ds) = 2%nat)
       [ {| label := "4. close"; points := [Fin 105; Fin 110] |} ].
Proof.
  split; [left; reflexivity|]. split; [reflexivity|].
  exact (proj2 (proj2 (@adapter_result_shapes
           Mappers.AlphaVantageAdapter Examples.dailySeries None
           (chart ["2024-01-02"; "2024-01-03"]
              [ {| label := "4. close"; points := [Fin 105; Fin 110] |} ])
           (or_introl eq_refl) eq_refl))).
Defined.

(** The Alpha Vantage [transform] answers [null] exactly when the payload
    is falsy or no object, or when it has neither a time-series key nor a
    truthy "Global Quote": with a time-series key it never answers
    [null]. *)
Theorem alphaVantage_null_iff (data : value) (config : option MapperConfig) :
  Mappers.AlphaVantageAdapter_transform data config = Returns None
  <-> Js.truthy data = false
      \/ Js.isObjectType data = false
      \/ (find Mappers.isTimeSeriesKey (Js.ownKeys data) = None
          /\ Js.truthy (Js.get data "Global Quote") = false).
Proof.
  rewrite alphaVantage_cases. split.
  - destruct (Js.truthy data); cbn [negb orb]; [|auto].
    destruct (Js.isObjectType data); cbn [negb]; [|auto].
    destruct (find Mappers.isTimeSeriesKey (Js.ownKeys data)) as [k|].
    + unfold Mappers.timeSeriesChart.
      destruct (Js.Object_keys (Js.get data k)); discriminate.
    + unfold Mappers.globalQuote, Mappers.quoteKey.
      destruct (Js.truthy (Js.get data "Global Quote")); [|auto].
      cbv zeta.
      destruct (Js.parseFloat _); cbn [bind]; [|discriminate].
      destruct (Js.parseFloat _); cbn [bind]; discriminate.
  - intros [H|[H|[H1 H2]]].
    + rewrite H. reflexivity.
    + rewrite H. rewrite Bool.orb_true_r. reflexivity.
    + rewrite H1. unfold Mappers.globalQuote, Mappers.quoteKey. rewrite H2.
      destruct (negb (Js.truthy data) || negb (Js.isObjectType data));
        reflexivity.
Qed.

(** The Alpha Vantage [transform] throws on an object payload in two cases
    only: the first time-series key holds [null], or there is no such key
    and the price or the change of a truthy "Global Quote" is an object
    that cannot be turned into a string. *)
Theorem alphaVantage_throws_iff
    (props : list (string * json)) (config : option MapperConfig) :
  Mappers.AlphaVantageAdapter_transform (J (JObj props)) config = Throws
  <-> (exists k,
         find Mappers.isTimeSeriesKey (map fst props) = Some k
         /\ Js.assoc k props = Some JNull)
      \/ (find Mappers.isTimeSeriesKey (map fst props) = None
          /\ exists quote,
               Js.assoc "Global Quote" props = Some quote
               /\ Js.truthy (J quote) = true
               /\ (Js.parseFloat (Spec.quoteField (J quote) "05. price")
                   = Throws
                   \/ Js.parseFloat (Spec.quoteField (J quote) "09. change")
                      = Throws)).
Proof.
  rewrite alphaVantage_cases.
  change (negb (Js.truthy (J (JObj props)))
          || negb (Js.isObjectType (J (JObj props)))) with false.
  change (Js.ownKeys (J (JObj props))) with (map fst props). cbv iota.
  destruct (find Mappers.isTimeSeriesKey (map fst props)) as [k|] eqn:Ef.
  - destruct (assoc_of_key k props (proj1 (find_some _ _ Ef))) as [series Hs].
    unfold Mappers.timeSeriesChart. rewrite (get_own _ _ Hs).
    split.
    + intros H. left. exists k. split; [reflexivity|].
      destruct series; try discriminate H. exact Hs.
    + intros [[k' [[= <-] H]]|[H _]]; [|discriminate].
      rewrite Hs in H. injection H as ->. reflexivity.
  - unfold Mappers.globalQuote, Mappers.quoteKey.
    destruct (Js.assoc "Global Quote" props) as [quote|] eqn:Eq.
    + rewrite (get_own _ _ Eq). fold (Spec.quoteField (J quote) "05. price").
      fold (Spec.quoteField (J quote) "09. change").
      destruct (Js.truthy (J quote)) eqn:Et.
      * cbv zeta. split.
        -- intros H. right. split; [reflexivity|]. exists quote.
           split; [reflexivity|]. split; [exact Et|].
           destruct (Js.parseFloat (Spec.quoteField (J quote) "05. price"));
             [|auto].
           destruct (Js.parseFloat (Spec.quoteField (J quote) "09. change"));
             [discriminate | auto].
        -- intros [[k [H _]]|[_ [q [[= <-] [_ [H|H]]]]]]; [discriminate| |].
           ++ rewrite H. reflexivity.
           ++ rewrite H.
              destruct (Js.parseFloat (Spec.quoteField (J quote) "05. price"));
                reflexivity.
      * split; [discriminate|].
        intros [[k [H _]]|[_ [q [[= <-] [H _]]]]]; congruence.
    + assert (G : Js.get (J (JObj props)) "Global Quote" = Undefined).
      { unfold Js.get, Js.lookup. cbn [Js.getOwn]. rewrite Eq. reflexivity. }
      rewrite G. change (Js.truthy Undefined) with false. cbv iota.
      split; [discriminate|].
      intros [[k [H _]]|[_ [q [H _]]]]; discriminate.
Qed.

(* ===================================================================== *)
(** * The registry                                                        *)
(* ===================================================================== *)

Lemma mem_In (k : string) (l : list string) : Js.mem k l = true <-> In k l.
Proof.
  unfold Js.mem. rewrite existsb_exists. split.
  - intros [x [Hx E]]. apply String.eqb_eq in E. subst. exact Hx.
  - intros H. exists k. split; [exact H | apply String.eqb_refl].
Qed.

(** [getMapper] hands back something that is no adapter exactly for the
    twelve names that the object [mappers] inherits: "__proto__" and the
    members of [Object.prototype]; every other id resolves to an adapter. *)
Theorem getMapper_adapter_iff (id : string) :
  (exists m, Mappers.getMapper id = Mappers.Adapter m)
  <-> ~ In id ("__proto__" :: Js.methodNames PObject).
Proof.
  unfold Mappers.getMapper, Mappers.mappersAt.
  destruct (Js.assoc id Mappers.mappers) as [m|] eqn:E.
  - cbn [Mappers.resolvedTruthy]. split; [|eauto].
    intros _ Hin. apply assoc_Some_key in E. cbn in E, Hin.
    destruct E as [[= <- _]|[[= <- _]|[]]];
      repeat (destruct Hin as [Hin|Hin]; [discriminate Hin|]); exact Hin.
  - unfold Js.inherited, Js.protoOwn.
    destruct (Js.mem id (Js.methodNames PObject)) eqn:Em.
    + cbn [option_map Mappers.resolvedTruthy Js.truthy]. split.
      * intros [m H]. discriminate.
      * intros H. exfalso. apply H. right. apply mem_In, Em.
    + destruct (String.eqb_spec id "__proto__") as [->|Hne];
        cbn [option_map Mappers.resolvedTruthy Js.truthy].
      * split; [intros [m H]; discriminate|].
        intros H. exfalso. apply H. left. reflexivity.
      * split; [|eauto]. intros _ [Hin|Hin]; [congruence|].
        apply mem_In in Hin. congruence.
Qed.

(* ===================================================================== *)
(** * The renderer                                                        *)
(* ===================================================================== *)

Lemma renderer_scanQuote_primitive (data : value) :
  Js.isObjectType data = false ->
  Renderer.scanQuote data (Js.ownKeys data) = None.
Proof.
  intros H. destruct data as [|[]| |]; try discriminate H; try reflexivity.
  apply (@scans_on_digits (J (JStr s)) _ (indexKeys_digits (String.length s))).
Qed.


Lemma not_In_mem (k : string) (l : list string) :
  ~ In k l -> Js.mem k l = false.
Proof.
  intros H. destruct (Js.mem k l) eqn:E; [|reflexivity].
  exfalso. apply H, mem_In, E.
Qed.

(** With the generic mapper, and with every mapper id that is not empty
    and that the registry neither holds nor inherits, an object payload is
    always shown as the table of its entries when there is no
    configuration: the mapper answers first, and the search for a time
    series or a quote is never reached. *)
Theorem processedData_generic_mapper
    (id : string) (props : list (string * json)) :
  id <> "" ->
  id <> "alpha-vantage" ->
  ~ In id ("__proto__" :: Js.methodNames PObject) ->
  Renderer.processedData (Some id) None (J (JObj props))
  = Returns (Some (Standardized
      (table ["Key"; "Value"] (map Mappers.keyValueRow props)))).
Proof.
  intros Hne Hav Hin.
  assert (G : Mappers.getMapper id
              = Mappers.Adapter Mappers.GenericJSONAdapter).
  { destruct (String.eqb_spec id "generic-json") as [->|Hg];
      [reflexivity|].
    apply getMapper_unknown.
    - unfold Mappers.mappers. cbn [Js.assoc Mappers.id
        Mappers.AlphaVantageAdapter Mappers.GenericJSONAdapter].
      apply String.eqb_neq in Hav, Hg.
      rewrite (String.eqb_sym "alpha-vantage"), Hav.
      rewrite (String.eqb_sym "generic-json"), Hg. reflexivity.
    - unfold Js.inherited, Js.protoOwn.
      rewrite (@not_In_mem id (Js.methodNames PObject))
        by (intros X; apply Hin; right; exact X).
      destruct (String.eqb_spec id "__proto__") as [->|_];
        [exfalso; apply Hin; left; reflexivity | reflexivity]. }
  unfold Renderer.processedData.
  apply String.eqb_neq in Hne.
  unfold Formatters.nonEmpty.
  change EmptyString with "". rewrite Hne, G. reflexivity.
Qed.

Lemma processedData_generic_mapper_witness :
  Renderer.processedData (Some "my-mapper") None Examples.dailySeries
  = Returns (Some (Standardized
      (table ["Key"; "Value"]
         (map Mappers.keyValueRow
            [("Time Series (Daily)",
              JObj [("2024-01-02",
                     JObj [("1. open", JStr "100");
                           ("4. close", JStr "105")]);
                    ("2024-01-03",
                     JObj [("1. open", JStr "106");
                           ("4. close", JStr "110")])])])))).
Proof.
  apply (@processedData_generic_mapper "my-mapper").
  - discriminate.
  - discriminate.
  - cbn [In Js.methodNames]. intros H.
    repeat (destruct H as [H|H]; [discriminate H|]). exact H.
Defined.

(** A widget whose mapper id is a name that the registry inherits makes the
    renderer throw on every truthy payload: what [getMapper] hands back has
    no [transform]. *)
Theorem processedData_inherited_mapper_throws
    (id : string) (mapperConfig : option MapperConfig) (data : value) :
  In id ("__proto__" :: Js.methodNames PObject) ->
  Js.truthy data = true ->
  Renderer.processedData (Some id) mapperConfig data = Throws.
Proof.
  intros Hin Ht. unfold Renderer.processedData. rewrite Ht. cbn [negb].
  cbn [In Js.methodNames] in Hin.
  repeat (destruct Hin as [<-|Hin]; [reflexivity|]). destruct Hin.
Qed.

Lemma processedData_inherited_mapper_throws_witness :
  Renderer.processedData (Some "constructor") None Examples.globalQuote
  = Throws.
Proof.
  apply processedData_inherited_mapper_throws.
  - right. left. reflexivity.
  - reflexivity.
Defined.

Lemma extractData_returns (data : value) (path : option string) :
  exists r, Formatters.extractData data path = Returns r.
Proof.
  unfold Formatters.extractData.
  destruct (negb (Js.truthy data)); [eauto|].
  destruct path as [q|]; [|eauto].
  destruct (String.eqb q ""); [eauto | apply walk_returns].
Qed.

Lemma split_without_separator (field : string) :
  Str.includes "." field = false -> Str.split "." field = [field].
Proof.
  induction field as [|c r IH]; [reflexivity|].
  cbn [Str.includes Str.split String.prefix].
  destruct (Ascii.eqb_spec c "."); destruct (ascii_dec "." c);
    try congruence; cbn [orb].
  - destruct r; discriminate.
  - intros H. rewrite (IH H). reflexivity.
Qed.

(** [getFieldValue] never throws.  A falsy row or an empty name gives
    [null].  A name that the row has as a property is read directly, also
    when it contains dots; a name without a dot gives what [extractData]
    gives. *)
Theorem getFieldValue_contract (obj : value) (field : string) :
  (exists r, Renderer.getFieldValue obj field = Returns r)
  /\ (Js.truthy obj = false \/ field = "" ->
      Renderer.getFieldValue obj field = Returns (J JNull))
  /\ (Spec.navigable obj = true -> Js.hasProperty obj field = true ->
      field <> "" ->
      Renderer.getFieldValue obj field = Returns (Js.get obj field))
  /\ (Str.includes "." field = false -> field <> "" ->
      Renderer.getFieldValue obj field
      = Formatters.extractData obj (Some field)).
Proof.
  assert (G : forall (Hn : Spec.navigable obj = true),
             Js.truthy obj = true /\
             Js.isObjectType obj && negb (Mappers.isNull obj) = true).
  { intros Hn. rewrite <- navigable_object. split; [|exact Hn].
    unfold Spec.navigable in Hn. destruct (Js.truthy obj);
      [reflexivity | discriminate]. }
  unfold Renderer.getFieldValue, Formatters.nonEmpty.
  split; [|split; [|split]].
  - destruct (Js.truthy obj) eqn:Ht; cbn [negb orb]; [|eauto].
    destruct (String.eqb field ""); cbn [negb]; [eauto|].
    rewrite <- navigable_object.
    destruct (Spec.navigable obj) eqn:Hn.
    + destruct (navigable_checked obj field Hn) as [-> ->]. cbn [bind].
      destruct (Js.hasProperty obj field); [eauto|].
      apply extractData_returns.
    + apply extractData_returns.
  - intros [H| ->].
    + rewrite H. reflexivity.
    + rewrite Bool.orb_true_r. reflexivity.
  - intros Hn Hh Hf. destruct (G Hn) as [-> ->].
    destruct (String.eqb_spec field ""); [contradiction|]. cbn [negb orb].
    destruct (navigable_checked obj field Hn) as [-> ->]. cbn [bind].
    rewrite Hh. reflexivity.
  - intros Hd Hf. destruct (String.eqb_spec field ""); [contradiction|].
    unfold Formatters.extractData.
    destruct (String.eqb_spec field ""); [contradiction|].
    destruct (Js.truthy obj) eqn:Ht; cbn [negb orb]; [|reflexivity].
    rewrite <- navigable_object.
    destruct (Spec.navigable obj) eqn:Hn; [|reflexivity].
    destruct (navigable_checked obj field Hn) as [-> ->]. cbn [bind].
    destruct (Js.hasProperty obj field) eqn:Hh; [|reflexivity].
    rewrite (split_without_separator _ Hd), walk_step, Hn, Hh. reflexivity.
Qed.

Lemma extractData_one_segment (obj : value) (field : string) :
  Str.includes "." field = false -> field <> "" -> Js.truthy obj = true ->
  Formatters.extractData obj (Some field)
  = Returns (if Spec.navigable obj && Js.hasProperty obj field
             then Js.get obj field else J JNull).
Proof.
  intros Hd Hf Ht. unfold Formatters.extractData. rewrite Ht. cbn [negb].
  destruct (String.eqb_spec field ""); [contradiction|].
  rewrite (split_without_separator _ Hd), walk_step.
  destruct (Spec.navigable obj && Js.hasProperty obj field); reflexivity.
Qed.

(** A column that the row does not have is shown as "N/A", whatever the
    format: for a name without a dot, when the row is no object or lacks
    the property, the cell of the table is "N/A". *)
Theorem cell_of_missing_field
    (row : value) (field : string) (format : option Formatting.FormatType) :
  Str.includes "." field = false ->
  Spec.navigable row = false \/ Js.hasProperty row field = false ->
  Renderer.cell row field format = Returns Formatting.NotAvailable.
Proof.
  intros Hd Hm.
  assert (E : Renderer.getFieldValue row field = Returns (J JNull)).
  { unfold Renderer.getFieldValue, Formatters.nonEmpty.
    destruct (Js.truthy row) eqn:Ht; cbn [negb orb]; [|reflexivity].
    destruct (String.eqb_spec field "") as [|Hf]; cbn [negb]; [reflexivity|].
    rewrite <- navigable_object.
    assert (X : Formatters.extractData row (Some field) = Returns (J JNull)).
    { rewrite (extractData_one_segment _ Hd Hf Ht).
      destruct Hm as [H|H]; rewrite H; [reflexivity|].
      rewrite Bool.andb_false_r. reflexivity. }
    destruct (Spec.navigable row) eqn:Hn; [|exact X].
    destruct (navigable_checked row field Hn) as [-> ->]. cbn [bind].
    destruct Hm as [H|H]; [discriminate|]. rewrite H. exact X. }
  unfold Renderer.cell. rewrite E. reflexivity.
Qed.

Lemma cell_of_missing_field_witness :
  Renderer.cell (J (JObj [("price", JStr "1.5")])) "volume"
    (Some Formatting.currency)
  = Returns Formatting.NotAvailable.
Proof.
  apply cell_of_missing_field; [reflexivity|]. right. reflexivity.
Defined.


Section Pagination.

Variable A : Type.

Lemma page_chunk (l : list A) (p : nat) :
  (1 <= p)%nat ->
  Renderer.paginatedData l p
  = firstn Renderer.itemsPerPage (skipn ((p - 1) * Renderer.itemsPerPage) l).
Proof.
  intros Hp. unfold Renderer.paginatedData, Renderer.slice. f_equal.
  unfold Renderer.itemsPerPage. lia.
Qed.

Lemma chunks_concat (n : nat) (l : list A) :
  (List.length l <= n * Renderer.itemsPerPage)%nat ->
  List.concat (map (fun p => firstn Renderer.itemsPerPage
                          (skipn ((p - 1) * Renderer.itemsPerPage) l))
              (seq 1 n))
  = l.
Proof.
  revert l. induction n as [|n IH]; intros l Hl.
  - destruct l; [reflexivity | cbn in Hl; lia].
  - cbn [seq map List.concat]. rewrite <- seq_shift, map_map.
    change ((1 - 1) * Renderer.itemsPerPage)%nat with 0%nat.
    cbn [skipn].
    transitivity (firstn Renderer.itemsPerPage l
                  ++ skipn Renderer.itemsPerPage l)%list;
      [|apply firstn_skipn].
    f_equal.
    etransitivity; [|apply (IH (skipn Renderer.itemsPerPage l))].
    + f_equal. apply map_ext_in. intros p Hp. apply in_seq in Hp.
      rewrite skipn_skipn. do 2 f_equal. unfold Renderer.itemsPerPage. lia.
    + rewrite length_skipn. unfold Renderer.itemsPerPage in *. lia.
Qed.

Lemma totalPages_bounds (l : list A) :
  (List.length l <= Renderer.totalPages l * Renderer.itemsPerPage)%nat
  /\ (Renderer.totalPages l * Renderer.itemsPerPage
      < List.length l + Renderer.itemsPerPage)%nat.
Proof.
  unfold Renderer.totalPages, Renderer.itemsPerPage.
  pose proof (Nat.div_mod_eq (List.length l + (10 - 1)) 10) as H.
  pose proof (Nat.mod_upper_bound (List.length l + (10 - 1)) 10) as H'.
  lia.
Qed.

(** The pages of the table view split the rows: pages 1 to [totalPages],
    one after the other, are the rows themselves; every page holds at most
    ten rows; each of those pages holds at least one; a page past the last
    is empty. *)
Theorem pages_partition_rows (sortedData : list A) :
  List.concat (map (Renderer.paginatedData sortedData)
              (seq 1 (Renderer.totalPages sortedData)))
  = sortedData
  /\ (forall p,
        (List.length (Renderer.paginatedData sortedData p) <= 10)%nat)
  /\ (forall p,
        (1 <= p <= Renderer.totalPages sortedData)%nat ->
        Renderer.paginatedData sortedData p <> [])
  /\ (forall p,
        (Renderer.totalPages sortedData < p)%nat ->
        Renderer.paginatedData sortedData p = []).
Proof.
  destruct (totalPages_bounds sortedData) as [B1 B2].
  split; [|split; [|split]].
  - transitivity
      (List.concat
         (map (fun p => firstn Renderer.itemsPerPage
                          (skipn ((p - 1) * Renderer.itemsPerPage) sortedData))
              (seq 1 (Renderer.totalPages sortedData))));
      [|apply chunks_concat, B1].
    f_equal. apply map_ext_in. intros p Hp. apply in_seq in Hp.
    apply page_chunk. lia.
  - intros p. unfold Renderer.paginatedData, Renderer.slice.
    rewrite length_firstn. unfold Renderer.itemsPerPage. lia.
  - intros p Hp E. apply (f_equal (@List.length A)) in E.
    rewrite page_chunk in E by lia.
    rewrite length_firstn, length_skipn in E. cbn [List.length] in E.
    unfold Renderer.itemsPerPage in *. nia.
  - intros p Hp. rewrite page_chunk by lia.
    rewrite skipn_all2; [destruct Renderer.itemsPerPage; reflexivity|].
    unfold Renderer.itemsPerPage in *. nia.
Qed.

End Pagination.

(* ===================================================================== *)
(** * Float arithmetic on whole numbers                                   *)
(* ===================================================================== *)

Lemma Qred_int (z : Z) : Qred (z # 1) = z # 1.
Proof.
  unfold Qred.
  pose proof (Z.ggcd_gcd z 1) as G.
  pose proof (Z.ggcd_correct_divisors z 1) as D.
  destruct (Z.ggcd z 1) as [g [aa bb]]. cbn [fst snd] in *.
  rewrite Z.gcd_1_r in G. subst g. destruct D as [D1 D2].
  rewrite Z.mul_1_l in D1, D2. subst aa bb. reflexivity.
Qed.

Lemma nearest_ofZ (z : Z) :
  (Z.abs z < 2 ^ 53)%Z -> Double.nearest (z # 1) = Fin (z # 1).
Proof.
  intros B. unfold Double.nearest. cbn [Qnum Qden].
  destruct (Z.eqb_spec (Z.abs z) 0) as [E|E].
  - assert (z = 0%Z) by lia. subst z. reflexivity.
  - set (n := Z.abs z) in *.
    assert (Hn : (0 < n)%Z) by lia.
    change (Z.log2 1) with 0%Z. rewrite Z.sub_0_r.
    pose proof (Z.log2_spec n Hn) as [L1 L2].
    pose proof (Z.log2_nonneg n) as L0.
    assert (L3 : (Z.log2 n < 53)%Z) by (apply Z.log2_lt_pow2; lia).
    set (l := Z.log2 n) in *.
    replace (Z.max (- l) 0) with 0%Z by lia.
    replace (Z.max l 0) with l by lia.
    change (2 ^ 0)%Z with 1%Z.
    rewrite Z.mul_1_r, Z.mul_1_l.
    destruct (Z.ltb_spec n (2 ^ l)) as [X|_]; [lia|].
    replace (Z.max (l - 52) (-1074)) with (l - 52)%Z by lia.
    replace (Z.max (- (l - 52)) 0) with (52 - l)%Z by lia.
    replace (Z.max (l - 52) 0) with 0%Z by lia.
    change (2 ^ 0)%Z with 1%Z.
    unfold Double.roundHalfEven.
    rewrite Z.div_1_r, Z.mod_1_r. cbn [Z.mul Z.ltb Z.compare].
    assert (P : (0 < 2 ^ (52 - l))%Z) by (apply Z.pow_pos_nonneg; lia).
    assert (U : (n * 2 ^ (52 - l) < 2 ^ 1024)%Z).
    { apply Z.lt_trans with (2 ^ 53)%Z; [|reflexivity].
      replace 53%Z with (Z.succ l + (52 - l))%Z by lia.
      rewrite Z.pow_add_r by lia. nia. }
    rewrite Z.mul_1_r.
    destruct (Z.leb_spec (2 ^ 1024) (n * 2 ^ (52 - l))) as [X|_]; [lia|].
    f_equal. rewrite <- (Qred_int z). apply Qred_complete.
    unfold Qeq. cbn [Qnum Qden].
    rewrite Z2Pos.id by exact P.
    rewrite !Z.mul_1_r, Z.mul_assoc. f_equal. unfold n. lia.
Qed.

Lemma add_ofZ (a b : Z) :
  (Z.abs (a + b) < 2 ^ 53)%Z ->
  Double.add (Double.ofZ a) (Double.ofZ b) = Double.ofZ (a + b).
Proof.
  intros B. unfold Double.add, Double.ofZ.
  replace (Qplus (a # 1) (b # 1)) with ((a + b) # 1).
  - apply nearest_ofZ, B.
  - unfold Qplus. cbn [Qnum Qden]. f_equal. lia.
Qed.

Lemma nearest_not_NaN (q : Q) : Double.nearest q <> NaN.
Proof.
  unfold Double.nearest.
  repeat match goal with
         | |- context [if ?b then _ else _] => destruct b
         end; discriminate.
Qed.

Lemma leb_ofZ (a b : Z) :
  Double.leb (Double.ofZ a) (Double.ofZ b) = (a <=? b)%Z.
Proof.
  unfold Double.leb, Double.ofZ, Qle_bool. cbn [Qnum Qden].
  rewrite !Z.mul_1_r. reflexivity.
Qed.

Lemma gtb_ofZ (a b : Z) :
  Double.gtb (Double.ofZ a) (Double.ofZ b) = (b <? a)%Z.
Proof.
  unfold Double.gtb, Double.ofZ, Qle_bool. cbn [Qnum Qden].
  rewrite !Z.mul_1_r. rewrite Z.ltb_antisym. reflexivity.
Qed.

Lemma gtb_negb_leb (a b : number) :
  a <> NaN -> b <> NaN -> Double.gtb a b = negb (Double.leb a b).
Proof.
  intros Ha Hb. destruct a, b; try reflexivity; congruence.
Qed.

Section MapFacts.

Variable V : Type.

Lemma get_set_same (k : string) (v : V) (m : list (string * V)) :
  JsMap.get k (JsMap.set k v m) = Some v.
Proof.
  unfold JsMap.get. induction m as [|[k' v'] r IH]; cbn.
  - rewrite String.eqb_refl. reflexivity.
  - destruct (String.eqb k' k) eqn:E; cbn.
    + rewrite String.eqb_refl. reflexivity.
    + rewrite E. exact IH.
Qed.

Lemma get_set_other (k k' : string) (v : V) (m : list (string * V)) :
  k <> k' -> JsMap.get k' (JsMap.set k v m) = JsMap.get k' m.
Proof.
  intros N. unfold JsMap.get. induction m as [|[k0 v0] r IH]; cbn.
  - apply String.eqb_neq in N. rewrite N. reflexivity.
  - destruct (String.eqb k0 k) eqn:E; cbn.
    + apply String.eqb_eq in E. subst k0.
      apply String.eqb_neq in N. rewrite N. reflexivity.
    + rewrite IH. reflexivity.
Qed.

Lemma get_delete_same (k : string) (m : list (string * V)) :
  JsMap.get k (JsMap.delete k m) = None.
Proof.
  unfold JsMap.get, JsMap.delete. induction m as [|[k' v'] r IH]; cbn.
  - reflexivity.
  - destruct (String.eqb k' k) eqn:E; cbn; [exact IH|].
    rewrite E. exact IH.
Qed.

Lemma get_delete_other (k k' : string) (m : list (string * V)) :
  k <> k' -> JsMap.get k' (JsMap.delete k m) = JsMap.get k' m.
Proof.
  intros N. unfold JsMap.get, JsMap.delete.
  induction m as [|[k0 v0] r IH]; cbn.
  - reflexivity.
  - destruct (String.eqb k0 k) eqn:E; cbn.
    + apply String.eqb_eq in E. subst k0.
      apply String.eqb_neq in N. rewrite N. exact IH.
    + rewrite IH. reflexivity.
Qed.

Lemma delete_set (k : string) (v : V) (m : list (string * V)) :
  JsMap.delete k (JsMap.set k v m) = JsMap.delete k m.
Proof.
  unfold JsMap.delete. induction m as [|[k' v'] r IH]; cbn.
  - rewrite String.eqb_refl. reflexivity.
  - destruct (String.eqb k' k) eqn:E; cbn.
    + rewrite String.eqb_refl. reflexivity.
    + rewrite E. cbn. rewrite IH. reflexivity.
Qed.

Lemma in_set (k k' : string) (v v' : V) (m : list (string * V)) :
  In (k', v') (JsMap.set k v m) -> (k', v') = (k, v) \/ In (k', v') m.
Proof.
  induction m as [|[k0 v0] r IH]; cbn.
  - intros [H|[]]; left; symmetry; exact H.
  - destruct (String.eqb k0 k); cbn.
    + intros [H|H]; [left; symmetry; exact H | right; right; exact H].
    + intros [H|H]; [right; left; exact H|].
      destruct (IH H) as [X|X]; [left; exact X | right; right; exact X].
Qed.

Lemma in_delete (k k' : string) (v' : V) (m : list (string * V)) :
  In (k', v') (JsMap.delete k m) -> In (k', v') m.
Proof.
  unfold JsMap.delete. intros H. apply filter_In in H. apply H.
Qed.

Lemma get_in (k : string) (v : V) (m : list (string * V)) :
  JsMap.get k m = Some v -> In (k, v) m.
Proof.
  unfold JsMap.get. induction m as [|[k' v'] r IH]; cbn; [discriminate|].
  destruct (String.eqb k' k) eqn:E.
  - apply String.eqb_eq in E. subst k'. intros [= ->]. left. reflexivity.
  - intros H. right. exact (IH H).
Qed.

End MapFacts.

(* ===================================================================== *)
(** * The cache                                                           *)
(* ===================================================================== *)

Lemma orElse_truthy (a : option number) (d : number) :
  Num.truthy d = true -> Num.truthy (Double.orElse a d) = true.
Proof.
  intros Hd. destruct a as [n|]; cbn; [|exact Hd].
  destruct (Num.truthy n) eqn:E; [exact E | exact Hd].
Qed.

Lemma reachable_expiry (cache : list (string * Cache.CacheEntry)) :
  Cache.reachable cache ->
  forall k e, In (k, e) cache -> Num.truthy (Cache.expiry e) = true.
Proof.
  induction 1 as [|now url cache _ IH|now url d ttl cache _ IH
                  |url cache _ IH|cache _ IH]; intros k e Hin.
  - destruct Hin.
  - unfold Cache.get in Hin.
    destruct (JsMap.get (Cache.getCacheKey url) cache) as [entry|];
      [|exact (IH k e Hin)].
    destruct (Double.gtb _ _); cbn [snd] in Hin.
    + exact (IH k e (in_delete _ _ _ _ Hin)).
    + exact (IH k e Hin).
  - unfold Cache.set in Hin. apply in_set in Hin.
    destruct Hin as [E|Hin]; [|exact (IH k e Hin)].
    injection E as _ ->. apply orElse_truthy. reflexivity.
  - exact (IH k e (in_delete _ _ _ _ Hin)).
  - destruct Hin.
Qed.

Lemma expiresAt_not_NaN (e : Cache.CacheEntry) :
  Num.truthy (Cache.expiry e) = true -> Cache.expiresAt e <> NaN.
Proof.
  unfold Cache.expiresAt, Double.add, Double.ofZ.
  destruct (Cache.expiry e); cbn; try discriminate.
  intros _. apply nearest_not_NaN.
Qed.

(** On a cache that the methods have built, [has] foretells [get]: where
    [has(url)] holds, [get(url)] at that time gives the data of the entry
    and leaves the cache as it is; where it does not, [get(url)] gives null
    and [has(url)] holds at no time afterwards. *)
Theorem has_foretells_get (cache : list (string * Cache.CacheEntry))
    (now : Z) (url : string) :
  Cache.reachable cache ->
  (Cache.has now url cache = true ->
   exists entry,
     JsMap.get (Cache.getCacheKey url) cache = Some entry
     /\ Cache.get now url cache = (Cache.data entry, cache))
  /\ (Cache.has now url cache = false ->
      fst (Cache.get now url cache) = J JNull
      /\ forall later,
           Cache.has later url (snd (Cache.get now url cache)) = false).
Proof.
  intros R. unfold Cache.has, Cache.get.
  destruct (JsMap.get (Cache.getCacheKey url) cache) as [entry|] eqn:G.
  - assert (NN : Cache.expiresAt entry <> NaN).
    { apply expiresAt_not_NaN.
      exact (reachable_expiry R _ _ (get_in _ _ G)). }
    rewrite gtb_negb_leb by (unfold Double.ofZ; congruence).
    split; intros H; rewrite H; cbn [negb fst snd].
    + exists entry. split; reflexivity.
    + split; [reflexivity|]. intros later.
      rewrite get_delete_same. reflexivity.
  - split; [discriminate|]. intros _. cbn [fst snd].
    split; [reflexivity|]. intros later. rewrite G. reflexivity.
Qed.

Lemma has_foretells_get_witness :
  let cache :=
    Cache.set 1000 "https://a" (J (JNum (Fin 1))) None [] in
  Cache.reachable cache
  /\ Cache.has 61000 "https://a" cache = true
  /\ Cache.has 61001 "https://a" cache = false
  /\ fst (Cache.get 61001 "https://a" cache) = J JNull.
Proof.
  cbv zeta.
  assert (R : Cache.reachable
                (Cache.set 1000 "https://a" (J (JNum (Fin 1))) None []))
    by (apply Cache.reach_set, Cache.reach_new).
  split; [exact R|].
  split; [vm_compute; reflexivity|].
  split; [vm_compute; reflexivity|].
  apply (proj2 (has_foretells_get 61001 "https://a" R)).
  vm_compute. reflexivity.
Defined.

Lemma expiresAt_int (d : value) (now t : Z) (ttl : option number) :
  Double.orElse ttl Cache.defaultTTL = Double.ofZ t ->
  (Z.abs (now + t) < 2 ^ 53)%Z ->
  Cache.expiresAt {| Cache.data := d; Cache.timestamp := now;
                     Cache.expiry := Double.orElse ttl Cache.defaultTTL |}
  = Double.ofZ (now + t).
Proof.
  intros E B. unfold Cache.expiresAt. cbn [Cache.timestamp Cache.expiry].
  rewrite E. apply add_ofZ, B.
Qed.

(** What is put in the cache is there for its time to live and no
    longer.  After [set(url, data, ttl)] at the time [now], with a [ttl] of
    [t] milliseconds, [t] a whole number, [get(url)] gives [data] at every
    time up to [now + t] and leaves the cache as it is; later than that it
    gives null and the cache is as after [clear(url)].  A [ttl] that is not
    given, or is 0 or [NaN], stands for 60000. *)
Theorem set_then_get (cache : list (string * Cache.CacheEntry))
    (url : string) (data : value) (ttl : option number) (now later t : Z) :
  (ttl = Some (Double.ofZ t) /\ t <> 0%Z)
  \/ ((ttl = None \/ ttl = Some NaN \/ ttl = Some (Double.ofZ 0))
      /\ t = 60000%Z) ->
  (Z.abs (now + t) < 2 ^ 53)%Z ->
  Cache.get later url (Cache.set now url data ttl cache)
  = if (later <=? now + t)%Z
    then (data, Cache.set now url data ttl cache)
    else (J JNull, Cache.clear url cache).
Proof.
  intros Httl B.
  assert (E : Double.orElse ttl Cache.defaultTTL = Double.ofZ t).
  { destruct Httl as [[-> Ht]|[[->|[->| ->]] ->]]; try reflexivity.
    destruct t; [contradiction | reflexivity | reflexivity]. }
  unfold Cache.get, Cache.set, Cache.clear.
  rewrite get_set_same, (expiresAt_int data now ttl E B), gtb_ofZ.
  cbn [Cache.data]. rewrite Z.leb_antisym.
  destruct (now + t <? later)%Z; cbn [negb]; [|reflexivity].
  rewrite delete_set. reflexivity.
Qed.

Lemma set_then_get_witness :
  Cache.get 61000 "https://a"
    (Cache.set 1000 "https://a" (J (JStr "x")) None [])
  = (J (JStr "x"), Cache.set 1000 "https://a" (J (JStr "x")) None [])
  /\ Cache.get 1006 "https://a"
       (Cache.set 1000 "https://a" (J (JStr "x")) (Some (Double.ofZ 5)) [])
     = (J JNull, []).
Proof.
  split.
  - apply (@set_then_get [] "https://a" (J (JStr "x")) None 1000 61000 60000).
    + right. split; [left; reflexivity | reflexivity].
    + vm_compute. reflexivity.
  - apply (@set_then_get [] "https://a" (J (JStr "x"))
             (Some (Double.ofZ 5)) 1000 1006 5).
    + left. split; [reflexivity | discriminate].
    + vm_compute. reflexivity.
Defined.

Lemma getCacheKey_inj (url url' : string) :
  Cache.getCacheKey url = Cache.getCacheKey url' -> url = url'.
Proof.
  unfold Cache.getCacheKey. cbn. intros H. injection H as H. exact H.
Qed.

(** The entries of the cache do not touch one another: [set], [clear]
    and [get] of one address change neither what [has] nor what [get]
    answers for another. *)
Theorem other_urls_untouched (cache : list (string * Cache.CacheEntry))
    (url url' : string) (now t : Z) (data : value) (ttl : option number) :
  url <> url' ->
  let after :=
    [Cache.set now url data ttl cache;
     Cache.clear url cache;
     snd (Cache.get now url cache)] in
  forall cache', In cache' after ->
    Cache.has t url' cache' = Cache.has t url' cache
    /\ fst (Cache.get t url' cache') = fst (Cache.get t url' cache).
Proof.
  intros N after cache' Hin.
  assert (K : Cache.getCacheKey url <> Cache.getCacheKey url')
    by (intros X; apply N, getCacheKey_inj, X).
  assert (G : JsMap.get (Cache.getCacheKey url') cache'
              = JsMap.get (Cache.getCacheKey url') cache).
  { destruct Hin as [<-|[<-|[<-|[]]]].
    - apply get_set_other, K.
    - apply get_delete_other, K.
    - unfold Cache.get.
      destruct (JsMap.get (Cache.getCacheKey url) cache) as [e|];
        [|reflexivity].
      destruct (Double.gtb _ _); cbn [snd]; [|reflexivity].
      apply get_delete_other, K. }
  unfold Cache.has, Cache.get. rewrite G. split; [reflexivity|].
  destruct (JsMap.get (Cache.getCacheKey url') cache) as [e|];
    [|reflexivity].
  destruct (Double.gtb _ _); reflexivity.
Qed.

Lemma other_urls_untouched_witness :
  Cache.has 5 "b"
    (Cache.clear "a" (Cache.set 0 "b" (J JNull) None []))
  = Cache.has 5 "b" (Cache.set 0 "b" (J JNull) None []).
Proof.
  assert (N : "a" <> "b") by discriminate.
  apply (@other_urls_untouched (Cache.set 0 "b" (J JNull) None [])
           "a" "b" 0 5 (J JNull) None N).
  right. left. reflexivity.
Defined.

(** What is cleared is gone: after [clear(url)], and after
    [clearAll()] for every address, [has] is false and [get] gives null at
    every time, and [get] changes nothing. *)
Theorem cleared_is_gone (cache : list (string * Cache.CacheEntry))
    (url : string) (now : Z) :
  Cache.has now url (Cache.clear url cache) = false
  /\ Cache.get now url (Cache.clear url cache)
     = (J JNull, Cache.clear url cache)
  /\ Cache.has now url (Cache.clearAll cache) = false
  /\ Cache.get now url (Cache.clearAll cache)
     = (J JNull, Cache.clearAll cache).
Proof.
  unfold Cache.has, Cache.get, Cache.clear.
  rewrite get_delete_same. repeat split.
Qed.

(* ===================================================================== *)
(** * The rate limit                                                      *)
(* ===================================================================== *)

Lemma serve_cons (ip : string) (now : Z) (rest : list (string * Z))
    (m : list (string * RateLimit.Limit)) :
  fst (RateLimit.serve ((ip, now) :: rest) m)
  = fst (RateLimit.checkRateLimit now ip m)
    :: fst (RateLimit.serve rest (snd (RateLimit.checkRateLimit now ip m))).
Proof.
  cbn [RateLimit.serve].
  destruct (RateLimit.checkRateLimit now ip m) as [allowed m1].
  cbn [fst snd].
  destruct (RateLimit.serve rest m1) as [answers m2]. reflexivity.
Qed.

Lemma checkRateLimit_other (ip ip' : string) (now : Z)
    (m : list (string * RateLimit.Limit)) :
  ip' <> ip ->
  JsMap.get ip (snd (RateLimit.checkRateLimit now ip' m)) = JsMap.get ip m.
Proof.
  intros N. unfold RateLimit.checkRateLimit.
  destruct (JsMap.get ip' m) as [limit|]; cbn [snd].
  - destruct (Double.gtb _ _); cbn [snd]; [apply get_set_other, N|].
    destruct (Double.geb _ _); cbn [snd]; [reflexivity|].
    apply get_set_other, N.
  - apply get_set_other, N.
Qed.

Lemma serve_in_window (ip : string) (R : Z)
    (requests : list (string * Z)) :
  forall (c : Z) (m : list (string * RateLimit.Limit)),
    (0 <= c)%Z ->
    JsMap.get ip m = Some {| RateLimit.count := Double.ofZ c;
                             RateLimit.resetTime := Double.ofZ R |} ->
    (forall t, In (ip, t) requests -> (t <= R)%Z) ->
    RateLimit.answersTo ip requests (fst (RateLimit.serve requests m))
    = map (fun i => (c + Z.of_nat i <? 50)%Z)
          (seq 0 (List.length
                    (filter (fun r => String.eqb (fst r) ip) requests))).
Proof.
  induction requests as [|[ip' t] rest IH]; intros c m Hc G W.
  - reflexivity.
  - rewrite serve_cons. unfold RateLimit.answersTo.
    cbn [combine filter fst snd].
    destruct (String.eqb_spec ip' ip) as [->|N].
    + cbn [map List.length].
      assert (Ht : (t <= R)%Z) by (apply W; left; reflexivity).
      assert (W' : forall t', In (ip, t') rest -> (t' <= R)%Z)
        by (intros t' H; apply W; right; exact H).
      unfold RateLimit.checkRateLimit. rewrite G.
      cbn [RateLimit.resetTime RateLimit.count].
      rewrite gtb_ofZ.
      destruct (Z.ltb_spec R t) as [X|_]; [lia|].
      unfold Double.geb, RateLimit.MAX_REQUESTS_PER_WINDOW.
      rewrite leb_ofZ.
      destruct (Z.leb_spec 50 c) as [Full|Room]; cbn [fst snd].
      * change (map snd (filter (fun ra => String.eqb (fst (fst ra)) ip)
                          (combine rest (fst (RateLimit.serve rest m)))))
          with (RateLimit.answersTo ip rest (fst (RateLimit.serve rest m))).
        rewrite (IH c m Hc G W').
        cbn [seq map]. rewrite <- seq_shift, map_map. f_equal.
        -- symmetry. apply Z.ltb_ge. lia.
        -- apply map_ext. intros i.
           transitivity false; [|symmetry]; apply Z.ltb_ge; lia.
      * rewrite add_ofZ by lia.
        match goal with
        | |- context [RateLimit.serve rest ?m1] =>
            change (map snd (filter (fun ra => String.eqb (fst (fst ra)) ip)
                               (combine rest (fst (RateLimit.serve rest m1)))))
              with (RateLimit.answersTo ip rest
                      (fst (RateLimit.serve rest m1)));
            rewrite (IH (c + 1)%Z m1)
        end.
        -- cbn [seq map]. rewrite <- seq_shift, map_map. f_equal.
           ++ symmetry. apply Z.ltb_lt. lia.
           ++ apply map_ext. intros i. f_equal. lia.
        -- lia.
        -- apply get_set_same.
        -- exact W'.
    + change (map snd (filter (fun ra => String.eqb (fst (fst ra)) ip)
                         (combine rest
                            (fst (RateLimit.serve rest
                                    (snd (RateLimit.checkRateLimit t ip' m)))))))
        with (RateLimit.answersTo ip rest
                (fst (RateLimit.serve rest
                        (snd (RateLimit.checkRateLimit t ip' m))))).
      apply IH.
      * exact Hc.
      * rewrite checkRateLimit_other by exact N. exact G.
      * intros t' H. apply W. right. exact H.
Qed.

(** A window of the rate limit lets fifty requests of an address pass
    and no more.  Let a request of [ip] at the time [now] find no entry for
    [ip], or one whose reset time is over.  Of the requests of [ip] from
    that one on and up to [now + 60000], whatever other addresses ask in
    between, the first fifty are allowed and all after them are refused. *)
Theorem fifty_requests_a_window (ip : string) (now : Z)
    (requests : list (string * Z))
    (rateLimitMap : list (string * RateLimit.Limit)) :
  (Z.abs (now + 60000) < 2 ^ 53)%Z ->
  JsMap.get ip rateLimitMap = None
  \/ (exists limit,
        JsMap.get ip rateLimitMap = Some limit
        /\ Double.gtb (Double.ofZ now) (RateLimit.resetTime limit) = true) ->
  (forall t, In (ip, t) requests -> (t <= now + 60000)%Z) ->
  RateLimit.answersTo ip ((ip, now) :: requests)
    (fst (RateLimit.serve ((ip, now) :: requests) rateLimitMap))
  = map (fun i => (i <? 50)%nat)
        (seq 0 (S (List.length
                     (filter (fun r => String.eqb (fst r) ip) requests)))).
Proof.
  intros B Open W.
  rewrite serve_cons. unfold RateLimit.answersTo.
  cbn [combine filter fst snd]. rewrite String.eqb_refl. cbn [map].
  assert (E : RateLimit.checkRateLimit now ip rateLimitMap
              = (true,
                 JsMap.set ip
                   {| RateLimit.count := Double.ofZ 1;
                      RateLimit.resetTime := Double.ofZ (now + 60000) |}
                   rateLimitMap)).
  { unfold RateLimit.checkRateLimit, RateLimit.RATE_LIMIT_WINDOW.
    change (60 * 1000)%Z with 60000%Z.
    rewrite add_ofZ by exact B.
    destruct Open as [->|[limit [-> ->]]]; reflexivity. }
  rewrite E. cbn [fst snd].
  match goal with
  | |- context [RateLimit.serve requests ?m1] =>
      change (map snd (filter (fun ra => String.eqb (fst (fst ra)) ip)
                         (combine requests
                            (fst (RateLimit.serve requests m1)))))
        with (RateLimit.answersTo ip requests
                (fst (RateLimit.serve requests m1)));
      rewrite (@serve_in_window ip (now + 60000) requests 1 m1)
  end.
  - cbn [seq map]. rewrite <- seq_shift, map_map. f_equal.
    apply map_ext. intros i.
    destruct (Z.ltb_spec (1 + Z.of_nat i) 50);
      destruct (Nat.ltb_spec (S i) 50); try reflexivity; lia.
  - lia.
  - apply get_set_same.
  - exact W.
Qed.

Lemma fifty_requests_a_window_witness :
  RateLimit.answersTo "1.2.3.4"
    (("1.2.3.4", 0%Z) :: repeat ("1.2.3.4", 1%Z) 50)
    (fst (RateLimit.serve (("1.2.3.4", 0%Z) :: repeat ("1.2.3.4", 1%Z) 50)
            []))
  = (repeat true 50 ++ [false])%list.
Proof.
  refine (eq_trans
            (@fifty_requests_a_window "1.2.3.4" 0
               (repeat ("1.2.3.4", 1%Z) 50) [] _ _ _) _).
  - vm_compute. reflexivity.
  - left. reflexivity.
  - intros t H. apply repeat_spec in H. injection H as ->. lia.
  - vm_compute. reflexivity.
Defined.

(* ===================================================================== *)
(** * The widgets of the dashboard                                        *)
(* ===================================================================== *)

Lemma setPosition_same (widget : WidgetSlice.Widget) :
  WidgetSlice.setPosition widget (WidgetSlice.position widget) = widget.
Proof. destruct widget. reflexivity. Qed.

Lemma renumber_length (l : list WidgetSlice.Widget) (k : nat) :
  List.length (WidgetSlice.renumber l k) = List.length l.
Proof.
  revert k. induction l as [|a l IH]; intros k; cbn; [reflexivity|].
  rewrite IH. reflexivity.
Qed.

Lemma nth_error_renumber (l : list WidgetSlice.Widget) (k i : nat) :
  nth_error (WidgetSlice.renumber l k) i
  = option_map
      (fun w => WidgetSlice.setPosition w (Some (WidgetSlice.ofIndex (k + i))))
      (nth_error l i).
Proof.
  revert k i. induction l as [|a l IH]; intros k i.
  - destruct i; reflexivity.
  - destruct i as [|i]; cbn.
    + rewrite Nat.add_0_r. reflexivity.
    + rewrite IH. rewrite Nat.add_succ_r. reflexivity.
Qed.

Lemma renumber_forget (l : list WidgetSlice.Widget) (k : nat) :
  map WidgetSlice.forgetPosition (WidgetSlice.renumber l k)
  = map WidgetSlice.forgetPosition l.
Proof.
  revert k. induction l as [|a l IH]; intros k; cbn; [reflexivity|].
  rewrite IH. reflexivity.
Qed.

Lemma renumber_positioned (l : list WidgetSlice.Widget) :
  WidgetSlice.positioned (WidgetSlice.renumber l 0).
Proof.
  intros i w H. rewrite nth_error_renumber in H.
  destruct (nth_error l i) as [w0|]; [|discriminate].
  injection H as <-. reflexivity.
Qed.

Lemma renumber_fixes (l : list WidgetSlice.Widget) (k : nat) :
  (forall i w, nth_error l i = Some w ->
               WidgetSlice.position w = Some (WidgetSlice.ofIndex (k + i))) ->
  WidgetSlice.renumber l k = l.
Proof.
  revert k. induction l as [|a l IH]; intros k H; cbn; [reflexivity|].
  f_equal.
  - specialize (H 0%nat a eq_refl). rewrite Nat.add_0_r in H.
    rewrite <- H. apply setPosition_same.
  - apply IH. intros i w Hi. specialize (H (S i) w Hi).
    rewrite Nat.add_succ_r in H. exact H.
Qed.

Lemma filter_forget (payload : string) (l : list WidgetSlice.Widget) :
  map WidgetSlice.forgetPosition
      (filter (fun w => negb (String.eqb (WidgetSlice.id w) payload)) l)
  = filter (fun w => negb (String.eqb (WidgetSlice.id w) payload))
           (map WidgetSlice.forgetPosition l).
Proof.
  induction l as [|a l IH]; cbn; [reflexivity|].
  destruct (negb (String.eqb (WidgetSlice.id a) payload)); cbn;
    rewrite IH; reflexivity.
Qed.

(** [removeWidget] drops the widgets with the given id, keeps the others
    as they are and in their order, and numbers them anew: afterwards the
    position of every widget is its index. *)
Theorem removeWidget_contract (browser : bool)
    (state : WidgetSlice.WidgetState) (payload : string) :
  let after :=
    WidgetSlice.state (WidgetSlice.removeWidget browser state payload) in
  map WidgetSlice.forgetPosition (WidgetSlice.widgets after)
  = filter (fun w => negb (String.eqb (WidgetSlice.id w) payload))
           (map WidgetSlice.forgetPosition (WidgetSlice.widgets state))
  /\ WidgetSlice.positioned (WidgetSlice.widgets after)
  /\ (forall w, In w (WidgetSlice.widgets after) ->
                WidgetSlice.id w <> payload)
  /\ WidgetSlice.theme after = WidgetSlice.theme state.
Proof.
  cbn. split; [|split; [|split]].
  - rewrite renumber_forget. apply filter_forget.
  - apply renumber_positioned.
  - intros w Hin. apply In_nth_error in Hin. destruct Hin as [i Hi].
    rewrite nth_error_renumber in Hi.
    destruct (nth_error _ i) as [w0|] eqn:E; [|discriminate].
    injection Hi as <-. apply nth_error_In in E. apply filter_In in E.
    destruct E as [_ E]. apply Bool.negb_true_iff, String.eqb_neq in E.
    exact E.
  - reflexivity.
Qed.

Lemma filter_fresh (payload : string) (l : list WidgetSlice.Widget) :
  (forall w, In w l -> WidgetSlice.id w <> payload) ->
  filter (fun w => negb (String.eqb (WidgetSlice.id w) payload)) l = l.
Proof.
  induction l as [|a l IH]; intros H; cbn; [reflexivity|].
  assert (E : String.eqb (WidgetSlice.id a) payload = false)
    by (apply String.eqb_neq, H; left; reflexivity).
  rewrite E. cbn. f_equal. apply IH. intros w Hw. apply H. right. exact Hw.
Qed.

(** Adding a widget and removing it again gives the dashboard back.  On a
    dashboard whose widgets hold their indices as positions, [addWidget]
    puts the new widget last, with the number of the widgets before as its
    position, and leaves the others as they are; when no other widget has
    its id, [removeWidget] of that id then restores the state. *)
Theorem addWidget_then_removeWidget (browser browser' : bool)
    (state : WidgetSlice.WidgetState) (payload : WidgetSlice.Widget) :
  WidgetSlice.positioned (WidgetSlice.widgets state) ->
  (forall w, In w (WidgetSlice.widgets state) ->
             WidgetSlice.id w <> WidgetSlice.id payload) ->
  let added :=
    WidgetSlice.state (WidgetSlice.addWidget browser state payload) in
  (exists newWidget,
      WidgetSlice.widgets added
      = (WidgetSlice.widgets state ++ [newWidget])%list
      /\ WidgetSlice.id newWidget = WidgetSlice.id payload)
  /\ WidgetSlice.positioned (WidgetSlice.widgets added)
  /\ WidgetSlice.state
       (WidgetSlice.removeWidget browser' added (WidgetSlice.id payload))
     = state.
Proof.
  intros P F. cbn. split; [|split].
  - eexists. split; reflexivity.
  - intros i w H.
    destruct (Nat.lt_ge_cases i (List.length (WidgetSlice.widgets state)))
      as [L|L].
    + rewrite nth_error_app1 in H by exact L. exact (P i w H).
    + rewrite nth_error_app2 in H by exact L.
      destruct (i - List.length (WidgetSlice.widgets state))%nat
        as [|d] eqn:D; cbn in H.
      * injection H as <-. cbn. do 2 f_equal. lia.
      * destruct d; discriminate.
  - rewrite filter_app. cbn. rewrite String.eqb_refl. cbn.
    rewrite app_nil_r, (@filter_fresh _ _ F), (@renumber_fixes _ 0%nat P).
    destruct state. reflexivity.
Qed.

Lemma addWidget_then_removeWidget_witness :
  List.length
    (WidgetSlice.widgets
       (WidgetSlice.state
          (WidgetSlice.addWidget true WidgetSlice.dashboard
                                 WidgetSlice.quoteCard))) = 2%nat
  /\ WidgetSlice.state
       (WidgetSlice.removeWidget true
          (WidgetSlice.state
             (WidgetSlice.addWidget true WidgetSlice.dashboard
                                    WidgetSlice.quoteCard))
          "w2")
     = WidgetSlice.dashboard.
Proof.
  split; [reflexivity|].
  apply (@addWidget_then_removeWidget true true WidgetSlice.dashboard
           WidgetSlice.quoteCard).
  - intros index widget H.
    destruct index as [|[|index]]; cbn in H; try discriminate.
    injection H as <-. reflexivity.
  - intros w [<-|[]]. discriminate.
Defined.

Lemma relativeIndex_in_range (len : nat) (i : Z) :
  (WidgetSlice.relativeIndex len i < len)%nat
  <-> ~ ((Z.of_nat len <= i)%Z \/ len = 0%nat).
Proof.
  unfold WidgetSlice.relativeIndex.
  destruct (Z.ltb_spec i 0); lia.
Qed.

Lemma nth_error_split (A : Type) (l : list A) (n : nat) (a : A) :
  nth_error l n = Some a ->
  l = (firstn n l ++ a :: skipn (S n) l)%list.
Proof.
  revert n. induction l as [|b l IH]; intros [|n] H; cbn in *;
    try discriminate.
  - injection H as ->. reflexivity.
  - f_equal. apply IH, H.
Qed.

(** [reorderWidgets] throws exactly when the start index is not below the
    number of the widgets, so also on an empty dashboard.  Where it
    returns, the widgets are the same up to their order and positions,
    every widget holds its index as its position, and, for indices within
    the array, the widget that was at the start index is at the end
    index. *)
Theorem reorderWidgets_contract (browser : bool)
    (state : WidgetSlice.WidgetState) (startIndex endIndex : Z) :
  let len := List.length (WidgetSlice.widgets state) in
  (WidgetSlice.reorderWidgets browser state startIndex endIndex = Throws
   <-> (Z.of_nat len <= startIndex)%Z \/ len = 0%nat)
  /\ forall e,
       WidgetSlice.reorderWidgets browser state startIndex endIndex
       = Returns e ->
       let after := WidgetSlice.widgets (WidgetSlice.state e) in
       Permutation (map WidgetSlice.forgetPosition after)
                   (map WidgetSlice.forgetPosition
                        (WidgetSlice.widgets state))
       /\ WidgetSlice.positioned after
       /\ WidgetSlice.theme (WidgetSlice.state e) = WidgetSlice.theme state
       /\ ((0 <= startIndex < Z.of_nat len)%Z ->
           (0 <= endIndex < Z.of_nat len)%Z ->
           exists w,
             nth_error (WidgetSlice.widgets state) (Z.to_nat startIndex)
             = Some w
             /\ nth_error after (Z.to_nat endIndex)
                = Some (WidgetSlice.setPosition w
                          (Some (WidgetSlice.ofIndex (Z.to_nat endIndex))))).
Proof.
  intros len. unfold WidgetSlice.reorderWidgets. fold len.
  set (ws := WidgetSlice.widgets state) in *.
  set (start := WidgetSlice.relativeIndex len startIndex).
  set (rest := (firstn start ws ++ skipn (S start) ws)%list).
  set (stop := WidgetSlice.relativeIndex (List.length rest) endIndex).
  pose proof (relativeIndex_in_range len startIndex) as RI. fold start in RI.
  destruct (nth_error ws start) as [removed|] eqn:E.
  - assert (L : (start < len)%nat)
      by (apply nth_error_Some; rewrite E; discriminate).
    split.
    + split; [discriminate|]. intros H. exfalso. apply RI; assumption.
    + intros e H. injection H as <-.
      unfold WidgetSlice.save.
      cbn [WidgetSlice.state WidgetSlice.widgets WidgetSlice.theme].
      split; [|split; [|split]].
      * rewrite renumber_forget. apply Permutation_map.
        apply Permutation_trans with (removed :: rest).
        -- apply Permutation_sym.
           etransitivity; [|apply Permutation_middle].
           rewrite firstn_skipn. reflexivity.
        -- apply Permutation_trans
             with (firstn start ws ++ removed :: skipn (S start) ws)%list;
             [apply Permutation_middle|].
           rewrite <- (nth_error_split ws start E). reflexivity.
      * apply renumber_positioned.
      * reflexivity.
      * intros Hs He.
        assert (S1 : start = Z.to_nat startIndex).
        { unfold start, WidgetSlice.relativeIndex.
          destruct (Z.ltb_spec startIndex 0); lia. }
        assert (LR : S (List.length rest) = len).
        { unfold rest. rewrite length_app, length_firstn, length_skipn.
          fold len. lia. }
        assert (S2 : stop = Z.to_nat endIndex).
        { unfold stop, WidgetSlice.relativeIndex.
          destruct (Z.ltb_spec endIndex 0); lia. }
        exists removed. split; [rewrite <- S1; exact E|].
        rewrite nth_error_renumber, <- S2.
        rewrite nth_error_app2 by (rewrite length_firstn; lia).
        rewrite length_firstn.
        replace (stop - Nat.min stop (List.length rest))%nat with 0%nat
          by lia.
        reflexivity.
  - assert (L : (len <= start)%nat) by (apply nth_error_None, E).
    split.
    + split; [intros _|reflexivity].
      destruct (Z.le_gt_cases (Z.of_nat len) startIndex) as [X|X];
        [left; exact X|].
      destruct (Nat.eq_dec len 0) as [Z0|Z0]; [right; exact Z0|].
      exfalso. assert (start < len)%nat by (apply (proj2 RI); lia). lia.
    + discriminate.
Qed.

Lemma updateFirst_ids (item : WidgetSlice.Item.t)
    (ws : list WidgetSlice.Widget) :
  map WidgetSlice.id (WidgetSlice.updateFirst item ws)
  = map WidgetSlice.id ws.
Proof.
  induction ws as [|a ws IH]; cbn; [reflexivity|].
  destruct (String.eqb _ _); cbn; [reflexivity|]. rewrite IH. reflexivity.
Qed.

Lemma earlier_ids (id : string) (k : nat) (ws ws' : list WidgetSlice.Widget) :
  map WidgetSlice.id ws = map WidgetSlice.id ws' ->
  WidgetSlice.earlier id k ws = WidgetSlice.earlier id k ws'.
Proof.
  unfold WidgetSlice.earlier. revert k ws'.
  induction ws as [|a ws IH]; intros k [|a' ws'] H; try discriminate.
  - reflexivity.
  - injection H as Ha H. destruct k as [|k]; cbn; [reflexivity|].
    rewrite Ha, (IH k ws' H). reflexivity.
Qed.

Lemma nth_error_updateFirst (item : WidgetSlice.Item.t)
    (ws : list WidgetSlice.Widget) (k : nat) (w : WidgetSlice.Widget) :
  nth_error ws k = Some w ->
  nth_error (WidgetSlice.updateFirst item ws) k
  = Some (if String.eqb (WidgetSlice.id w) (WidgetSlice.Item.id item)
             && negb (WidgetSlice.earlier (WidgetSlice.Item.id item) k ws)
          then WidgetSlice.place w item else w).
Proof.
  unfold WidgetSlice.earlier. revert k.
  induction ws as [|a ws IH]; intros [|k] H; cbn in H; try discriminate.
  - injection H as ->. cbn.
    destruct (String.eqb _ _); cbn; reflexivity.
  - cbn. destruct (String.eqb (WidgetSlice.id a) _) eqn:Ea; cbn.
    + rewrite Bool.andb_false_r. exact H.
    + apply IH, H.
Qed.

Lemma find_snoc (A : Type) (p : A -> bool) (l : list A) (a : A) :
  find p (l ++ [a])
  = match find p l with
    | Some b => Some b
    | None => if p a then Some a else None
    end.
Proof.
  induction l as [|b l IH]; cbn; [reflexivity|].
  destruct (p b); [reflexivity | exact IH].
Qed.

Lemma fold_updateFirst (payload : list WidgetSlice.Item.t) :
  forall (ws : list WidgetSlice.Widget) (k : nat) (w : WidgetSlice.Widget),
    nth_error ws k = Some w ->
    nth_error
      (fold_left (fun ws item => WidgetSlice.updateFirst item ws) payload ws)
      k
    = Some (if WidgetSlice.earlier (WidgetSlice.id w) k ws then w
            else match WidgetSlice.lastItem (WidgetSlice.id w) payload with
                 | Some item => WidgetSlice.place w item
                 | None => w
                 end).
Proof.
  induction payload as [|item rest IH]; intros ws k w H.
  - cbn. rewrite H. destruct (WidgetSlice.earlier _ _ _); reflexivity.
  - cbn [fold_left].
    rewrite (IH _ k _ (nth_error_updateFirst item ws k H)).
    f_equal.
    match goal with
    | |- context [WidgetSlice.earlier (WidgetSlice.id ?x) k
                    (WidgetSlice.updateFirst item ws)] => set (w1 := x)
    end.
    assert (I1 : WidgetSlice.id w1 = WidgetSlice.id w)
      by (unfold w1; destruct (_ && _); reflexivity).
    rewrite I1.
    rewrite (@earlier_ids (WidgetSlice.id w) k _ ws
               (updateFirst_ids item ws)).
    unfold WidgetSlice.lastItem at 2. cbn [rev]. rewrite find_snoc.
    fold (WidgetSlice.lastItem (WidgetSlice.id w) rest).
    destruct (WidgetSlice.earlier (WidgetSlice.id w) k ws) eqn:D.
    + unfold w1.
      destruct (String.eqb_spec (WidgetSlice.id w)
                                (WidgetSlice.Item.id item)) as [X|X];
        [|reflexivity].
      rewrite <- X, D. reflexivity.
    + destruct (WidgetSlice.lastItem (WidgetSlice.id w) rest) as [item'|].
      * unfold w1. destruct (_ && _); reflexivity.
      * unfold w1.
        destruct (String.eqb_spec (WidgetSlice.id w)
                                  (WidgetSlice.Item.id item)) as [X|X];
          [|reflexivity].
        rewrite <- X, D. reflexivity.
Qed.

Lemma fold_updateFirst_ids (payload : list WidgetSlice.Item.t) :
  forall ws : list WidgetSlice.Widget,
    map WidgetSlice.id
        (fold_left (fun ws item => WidgetSlice.updateFirst item ws)
                   payload ws)
    = map WidgetSlice.id ws.
Proof.
  induction payload as [|item rest IH]; intros ws; cbn; [reflexivity|].
  rewrite IH. apply updateFirst_ids.
Qed.

(** [updateLayout] keeps the widgets, their ids and their order, and
    changes the geometry only: the first widget with an id gets [x], [y],
    [w] and [h] of the last item of the layout with that id; a widget
    whose id no item has, and a widget whose id an earlier widget has, stay
    as they are. *)
Theorem updateLayout_contract (browser : bool)
    (state : WidgetSlice.WidgetState)
    (payload : list WidgetSlice.Item.t) :
  let after :=
    WidgetSlice.state (WidgetSlice.updateLayout browser state payload) in
  map WidgetSlice.id (WidgetSlice.widgets after)
  = map WidgetSlice.id (WidgetSlice.widgets state)
  /\ WidgetSlice.theme after = WidgetSlice.theme state
  /\ forall index widget,
       nth_error (WidgetSlice.widgets state) index = Some widget ->
       nth_error (WidgetSlice.widgets after) index
       = Some (if WidgetSlice.earlier (WidgetSlice.id widget) index
                    (WidgetSlice.widgets state)
               then widget
               else match WidgetSlice.lastItem (WidgetSlice.id widget)
                            payload with
                    | Some item => WidgetSlice.place widget item
                    | None => widget
                    end).
Proof.
  cbn. split; [apply fold_updateFirst_ids|]. split; [reflexivity|].
  intros index widget H. apply fold_updateFirst, H.
Qed.

(* ===================================================================== *)
(** * The grid of the dashboard                                           *)
(* ===================================================================== *)

Lemma nth_error_layoutFrom (ws : list WidgetSlice.Widget) (k n : nat) :
  nth_error (DashboardGrid.layoutFrom ws k) n
  = option_map (fun w => DashboardGrid.layoutItem w (k + n))
               (nth_error ws n).
Proof.
  revert k n. induction ws as [|a ws IH]; intros k n.
  - destruct n; reflexivity.
  - destruct n as [|n]; cbn.
    + rewrite Nat.add_0_r. reflexivity.
    + rewrite IH, Nat.add_succ_r. reflexivity.
Qed.

(** The grid lays widgets without geometry out in three columns of four
    units, row after row: every entry is four wide and four high and lies
    within the twelve columns, and no two entries overlap. *)
Theorem default_layout_never_overlaps (widgets : list WidgetSlice.Widget)
    (m n : nat) (a b : DashboardGrid.LayoutItem) :
  Forall DashboardGrid.unplaced widgets ->
  nth_error (DashboardGrid.layout widgets) m = Some a ->
  nth_error (DashboardGrid.layout widgets) n = Some b ->
  m <> n ->
  exists xa ya xb yb : Z,
    DashboardGrid.x a = Double.ofZ xa /\ DashboardGrid.y a = Double.ofZ ya
    /\ DashboardGrid.x b = Double.ofZ xb /\ DashboardGrid.y b = Double.ofZ yb
    /\ DashboardGrid.w a = Double.ofZ 4 /\ DashboardGrid.h a = Double.ofZ 4
    /\ DashboardGrid.w b = Double.ofZ 4 /\ DashboardGrid.h b = Double.ofZ 4
    /\ (0 <= xa /\ xa + 4 <= 12 /\ 0 <= ya)%Z
    /\ (0 <= xb /\ xb + 4 <= 12 /\ 0 <= yb)%Z
    /\ (xa + 4 <= xb \/ xb + 4 <= xa \/ ya + 4 <= yb \/ yb + 4 <= ya)%Z.
Proof.
  intros U Ha Hb Hmn. unfold DashboardGrid.layout in Ha, Hb.
  rewrite nth_error_layoutFrom in Ha, Hb. cbn [Nat.add] in Ha, Hb.
  destruct (nth_error widgets m) as [wa|] eqn:Ea; [|discriminate].
  destruct (nth_error widgets n) as [wb|] eqn:Eb; [|discriminate].
  injection Ha as <-. injection Hb as <-.
  rewrite Forall_forall in U.
  destruct (U wa (nth_error_In _ _ Ea)) as (A1 & A2 & A3 & A4).
  destruct (U wb (nth_error_In _ _ Eb)) as (B1 & B2 & B3 & B4).
  unfold DashboardGrid.layoutItem.
  cbn [DashboardGrid.x DashboardGrid.y DashboardGrid.w DashboardGrid.h].
  rewrite A1, A2, A3, A4, B1, B2, B3, B4.
  exists (Z.of_nat ((m * 4) mod 12)), (Z.of_nat (m / 3 * 4)),
         (Z.of_nat ((n * 4) mod 12)), (Z.of_nat (n / 3 * 4)).
  repeat (split; [reflexivity|]).
  change 12%nat with (3 * 4)%nat.
  rewrite !Nat.Div0.mul_mod_distr_r.
  pose proof (Nat.div_mod_eq m 3). pose proof (Nat.div_mod_eq n 3).
  pose proof (Nat.mod_upper_bound m 3). pose proof (Nat.mod_upper_bound n 3).
  lia.
Qed.

Lemma default_layout_never_overlaps_witness :
  let widgets := [WidgetSlice.setLayout WidgetSlice.priceChart
                    None None None None;
                  WidgetSlice.quoteCard;
                  WidgetSlice.setLayout WidgetSlice.quoteCard
                    None None None None;
                  WidgetSlice.quoteCard;
                  WidgetSlice.setLayout WidgetSlice.priceChart
                    None None None None] in
  let widgets := map (fun w => WidgetSlice.setLayout w None None None None)
                     widgets in
  exists a b,
    nth_error (DashboardGrid.layout widgets) 2 = Some a
    /\ nth_error (DashboardGrid.layout widgets) 3 = Some b
    /\ (DashboardGrid.x a, DashboardGrid.y a)
       = (Double.ofZ 8, Double.ofZ 0)
    /\ (DashboardGrid.x b, DashboardGrid.y b)
       = (Double.ofZ 0, Double.ofZ 4)
    /\ exists xa ya xb yb : Z,
         DashboardGrid.x a = Double.ofZ xa
         /\ DashboardGrid.y a = Double.ofZ ya
         /\ DashboardGrid.x b = Double.ofZ xb
         /\ DashboardGrid.y b = Double.ofZ yb
         /\ (xa + 4 <= xb \/ xb + 4 <= xa \/ ya + 4 <= yb \/ yb + 4 <= ya)%Z.
Proof.
  cbv zeta. eexists. eexists.
  split; [reflexivity|]. split; [reflexivity|].
  split; [reflexivity|]. split; [reflexivity|].
  match goal with
  | |- context [DashboardGrid.x ?a = Double.ofZ _ /\ _ /\
                DashboardGrid.x ?b = Double.ofZ _ /\ _] =>
      destruct (@default_layout_never_overlaps
                  (map (fun w => WidgetSlice.setLayout w None None None None)
                     [WidgetSlice.setLayout WidgetSlice.priceChart
                        None None None None;
                      WidgetSlice.quoteCard;
                      WidgetSlice.setLayout WidgetSlice.quoteCard
                        None None None None;
                      WidgetSlice.quoteCard;
                      WidgetSlice.setLayout WidgetSlice.priceChart
                        None None None None])
                  2 3 a b)
        as (xa & ya & xb & yb & H1 & H2 & H3 & H4 & _ & _ & _ & _ & _ & _ & D)
  end.
  - repeat constructor.
  - reflexivity.
  - reflexivity.
  - discriminate.
  - exists xa, ya, xb, yb. repeat split; assumption.
Defined.

Lemma NoDup_map_inj (A B : Type) (f : A -> B) (l : list A) (a b : A) :
  NoDup (map f l) -> In a l -> In b l -> f a = f b -> a = b.
Proof.
  induction l as [|c l IH]; intros N Ha Hb E; [destruct Ha|].
  cbn in N. inversion N as [|? ? Hn N']; subst.
  destruct Ha as [->|Ha], Hb as [->|Hb].
  - reflexivity.
  - exfalso. apply Hn. rewrite E. apply in_map, Hb.
  - exfalso. apply Hn. rewrite <- E. apply in_map, Ha.
  - apply IH; assumption.
Qed.

Lemma earlier_NoDup (ws : list WidgetSlice.Widget) (k : nat)
    (w : WidgetSlice.Widget) :
  NoDup (map WidgetSlice.id ws) ->
  nth_error ws k = Some w ->
  WidgetSlice.earlier (WidgetSlice.id w) k ws = false.
Proof.
  intros N H. unfold WidgetSlice.earlier.
  destruct (existsb _ _) eqn:E; [|reflexivity]. exfalso.
  apply existsb_exists in E. destruct E as [w' [Hin Heq]].
  apply String.eqb_eq in Heq.
  rewrite (nth_error_split ws k H), map_app in N. cbn [map] in N.
  apply NoDup_remove_2 in N. apply N, in_or_app. left.
  rewrite <- Heq. apply in_map, Hin.
Qed.

Lemma layoutFrom_ids (ws : list WidgetSlice.Widget) (k : nat) :
  map WidgetSlice.Item.id
      (DashboardGrid.handleLayoutChange (DashboardGrid.layoutFrom ws k))
  = map WidgetSlice.id ws.
Proof.
  unfold DashboardGrid.handleLayoutChange.
  revert k. induction ws as [|a ws IH]; intros k; cbn; [reflexivity|].
  rewrite IH. reflexivity.
Qed.

Lemma lastItem_own (ws : list WidgetSlice.Widget) (k : nat)
    (w : WidgetSlice.Widget) :
  NoDup (map WidgetSlice.id ws) ->
  nth_error ws k = Some w ->
  WidgetSlice.lastItem (WidgetSlice.id w)
    (DashboardGrid.handleLayoutChange (DashboardGrid.layout ws))
  = Some (DashboardGrid.toItem (DashboardGrid.layoutItem w k)).
Proof.
  intros N H. unfold WidgetSlice.lastItem, DashboardGrid.layout.
  set (items := DashboardGrid.handleLayoutChange
                  (DashboardGrid.layoutFrom ws 0)).
  assert (Hk : nth_error items k
               = Some (DashboardGrid.toItem (DashboardGrid.layoutItem w k))).
  { unfold items, DashboardGrid.handleLayoutChange.
    rewrite nth_error_map, nth_error_layoutFrom, H. reflexivity. }
  assert (Ni : NoDup (map WidgetSlice.Item.id items))
    by (unfold items; rewrite layoutFrom_ids; exact N).
  apply nth_error_In in Hk.
  destruct (find _ (rev items)) as [b|] eqn:F.
  - apply find_some in F. destruct F as [Hb Eb].
    apply String.eqb_eq in Eb. apply in_rev in Hb. f_equal.
    apply (@NoDup_map_inj _ _ WidgetSlice.Item.id items _ _ Ni Hb Hk).
    symmetry. exact Eb.
  - exfalso. apply in_rev in Hk.
    pose proof (find_none _ _ F _ Hk) as X.
    cbn in X. rewrite String.eqb_refl in X. discriminate.
Qed.

Lemma orElse_twice (a : option number) (d : number) :
  Num.truthy d = true ->
  Double.orElse (Some (Double.orElse a d)) d = Double.orElse a d.
Proof.
  intros Hd. unfold Double.orElse at 1.
  rewrite (@orElse_truthy a d Hd). reflexivity.
Qed.

Lemma layoutItem_place (w : WidgetSlice.Widget) (k : nat) :
  DashboardGrid.layoutItem
    (WidgetSlice.place w
       (DashboardGrid.toItem (DashboardGrid.layoutItem w k))) k
  = DashboardGrid.layoutItem w k.
Proof.
  unfold DashboardGrid.layoutItem at 1.
  cbn [WidgetSlice.place WidgetSlice.setLayout WidgetSlice.id WidgetSlice.x
       WidgetSlice.y WidgetSlice.w WidgetSlice.h DashboardGrid.toItem
       WidgetSlice.Item.x WidgetSlice.Item.y WidgetSlice.Item.w
       WidgetSlice.Item.h].
  unfold DashboardGrid.layoutItem.
  cbn [DashboardGrid.x DashboardGrid.y DashboardGrid.w DashboardGrid.h].
  rewrite !orElse_twice by reflexivity. reflexivity.
Qed.

Lemma updateLayout_reported (ws : list WidgetSlice.Widget) (k : nat)
    (w : WidgetSlice.Widget) :
  NoDup (map WidgetSlice.id ws) ->
  nth_error ws k = Some w ->
  nth_error
    (fold_left (fun ws item => WidgetSlice.updateFirst item ws)
               (DashboardGrid.handleLayoutChange (DashboardGrid.layout ws))
               ws) k
  = Some (WidgetSlice.place w
            (DashboardGrid.toItem (DashboardGrid.layoutItem w k))).
Proof.
  intros N H.
  rewrite (fold_updateFirst _ ws k H), (earlier_NoDup ws k N H),
    (lastItem_own ws k N H).
  reflexivity.
Qed.

(** Reporting the layout of the grid back to the store changes nothing
    that the grid shows.  On a dashboard whose widgets have ids of their
    own, [updateLayout] with the layout that the grid has computed gives
    every widget the geometry of its entry; the layout computed from the
    new state is the same, and reporting it once more leaves the state as
    it is. *)
Theorem layout_round_trip (browser : bool)
    (state : WidgetSlice.WidgetState) :
  NoDup (map WidgetSlice.id (WidgetSlice.widgets state)) ->
  let report state :=
    WidgetSlice.state
      (WidgetSlice.updateLayout browser state
         (DashboardGrid.handleLayoutChange
            (DashboardGrid.layout (WidgetSlice.widgets state)))) in
  (forall k w,
      nth_error (WidgetSlice.widgets state) k = Some w ->
      nth_error (WidgetSlice.widgets (report state)) k
      = Some (WidgetSlice.place w
                (DashboardGrid.toItem (DashboardGrid.layoutItem w k))))
  /\ DashboardGrid.layout (WidgetSlice.widgets (report state))
     = DashboardGrid.layout (WidgetSlice.widgets state)
  /\ report (report state) = report state.
Proof.
  intros N report.
  assert (S1 : forall s,
             NoDup (map WidgetSlice.id (WidgetSlice.widgets s)) ->
             forall k,
               nth_error (WidgetSlice.widgets (report s)) k
               = option_map
                   (fun w => WidgetSlice.place w
                      (DashboardGrid.toItem (DashboardGrid.layoutItem w k)))
                   (nth_error (WidgetSlice.widgets s) k)).
  { intros s Ns k. unfold report. cbn.
    destruct (nth_error (WidgetSlice.widgets s) k) as [w|] eqn:E.
    - apply updateLayout_reported; assumption.
    - apply nth_error_None. apply nth_error_None in E.
      rewrite <- (length_map WidgetSlice.id), fold_updateFirst_ids,
        length_map. exact E. }
  assert (S2 : forall s,
             NoDup (map WidgetSlice.id (WidgetSlice.widgets s)) ->
             DashboardGrid.layout (WidgetSlice.widgets (report s))
             = DashboardGrid.layout (WidgetSlice.widgets s)).
  { intros s Ns. apply nth_error_ext. intros k.
    unfold DashboardGrid.layout. rewrite !nth_error_layoutFrom, (S1 s Ns).
    destruct (nth_error (WidgetSlice.widgets s) k) as [w|]; [|reflexivity].
    cbn [option_map Nat.add]. f_equal. apply layoutItem_place. }
  assert (N' : NoDup (map WidgetSlice.id
                          (WidgetSlice.widgets (report state)))).
  { unfold report. cbn. rewrite fold_updateFirst_ids. exact N. }
  split; [|split].
  - intros k w H. rewrite (S1 state N), H. reflexivity.
  - exact (S2 state N).
  - assert (W : WidgetSlice.widgets (report (report state))
                = WidgetSlice.widgets (report state)).
    { apply nth_error_ext. intros k. rewrite (S1 _ N'), (S1 state N).
      destruct (nth_error (WidgetSlice.widgets state) k) as [w|];
        [|reflexivity].
      cbn [option_map]. f_equal.
      rewrite layoutItem_place. reflexivity. }
    unfold report in *. cbn in *. rewrite W. reflexivity.
Qed.

Lemma layout_round_trip_witness :
  let state :=
    WidgetSlice.state
      (WidgetSlice.addWidget true WidgetSlice.dashboard
                             WidgetSlice.quoteCard) in
  let reported :=
    WidgetSlice.state
      (WidgetSlice.updateLayout true state
         (DashboardGrid.handleLayoutChange
            (DashboardGrid.layout (WidgetSlice.widgets state)))) in
  NoDup (map WidgetSlice.id (WidgetSlice.widgets state))
  /\ DashboardGrid.layout (WidgetSlice.widgets reported)
     = DashboardGrid.layout (WidgetSlice.widgets state).
Proof.
  cbv zeta.
  assert (N : NoDup (map WidgetSlice.id
                       (WidgetSlice.widgets
                          (WidgetSlice.state
                             (WidgetSlice.addWidget true
                                WidgetSlice.dashboard
                                WidgetSlice.quoteCard))))).
  { cbn. constructor.
    - intros [H|[]]. discriminate H.
    - constructor; [intros []|constructor]. }
  split; [exact N|].
  pose proof (@layout_round_trip true _ N) as H. cbv zeta in H.
  exact (proj1 (proj2 H)).
Defined.

(* ===================================================================== *)
(** * The fields that the configuration offers                            *)
(* ===================================================================== *)

Lemma filter_twice (A : Type) (p : A -> bool) (l : list A) :
  filter p (filter p l) = filter p l.
Proof.
  induction l as [|a l IH]; cbn; [reflexivity|].
  destruct (p a) eqn:E; cbn; [rewrite E, IH|]; [reflexivity | exact IH].
Qed.

Lemma extractFields_filtered
    (localeCompare : string -> string -> Z) (toDouble : N -> N)
    (data : value) (fields : list string) :
  Formatters.extractFields localeCompare toDouble data = Returns fields ->
  filter Formatters.keepField fields = fields.
Proof.
  unfold Formatters.extractFields.
  destruct (Js.truthy data) eqn:Ht; cbn [negb orb];
    [|intros [= <-]; reflexivity].
  destruct (Js.isObjectType data) eqn:Ho; cbn [negb orb];
    [|intros [= <-]; reflexivity].
  assert (G : forall r : outcome (list string),
             (fields0 <- r ;; Returns (filter Formatters.keepField fields0))
             = Returns fields ->
             filter Formatters.keepField fields = fields).
  { intros [l|]; cbn [bind]; [|discriminate].
    intros [= <-]. apply filter_twice. }
  destruct (Formatters.findTimeSeries data) eqn:E.
  - apply G.
  - rewrite (findDataStructure_without_series data Ht Ho E).
    destruct (find (Spec.acceptsQuote data) (Js.ownKeys data));
      cbn [ds_isTimeSeries negb]; apply G.
Qed.

(** The check of the names in [getFieldOptions] removes nothing: whatever
    [extractFields] returns passes it.  So the modal offers exactly the
    names of [extractFields], or, when there is a search, those of them
    that contain it, whatever the case of the letters; it offers none for a
    payload that is falsy, and it throws where [extractFields] throws. *)
Theorem getFieldOptions_offers_extractFields
    (localeCompare : string -> string -> Z) (toDouble : N -> N)
    (jsonData : value) (fieldSearch : string) :
  Modal.getFieldOptions localeCompare toDouble jsonData fieldSearch
  = if Js.truthy jsonData then
      fields <- Formatters.extractFields localeCompare toDouble jsonData ;;
      Returns (if Formatters.nonEmpty fieldSearch
               then filter (fun field =>
                              Str.includes (Modal.toLowerCase fieldSearch)
                                           (Modal.toLowerCase field))
                           fields
               else fields)
    else Returns [].
Proof.
  unfold Modal.getFieldOptions.
  destruct (Js.truthy jsonData); cbn [negb]; [|reflexivity].
  destruct (Formatters.extractFields localeCompare toDouble jsonData)
    as [fields|] eqn:E; cbn [bind]; [|reflexivity].
  assert (V : filter (fun field =>
                        if (String.length field =? 0)%nat then false
                        else if Str.isPureDigits field then false
                        else true) fields = fields).
  { rewrite <- (extractFields_filtered _ _ _ E) at 2.
    apply filter_ext. intros f. unfold Formatters.keepField,
      Formatters.nonEmpty.
    destruct f as [|a f]; [reflexivity|].
    change (String.length (String a f) =? 0)%nat with false.
    change (String.eqb (String a f) EmptyString) with false.
    cbn [negb andb].
    destruct (Str.isPureDigits (String a f)); reflexivity. }
  rewrite V. destruct (Formatters.nonEmpty fieldSearch); reflexivity.
Qed.
